(** * Subtitle extractor plugin: content identifiers and the extraction run

    A shallow embedding of [plugin.ts] (the midhash content identifier, the
    stream classifier [parseSubtitleStreams], the tool driver
    [extractSubtitle] and the run [process]) together with the properties
    stated for them. *)

From Stdlib Require Import ZArith List String Ascii Bool Lia.
From Stdlib.Strings Require Import Byte.
From Stdlib Require DecimalString DecimalNat.
From stdpp Require Import gmap strings list.
Import ListNotations.

Local Open Scope Z_scope.

(** ** Bytes *)

Definition byte_to_Z (b : byte) : Z := Z.of_N (Byte.to_N b).

Definition byte_of_Z (z : Z) : byte :=
  match Byte.of_N (Z.to_N (z mod 256)) with
  | Some b => b
  | None => x00
  end.

(** The [n] low bytes of [v], most significant first. *)
Definition be_bytes (n : nat) (v : Z) : list byte :=
  map (fun i => byte_of_Z (Z.shiftr v (8 * Z.of_nat i))) (rev (seq 0 n)).

(** ** SHA-256 *)

Module SHA256.

(** The hash behind [createHash('sha256')] is Node's, not the
    repository's; it is written out here after FIPS 180-4, over 32-bit
    words held in [Z]. *)
Definition w32 (x : Z) : Z := x mod 2 ^ 32.

Definition add32 (x y : Z) : Z := w32 (x + y).

Definition rotr (n x : Z) : Z :=
  Z.lor (Z.shiftr x n) (w32 (Z.shiftl x (32 - n))).

Definition not32 (x : Z) : Z := Z.lxor x 4294967295.

Definition Ch (x y z : Z) : Z := Z.lxor (Z.land x y) (Z.land (not32 x) z).

Definition Maj (x y z : Z) : Z :=
  Z.lxor (Z.lxor (Z.land x y) (Z.land x z)) (Z.land y z).

Definition Sigma0 (x : Z) : Z := Z.lxor (Z.lxor (rotr 2 x) (rotr 13 x)) (rotr 22 x).
Definition Sigma1 (x : Z) : Z := Z.lxor (Z.lxor (rotr 6 x) (rotr 11 x)) (rotr 25 x).
Definition sigma0 (x : Z) : Z := Z.lxor (Z.lxor (rotr 7 x) (rotr 18 x)) (Z.shiftr x 3).
Definition sigma1 (x : Z) : Z := Z.lxor (Z.lxor (rotr 17 x) (rotr 19 x)) (Z.shiftr x 10).

(** The round constants and the initial hash value are defined as the
    standard defines them: the first 32 bits of the fractional parts of the
    cube roots of the first 64 primes, and of the square roots of the
    first 8. *)
Definition is_prime (n : nat) : bool :=
  forallb (fun d => negb (Nat.eqb (Nat.modulo n d) 0)) (seq 2 (n - 2)).

Definition primes : list Z := map Z.of_nat (List.filter is_prime (seq 2 310)).

(** The integer cube root of [x], bit by bit from bit [n - 1] down. *)
Fixpoint cube_root (n : nat) (x r : Z) : Z :=
  match n with
  | O => r
  | S n' =>
      let c := r + 2 ^ Z.of_nat n' in
      if c * c * c <=? x then cube_root n' x c else cube_root n' x r
  end.

Definition K : list Z :=
  map (fun p => w32 (cube_root 36 (p * 2 ^ 96) 0)) primes.

(** The eight working variables a..h, also the running hash value. *)
Record state := State {
  ha : Z; hb : Z; hc : Z; hd : Z; he : Z; hf : Z; hg : Z; hh : Z }.

Definition frac_sqrt (p : Z) : Z := w32 (Z.sqrt (p * 2 ^ 64)).

Definition H0 : state :=
  State (frac_sqrt 2) (frac_sqrt 3) (frac_sqrt 5) (frac_sqrt 7)
        (frac_sqrt 11) (frac_sqrt 13) (frac_sqrt 17) (frac_sqrt 19).

(** Big-endian 32-bit words of a block of bytes. *)
Fixpoint words (bs : list byte) : list Z :=
  match bs with
  | b3 :: b2 :: b1 :: b0 :: r =>
      (byte_to_Z b3 * 16777216 + byte_to_Z b2 * 65536
       + byte_to_Z b1 * 256 + byte_to_Z b0) :: words r
  | _ => []
  end.

(** The message schedule, newest word first: [extend n rw] appends [n]
    words to the reversed schedule [rw]. *)
Fixpoint extend (n : nat) (rw : list Z) : list Z :=
  match n with
  | O => rw
  | S n' =>
      let w := add32 (add32 (sigma1 (nth 1 rw 0)) (nth 6 rw 0))
                     (add32 (sigma0 (nth 14 rw 0)) (nth 15 rw 0)) in
      extend n' (w :: rw)
  end.

Definition schedule (block : list byte) : list Z :=
  rev (extend 48 (rev (words block))).

Definition round (s : state) (kw : Z * Z) : state :=
  let t1 := add32 (add32 (add32 (hh s) (Sigma1 (he s)))
                         (add32 (Ch (he s) (hf s) (hg s)) (fst kw))) (snd kw) in
  let t2 := add32 (Sigma0 (ha s)) (Maj (ha s) (hb s) (hc s)) in
  State (add32 t1 t2) (ha s) (hb s) (hc s) (add32 (hd s) t1) (he s) (hf s) (hg s).

Definition compress (h : state) (block : list byte) : state :=
  let s := fold_left round (combine K (schedule block)) h in
  State (add32 (ha h) (ha s)) (add32 (hb h) (hb s)) (add32 (hc h) (hc s))
        (add32 (hd h) (hd s)) (add32 (he h) (he s)) (add32 (hf h) (hf s))
        (add32 (hg h) (hg s)) (add32 (hh h) (hh s)).

Fixpoint blocks (n : nat) (h : state) (bs : list byte) : state :=
  match n with
  | O => h
  | S n' => blocks n' (compress h (firstn 64 bs)) (skipn 64 bs)
  end.

Definition pad (msg : list byte) : list byte :=
  let len := Z.of_nat (length msg) in
  msg ++ x80 :: repeat x00 (Z.to_nat ((55 - len) mod 64)) ++ be_bytes 8 (8 * len).

Definition word_bytes (w : Z) : list byte := be_bytes 4 w.

Definition digest_of (s : state) : list byte :=
  word_bytes (ha s) ++ word_bytes (hb s) ++ word_bytes (hc s) ++ word_bytes (hd s)
  ++ word_bytes (he s) ++ word_bytes (hf s) ++ word_bytes (hg s) ++ word_bytes (hh s).

(** Modelled from the spec: [createHash('sha256').update(msg).digest()] of
    Node's [crypto] module, the 256-bit hash the specification names
    (SHA-256), which is not among the sources. *)
Definition sha256 (msg : list byte) : list byte :=
  let p := pad msg in
  digest_of (blocks (Nat.div (length p) 64) H0 p).

End SHA256.


(** ** JavaScript number and string primitives used by the plugin *)

Module JS.

(** The 32-bit signed integer a bitwise operator sees of a number. *)
Definition ToInt32 (z : Z) : Z := (z + 2 ^ 31) mod 2 ^ 32 - 2 ^ 31.

(** [a << n], [a >> n], [a | b] and [a & b]. *)
Definition shl (a n : Z) : Z := ToInt32 (Z.shiftl (ToInt32 a) (n mod 32)).
Definition sar (a n : Z) : Z := Z.shiftr (ToInt32 a) (n mod 32).
Definition bor (a b : Z) : Z := Z.lor (ToInt32 a) (ToInt32 b).
Definition band (a b : Z) : Z := Z.land (ToInt32 a) (ToInt32 b).

(** [s[i]] followed by string concatenation: an index outside the string
    reads [undefined], which concatenates as the text "undefined". *)
Definition index_text (s : string) (i : Z) : string :=
  match (if 0 <=? i then String.get (Z.to_nat i) s else None) with
  | Some c => String c EmptyString
  | None => "undefined"%string
  end.

(** A string is truthy when it is not empty; an absent property reads
    [undefined], which is falsy. *)
Definition truthy (v : option string) : bool :=
  match v with
  | Some (String _ _) => true
  | _ => false
  end.

(** [Number.MAX_SAFE_INTEGER]: up to here integers are exact. *)
Definition MAX_SAFE_INTEGER : Z := 2 ^ 53 - 1.

(** Decimal text of a non-negative integer, as a template literal prints it. *)
Definition nat_text (n : nat) : string :=
  DecimalString.NilZero.string_of_uint (Nat.to_uint n).

End JS.

(** ** The file system seen through [fs] *)

(** A path names a regular file with its bytes, or a directory with the
    size [statSync] reports for it. *)
Inductive Node :=
| File (data : list byte)
| Dir (reported : Z).

Definition existsSync (fs : gmap string Node) (p : string) : bool :=
  match fs !! p with
  | Some _ => true
  | None => false
  end.

(** [statSync(p).size]; [None] stands for the thrown ENOENT. *)
Definition statSync_size (fs : gmap string Node) (p : string) : option Z :=
  match fs !! p with
  | Some (File d) => Some (Z.of_nat (length d))
  | Some (Dir n) => Some n
  | None => None
  end.

(** [Buffer.allocUnsafe(n)]: the contents are unspecified; both buffers of
    [computeMidHash256Sync] are overwritten before they are read. *)
Definition Buffer_allocUnsafe (n : Z) : list byte := repeat x00 (Z.to_nat n).

(** [fd = openSync(p, 'r'); readSync(fd, buffer, 0, len, position);
    closeSync(fd)]: the bytes read replace the front of [buffer].  Opening a
    missing path and reading a directory throw. *)
Definition readSync (fs : gmap string Node) (p : string) (buffer : list byte)
    (len position : Z) : option (list byte) :=
  match fs !! p with
  | Some (File d) =>
      let got := firstn (Z.to_nat len) (skipn (Z.to_nat position) d) in
      Some (got ++ skipn (length got) buffer)
  | _ => None
  end.

(** [buf.writeBigUInt64BE(BigInt(v), 0)] on an 8-byte buffer; a value
    outside 64 bits throws. *)
Definition writeBigUInt64BE (buffer : list byte) (v : Z) : option (list byte) :=
  if (0 <=? v) && (v <? 2 ^ 64)
  then Some (be_bytes 8 v ++ skipn 8 buffer)
  else None.

(** ** computeMidHash256Sync *)

Definition SAMPLE_SIZE : Z := 1024 * 1024.
Definition MIDHASH_VARINT : list byte := [x80; x20].
Definition base32Chars : string := "abcdefghijklmnopqrstuvwxyz234567".

(** The inner [while (bits >= 5)] loop; it runs at most [bits / 5] times,
    so [Z.to_nat bits] iterations are always enough. *)
Fixpoint drain (fuel : nat) (value bits : Z) (cid : string) : Z * string :=
  match fuel with
  | O => (bits, cid)
  | S fuel' =>
      if 5 <=? bits then
        let bits := bits - 5 in
        drain fuel' value bits
          (String.append cid (JS.index_text base32Chars (JS.band (JS.sar value bits) 31)))
      else (bits, cid)
  end.

(** One turn of [for (const byte of cidBytes)] on (cid, bits, value). *)
Definition base32_step (st : string * Z * Z) (b : byte) : string * Z * Z :=
  let '(cid, bits, value) := st in
  let value := JS.bor (JS.shl value 8) (byte_to_Z b) in
  let bits := bits + 8 in
  let '(bits, cid) := drain (Z.to_nat bits) value bits cid in
  (cid, bits, value).

(** The trailing [if (bits > 0)] after the loop. *)
Definition base32_flush (st : string * Z * Z) : string :=
  let '(cid, bits, value) := st in
  if 0 <? bits
  then String.append cid (JS.index_text base32Chars (JS.band (JS.shl value (5 - bits)) 31))
  else cid.

Definition base32_loop (cidBytes : list byte) : string :=
  base32_flush (fold_left base32_step cidBytes ("b"%string, 0, 0)).

Definition computeMidHash256Sync (fs : gmap string Node) (filePath : string)
    : option string :=
  match statSync_size fs filePath with
  | None => None
  | Some fileSize =>
    match writeBigUInt64BE (Buffer_allocUnsafe 8) fileSize with
    | None => None
    | Some sizeBuffer =>
      let read :=
        if fileSize <=? SAMPLE_SIZE then
          readSync fs filePath (Buffer_allocUnsafe fileSize) fileSize 0
        else
          let middleOffset := (fileSize - SAMPLE_SIZE) / 2 in
          readSync fs filePath (Buffer_allocUnsafe SAMPLE_SIZE) SAMPLE_SIZE middleOffset in
      match read with
      | None => None
      | Some sampleData =>
        let hashInput := sizeBuffer ++ sampleData in
        let hashBuffer := SHA256.sha256 hashInput in
        let cidBytes := [x01] ++ MIDHASH_VARINT ++ MIDHASH_VARINT ++ [x20] ++ hashBuffer in
        Some (base32_loop cidBytes)
      end
    end
  end.

(** ** The identifier as the specification words it *)

(** The eight bits of a byte, most significant first. *)
Definition bits_of_byte (b : byte) : list bool :=
  map (fun i => Z.testbit (byte_to_Z b) (Z.of_nat i)) (rev (seq 0 8)).

(** The number a most-significant-first bit string denotes. *)
Definition bits_value (l : list bool) : Z :=
  fold_left (fun acc (b : bool) => 2 * acc + (if b then 1 else 0)) l 0.

(** Groups of five bits; a last group of fewer than five bits is shifted
    left (filled with zero bits on the right) to make one more symbol. *)
Fixpoint quintets (l : list bool) : list Z :=
  match l with
  | [] => []
  | b4 :: b3 :: b2 :: b1 :: b0 :: r => bits_value [b4; b3; b2; b1; b0] :: quintets r
  | short => [Z.shiftl (bits_value short) (5 - Z.of_nat (length short))]
  end.

Definition rfc4648_lower (i : Z) : string :=
  match String.get (Z.to_nat i) "abcdefghijklmnopqrstuvwxyz234567" with
  | Some c => String c EmptyString
  | None => EmptyString
  end.

Definition symbols (qs : list Z) : string :=
  fold_right (fun q s => String.append (rfc4648_lower q) s) EmptyString qs.

Definition base32_nopad (bs : list byte) : string :=
  symbols (quintets (flat_map bits_of_byte bs)).

(** The sample of a file of bytes [d]: all of it up to 1 MiB, else the
    centred window of exactly 1 MiB. *)
Definition sample_of (d : list byte) : list byte :=
  let L := Z.of_nat (length d) in
  if L <=? 1048576 then d
  else firstn (Z.to_nat 1048576) (skipn (Z.to_nat ((L - 1048576) / 2)) d).

Definition cid_structure (d : list byte) : list byte :=
  [x01; x80; x20; x80; x20; x20]
  ++ SHA256.sha256 (be_bytes 8 (Z.of_nat (length d)) ++ sample_of d).

Definition cid_of_bytes (d : list byte) : string :=
  String.append "b" (base32_nopad (cid_structure d)).

(** The digest input: the 8-byte big-endian length, then the sample. *)
Definition hash_input (d : list byte) : list byte :=
  be_bytes 8 (Z.of_nat (length d)) ++ sample_of d.

(** *** A file longer than 1 MiB *)

(** A file of 1 MiB + 2 bytes whose centred window starts with [w]: one
    byte, [w], zero bytes up to 1 MiB, one byte. *)
Definition window_file (w : list byte) : list byte :=
  [x00] ++ (w ++ repeat x00 (Z.to_nat 1048543)) ++ [x00].

(** ** Configuration and stream metadata *)

Definition PLUGIN_OUTPUT_PATH : string := "/output".

(** Image-based subtitle codecs that cannot be converted to text. *)
Definition UNSUPPORTED_SUBTITLE_CODECS : gset string :=
  {[ "hdmv_pgs_subtitle"; "pgssub"; "dvd_subtitle"; "dvdsub";
     "dvb_subtitle"; "dvbsub"; "xsub" ]}%string.

(** Supported text-based subtitle codecs.  The table is declared by
    [plugin.ts] and read nowhere in it. *)
Definition CODEC_EXTENSION_MAP : gmap string string :=
  {[ "subrip" := "srt"; "srt" := "srt"; "ass" := "ass"; "ssa" := "ssa";
     "webvtt" := "vtt"; "mov_text" := "srt"; "text" := "srt" ]}%string.

Record Config := {
  forceRecompute : bool;
  outputFormat : string }.

(** [configure(config)]: [forceRecompute] is set only by the boolean
    [true]; a missing or empty [outputFormat] falls back to srt. *)
Definition configure (force : option bool) (format : option string) : Config :=
  {| forceRecompute := match force with Some true => true | _ => false end;
     outputFormat := match format with
                     | Some (String c r) => String c r
                     | _ => "srt"%string
                     end |}.

Record SubtitleStream := {
  index : nat;
  codec : string;
  language : option string;
  title : option string }.

(** What [JSON.parse] makes of the [streams] field, read at the type the
    source casts it to: an entry is an object whose [codec_type],
    [codec_name] and tags are strings when present (an entry of another
    primitive type reads as an object without these properties), or [null],
    on which reading a property throws. *)
Record Tags := {
  tag_language : option string;
  tag_title : option string }.

Inductive StreamEntry :=
| EntryNull
| EntryObject (codec_type codec_name : option string) (tags : option Tags).

Inductive Parsed :=
| ParseThrows
| NotIterable
| Entries (l : list StreamEntry).

(** ** The run: state, events and the environment *)

Inductive Status := skipped | completed | failed.

Record CallbackPayload := {
  cb_taskId : string;
  status : Status;
  duration : Z;
  reason : option string;
  error : option string }.

(** One constructor per [console.log] / [console.error] of [plugin.ts]. *)
Inductive LogMsg :=
| LogRunning (subtitleIndex : nat)
| LogExtracted (subtitleIndex : nat) (size : Z)
| LogEmptyFile (subtitleIndex : nat)
| LogFailed (subtitleIndex : nat) (stderr : string)
| LogFfmpegError (message : string)
| LogAllImageBased (count : nat)
| LogFound (count : nat) (filePath : string)
| LogWebDAVInput (inputPath : string)
| LogAlreadyExists (outputFilename : string)
| LogCidFailed (e : string)
| LogSubtitleCid (subtitleCid : string)
| LogProcessFailed (e : string)
| LogExtractedCount (count : nat) (filePath : string)
| LogNoneExtracted (filePath : string)
| LogError (e : string).

Inductive Event :=
| EvConsole (m : LogMsg)
| EvCallback (p : CallbackPayload)
| EvMkdir (path : string)
| EvSpawn (command : string) (args : list string)
| EvKill (signal : string)
| EvUnlink (path : string)
| EvAddToSet (cid key value : string)
  (** what a handler of [extractSubtitle] does after the promise has
      settled: it happens later, at a time the run does not wait for *)
| EvLater (e : Event).

(** The state a run threads: the file system, the metadata store behind
    [metaCore], the events so far (oldest first) and the two local arrays
    of [process].  The events are in the order of the run's own steps; an
    [EvLater e] among them tells that [e] follows at some later time. *)
Record State := {
  fs : gmap string Node;
  store : gmap (string * string) (gset string);
  trace : list Event;
  extractedCids : list string;
  extractedLanguages : list string }.

(** How a spawned tool ends when nobody kills it: the time in ms after
    [spawn] of its [close] event with the exit code ([None] when a signal
    ended it), or of its [error] event, or never. *)
Inductive ToolEnd :=
| Exits (t : Z) (code : option Z)
| SpawnFails (t : Z) (message : string)
| Hangs.

Record ToolRun := {
  tool_end : ToolEnd;
  tool_stderr : string;
  (** the file system when the promise of [extractSubtitle] settles *)
  tool_fs : gmap string Node }.

(** Everything outside the plugin's own code. *)
Record Env := {
  JSON_parse : string -> Parsed;
  path_join : string -> string -> string;
  WEBDAV_URL : option string;
  Date_now : State -> Z;
  (** the size [statSync] reports of the directory made; [None] when
      [mkdirSync] throws *)
  mkdirSync_result : State -> string -> option Z;
  ffmpeg : State -> list string -> ToolRun;
  addToSet_ok : State -> string -> string -> string -> bool }.

(** *** State and exception monad *)

Definition M (A : Type) : Type := State -> State * (A + string).

Definition ret {A} (a : A) : M A := fun s => (s, inl a).

Definition bind {A B} (m : M A) (k : A -> M B) : M B :=
  fun s => match m s with
           | (s', inl a) => k a s'
           | (s', inr e) => (s', inr e)
           end.

Definition throw {A} (e : string) : M A := fun s => (s, inr e).

(** [try { m } catch (e) { h e }]: what [m] did to the state stays. *)
Definition try_catch {A} (m : M A) (h : string -> M A) : M A :=
  fun s => match m s with
           | (s', inl a) => (s', inl a)
           | (s', inr e) => h e s'
           end.

Definition get : M State := fun s => (s, inl s).

Definition modify (f : State -> State) : M unit := fun s => (f s, inl tt).

(** The monad is used through stdpp's notations [x ← m; k] and [m ;; k]. *)
#[export] Instance M_ret : MRet M := @ret.
#[export] Instance M_bind : MBind M := fun A B k m => bind m k.

Definition emit (e : Event) : M unit :=
  modify (fun s => {| fs := fs s; store := store s; trace := trace s ++ [e];
                      extractedCids := extractedCids s;
                      extractedLanguages := extractedLanguages s |}).

Definition console (m : LogMsg) : M unit := emit (EvConsole m).

Definition set_fs (f : gmap string Node) : M unit :=
  modify (fun s => {| fs := f; store := store s; trace := trace s;
                      extractedCids := extractedCids s;
                      extractedLanguages := extractedLanguages s |}).

Definition push_cid (c : string) : M unit :=
  modify (fun s => {| fs := fs s; store := store s; trace := trace s;
                      extractedCids := extractedCids s ++ [c];
                      extractedLanguages := extractedLanguages s |}).

Definition push_language (l : string) : M unit :=
  modify (fun s => {| fs := fs s; store := store s; trace := trace s;
                      extractedCids := extractedCids s;
                      extractedLanguages := extractedLanguages s ++ [l] |}).

(** [sendCallback(payload)]; the callback [index.ts] passes catches its
    own errors, so the call never throws. *)
Definition sendCallback (p : CallbackPayload) : M unit := emit (EvCallback p).

(** ** sanitizeFilename *)

(** The characters the first [replace] removes: less-than, greater-than,
    colon, double quote, slash, backslash, bar, question mark and star. *)
Definition is_invalid_char (c : ascii) : bool :=
  existsb (Nat.eqb (nat_of_ascii c)) [60; 62; 58; 34; 47; 92; 124; 63; 42]%nat.

(** The characters of [\s], which are also those [trim] removes, among
    the characters up to 255: tab, line feed, vertical tab, form feed,
    carriage return, space and the no-break space (160).  Strings are
    sequences of 8-bit characters here, read as the characters of these
    codes; the white space of [\s] above 255 cannot be written in them. *)
Definition is_space (c : ascii) : bool :=
  existsb (Nat.eqb (nat_of_ascii c)) [9; 10; 11; 12; 13; 32; 160]%nat.

(** [.replace(/\s+/g, ' ')]; [inrun] tells that the run being read already
    produced its space. *)
Fixpoint collapse_spaces (inrun : bool) (l : list ascii) : list ascii :=
  match l with
  | [] => []
  | c :: r =>
      if is_space c
      then (if inrun then collapse_spaces true r else " "%char :: collapse_spaces true r)
      else c :: collapse_spaces false r
  end.

Fixpoint trim_start (l : list ascii) : list ascii :=
  match l with
  | c :: r => if is_space c then trim_start r else l
  | [] => []
  end.

Definition trim (l : list ascii) : list ascii :=
  rev (trim_start (rev (trim_start l))).

Definition sanitizeFilename (name : string) : string :=
  string_of_list_ascii
    (trim (collapse_spaces false
             (List.filter (fun c => negb (is_invalid_char c)) (list_ascii_of_string name)))).

(** ** WebDAVClient *)

(** [baseUrl.replace(/\/$/, '')]: one trailing slash is removed. *)
Definition strip_trailing_slash (s : string) : string :=
  match rev (list_ascii_of_string s) with
  | c :: r => if Ascii.eqb c "/" then string_of_list_ascii (rev r) else s
  | [] => s
  end.

Definition substring_from (n : nat) (s : string) : string :=
  String.substring n (String.length s - n) s.

Definition toWebDAVUrl (baseUrl filePath : string) : string :=
  let relativePath :=
    if String.prefix "/files/" filePath then substring_from 6 filePath
    else if String.prefix "/files" filePath then substring_from 6 filePath
    else filePath in
  let relativePath :=
    if String.prefix "/" relativePath then relativePath
    else ("/" +:+ relativePath)%string in
  (baseUrl +:+ relativePath)%string.

(** [createWebDAVClient()]: no client without a non-empty [WEBDAV_URL];
    the result is the client's [baseUrl]. *)
Definition createWebDAVClient (E : Env) : option string :=
  match WEBDAV_URL E with
  | Some (String c r) => Some (strip_trailing_slash (String c r))
  | _ => None
  end.

(** ** parseSubtitleStreams *)

Definition or_else (v : option string) (d : string) : string :=
  match v with
  | Some (String c r) => String c r
  | _ => d
  end.

(** The [for (const stream of allStreams)] loop inside the [try]: a [null]
    entry throws at [stream.codec_type], the empty [catch] swallows it, and
    what was pushed before stays in [streams]. *)
Fixpoint scan_entries (entries : list StreamEntry) (subtitleIndex : nat)
    (streams : list SubtitleStream) : list SubtitleStream :=
  match entries with
  | [] => streams
  | EntryNull :: _ => streams
  | EntryObject ctype cname tags :: rest =>
      match ctype with
      | Some t =>
          if String.eqb t "subtitle" then
            scan_entries rest (S subtitleIndex)
              (streams ++ [ {| index := subtitleIndex;
                               codec := or_else cname "unknown";
                               language := match tags with
                                           | Some g => tag_language g
                                           | None => None
                                           end;
                               title := match tags with
                                        | Some g => tag_title g
                                        | None => None
                                        end |} ])
          else scan_entries rest subtitleIndex streams
      | None => scan_entries rest subtitleIndex streams
      end
  end.

Definition subtitle_key (i : nat) (suffix : string) : string :=
  ("subtitle_" +:+ JS.nat_text i +:+ suffix)%string.

(** One turn of the fallback loop [for (let i = 0; i < 20; i++)]. *)
Definition scan_field (existingMeta : gmap string string)
    (streams : list SubtitleStream) (i : nat) : list SubtitleStream :=
  let codec := existingMeta !! subtitle_key i "_codec" in
  if JS.truthy codec then
    streams ++ [ {| index := i;
                    codec := or_else codec "";
                    language := existingMeta !! subtitle_key i "_language";
                    title := existingMeta !! subtitle_key i "_title" |} ]
  else streams.

(** The first stage: the [streams] field, when it is there and parses. *)
Definition json_streams (E : Env) (existingMeta : gmap string string)
    : list SubtitleStream :=
  let streamsJson := existingMeta !! "streams"%string in
  if JS.truthy streamsJson then
    match JSON_parse E (or_else streamsJson "") with
    | Entries allStreams => scan_entries allStreams 0 []
    | ParseThrows | NotIterable => []
    end
  else [].

Definition parseSubtitleStreams (E : Env) (existingMeta : gmap string string)
    : list SubtitleStream :=
  let streams := json_streams E existingMeta in
  match streams with
  | [] => fold_left (scan_field existingMeta) (seq 0 20) streams
  | _ => streams
  end.

(** *** The classifier's result, described entry by entry *)

Definition is_subtitle_entry (e : StreamEntry) : bool :=
  match e with
  | EntryObject (Some t) _ _ => String.eqb t "subtitle"
  | _ => false
  end.

(** The entries the loop gets to see: those before the first [null]. *)
Fixpoint before_null (entries : list StreamEntry) : list StreamEntry :=
  match entries with
  | [] => []
  | EntryNull :: _ => []
  | e :: rest => e :: before_null rest
  end.

Definition retained_entries (entries : list StreamEntry) : list StreamEntry :=
  List.filter is_subtitle_entry (before_null entries).

Definition entry_codec (e : StreamEntry) : string :=
  match e with
  | EntryObject _ cname _ => or_else cname "unknown"
  | EntryNull => "unknown"%string
  end.

(** The numbers [i] below 20 whose field [subtitle_i_codec] is not empty. *)
Definition present_fields (existingMeta : gmap string string) : list nat :=
  List.filter (fun i => JS.truthy (existingMeta !! subtitle_key i "_codec")) (seq 0 20).

(** ** extractSubtitle *)

Definition unlinkSync (path : string) : M unit :=
  emit (EvUnlink path) ;;
  s ← get;
  match fs s !! path with
  | Some (File _) => set_fs (delete path (fs s))
  | Some (Dir _) => throw "EISDIR"
  | None => throw "ENOENT"
  end.

(** The handler of the tool's [close] event; its result is what the
    promise resolves to.  [statSync] is reached only for a path that
    exists, so the size it reads is always there. *)
Definition on_close (outputPath : string) (subtitleIndex : nat)
    (code : option Z) (stderr : string) : M bool :=
  s ← get;
  if (match code with Some 0 => true | _ => false end) && existsSync (fs s) outputPath
  then
    let size := match statSync_size (fs s) outputPath with Some n => n | None => 0 end in
    if 10 <? size then
      console (LogExtracted subtitleIndex size) ;;
      ret true
    else
      console (LogEmptyFile subtitleIndex) ;;
      try_catch (unlinkSync outputPath) (fun _ => ret tt) ;;
      ret false
  else
    console (LogFailed subtitleIndex (String.substring 0 200 stderr)) ;;
    ret false.

(** The arguments [extractSubtitle] hands to [spawn('ffmpeg', args)]. *)
Definition ffmpeg_args (cfg : Config) (inputPath outputPath : string)
    (subtitleIndex : nat) : list string :=
  let outputCodec :=
    if String.eqb (outputFormat cfg) "vtt" then "webvtt"%string
    else if String.eqb (outputFormat cfg) "ass" then "ass"%string
    else "srt"%string in
  [ "-y"; "-hide_banner"; "-loglevel"; "error"; "-probesize"; "1M";
    "-analyzeduration"; "1M"; "-i"; inputPath;
    "-map"; "0:s:" +:+ JS.nat_text subtitleIndex;
    "-c:s"; outputCodec; outputPath ]%string.

(** The event loop hands the promise executor's three callbacks the first
    event that is due: the tool's [close] or [error] when it comes before
    the timer set by [setTimeout(..., delay)], else the timer.  The second
    component is the time of that event in ms after [spawn]. *)
Inductive Dispatch :=
| OnClose (code : option Z)
| OnError (message : string)
| OnTimer.

Definition first_event (e : ToolEnd) (delay : Z) : Dispatch * Z :=
  match e with
  | Exits t code => if t <? delay then (OnClose code, t) else (OnTimer, delay)
  | SpawnFails t message => if t <? delay then (OnError message, t) else (OnTimer, delay)
  | Hangs => (OnTimer, delay)
  end.

(** [extractSubtitle(inputPath, outputPath, subtitleIndex, codec)]; the
    result is the value the promise resolves to first.  [spawn] reports a
    tool that cannot be started through the [error] event.

    The handlers that did not settle the promise still run, and their
    [resolve] is ignored.  The timer is never cleared: after a tool that
    ended in time it fires at 120000 ms and calls [kill] on a process that
    is gone.  After an [error] event the [close] event follows with a code
    that is not 0, and a tool the timer kills closes with a signal (the
    tool runs until its [close] event): in both cases the [close] handler
    takes its last branch and logs the failure.  A tool that fails to
    start only after the timer has fired reports that through the [error]
    handler first.  The run does not wait for any of this, so it can come
    after the callback of [process]; the trace records it as [EvLater], in
    its own order, at the place where the promise settles. *)
Definition extractSubtitle (E : Env) (cfg : Config)
    (inputPath outputPath : string) (subtitleIndex : nat) (codec : string) : M bool :=
  let args := ffmpeg_args cfg inputPath outputPath subtitleIndex in
  console (LogRunning subtitleIndex) ;;
  emit (EvSpawn "ffmpeg" args) ;;
  s ← get;
  let run := ffmpeg E s args in
  let close_later :=
    emit (EvLater (EvConsole (LogFailed subtitleIndex
                                (String.substring 0 200 (tool_stderr run))))) in
  set_fs (tool_fs run) ;;
  match fst (first_event (tool_end run) 120000) with
  | OnClose code =>
      extracted ← on_close outputPath subtitleIndex code (tool_stderr run);
      emit (EvLater (EvKill "SIGKILL")) ;;
      ret extracted
  | OnError message =>
      console (LogFfmpegError message) ;;
      close_later ;;
      emit (EvLater (EvKill "SIGKILL")) ;;
      ret false
  | OnTimer =>
      emit (EvKill "SIGKILL") ;;
      match tool_end run with
      | SpawnFails _ message => emit (EvLater (EvConsole (LogFfmpegError message)))
      | _ => ret tt
      end ;;
      close_later ;;
      ret false
  end.

(** ** process *)

Record ProcessRequest := {
  taskId : string;
  cid : string;
  filePath : string;
  callbackUrl : string;
  metaCoreUrl : string;
  existingMeta : option (gmap string string) }.

(** [existingMeta?.key] *)
Definition meta_field (existingMeta : option (gmap string string)) (key : string)
    : option string :=
  match existingMeta with
  | Some m => m !! key
  | None => None
  end.

Definition set_store (st : gmap (string * string) (gset string)) : M unit :=
  modify (fun s => {| fs := fs s; store := st; trace := trace s;
                      extractedCids := extractedCids s;
                      extractedLanguages := extractedLanguages s |}).

(** Modelled from the spec: [MetaCoreClient.addToSet] of
    [meta-core-client.ts], which is not among the sources: the value joins
    the set stored under the key of the video, adding a member twice
    changes nothing, and the call can fail with an I/O error. *)
Definition addToSet (E : Env) (videoCid key value : string) : M unit :=
  emit (EvAddToSet videoCid key value) ;;
  s ← get;
  if addToSet_ok E s videoCid key value
  then set_store (<[ (videoCid, key) :=
                       {[ value ]} ∪ default ∅ (store s !! (videoCid, key)) ]> (store s))
  else throw "addToSet failed".

(** [mkdirSync(path, { recursive: true })] *)
Definition mkdirSync (E : Env) (path : string) : M unit :=
  emit (EvMkdir path) ;;
  s ← get;
  match mkdirSync_result E s path with
  | Some reported => set_fs (<[ path := Dir reported ]> (fs s))
  | None => throw "mkdir failed"
  end.

(** [computeMidHash256Sync] inside a [try]: a failing [fs] call throws. *)
Definition computeCid (path : string) : M string :=
  s ← get;
  match computeMidHash256Sync (fs s) path with
  | Some c => ret c
  | None => throw "fs error"
  end.

(** [if (sub.language && !extractedLanguages.includes(sub.language))
    extractedLanguages.push(sub.language)] *)
Definition note_language (sub : SubtitleStream) : M unit :=
  s ← get;
  match language sub with
  | Some (String c r) =>
      if existsb (String.eqb (String c r)) (extractedLanguages s)
      then ret tt
      else push_language (String c r)
  | _ => ret tt
  end.

Definition langSuffix_of (sub : SubtitleStream) : string :=
  match language sub with
  | Some (String c r) => ("." +:+ String c r)%string
  | _ => ("." +:+ JS.nat_text (index sub))%string
  end.

Definition outputFilename_of (cfg : Config) (safeTitle yearStr videoCid : string)
    (sub : SubtitleStream) : string :=
  (safeTitle +:+ yearStr +:+ "[" +:+ videoCid +:+ "]_subtitle"
   +:+ langSuffix_of sub +:+ "." +:+ outputFormat cfg)%string.

(** The body of [for (const sub of textSubtitles)]. *)
Definition process_stream (E : Env) (cfg : Config)
    (videoCid inputPath safeTitle yearStr : string) (sub : SubtitleStream) : M unit :=
  let outputFilename := outputFilename_of cfg safeTitle yearStr videoCid sub in
  let outputPath := path_join E PLUGIN_OUTPUT_PATH outputFilename in
  s ← get;
  if existsSync (fs s) outputPath && negb (forceRecompute cfg) then
    console (LogAlreadyExists outputFilename) ;;
    try_catch
      (subtitleCid ← computeCid outputPath;
       push_cid subtitleCid ;;
       note_language sub)
      (fun e => console (LogCidFailed e))
  else
    extracted ← extractSubtitle E cfg inputPath outputPath (index sub) (codec sub);
    if extracted : bool then
      try_catch
        (subtitleCid ← computeCid outputPath;
         console (LogSubtitleCid subtitleCid) ;;
         push_cid subtitleCid ;;
         note_language sub ;;
         addToSet E videoCid "extractedSubtitles" subtitleCid ;;
         match language sub with
         | Some (String c r) => addToSet E videoCid "subtitleLanguages" (String c r)
         | _ => ret tt
         end)
        (fun e => console (LogProcessFailed e))
    else ret tt.

Fixpoint for_each {A} (l : list A) (body : A -> M unit) : M unit :=
  match l with
  | [] => ret tt
  | x :: r => body x ;; for_each r body
  end.

Definition is_text_subtitle (s : SubtitleStream) : bool :=
  negb (bool_decide (codec s ∈ UNSUPPORTED_SUBTITLE_CODECS)).

Definition report (E : Env) (request : ProcessRequest) (startTime : Z)
    (st : Status) (why err : option string) : M unit :=
  s ← get;
  sendCallback {| cb_taskId := taskId request; status := st;
                  duration := Date_now E s - startTime;
                  reason := why; error := err |}.

Definition clear_arrays : M unit :=
  modify (fun s => {| fs := fs s; store := store s; trace := trace s;
                      extractedCids := []; extractedLanguages := [] |}).

(** [filePath], or its WebDAV URL when a client is configured. *)
Definition inputPath_of (E : Env) (request : ProcessRequest) : string :=
  match createWebDAVClient E with
  | Some baseUrl => toWebDAVUrl baseUrl (filePath request)
  | None => filePath request
  end.

(** [existingMeta?.originalTitle || existingMeta?.title ||
    existingMeta?.fileName || 'video'] *)
Definition title_of (request : ProcessRequest) : string :=
  let meta := existingMeta request in
  or_else (meta_field meta "originalTitle")
    (or_else (meta_field meta "title")
       (or_else (meta_field meta "fileName") "video")).

Definition yearStr_of (request : ProcessRequest) : string :=
  match meta_field (existingMeta request) "movieYear" with
  | Some (String c r) => (" (" +:+ String c r +:+ ")")%string
  | _ => EmptyString
  end.

(** The [try] block of [process]; each early [return] is the end of its
    branch. *)
Definition process_try (E : Env) (cfg : Config) (request : ProcessRequest)
    (startTime : Z) : M unit :=
  let meta := existingMeta request in
  if negb (bool_decide (meta_field meta "fileType" = Some "video"%string)) then
    report E request startTime skipped (Some "Not a video file"%string) None
  else if JS.truthy (meta_field meta "extractedSubtitles") && negb (forceRecompute cfg) then
    report E request startTime skipped (Some "Subtitles already extracted"%string) None
  else
    let subtitleStreams := parseSubtitleStreams E (default ∅ meta) in
    if (length subtitleStreams =? 0)%nat then
      report E request startTime skipped (Some "No subtitle streams found"%string) None
    else
      let textSubtitles := List.filter is_text_subtitle subtitleStreams in
      if (length textSubtitles =? 0)%nat then
        console (LogAllImageBased (length subtitleStreams)) ;;
        report E request startTime skipped
          (Some "Only image-based subtitles (cannot convert to text)"%string) None
      else
        console (LogFound (length textSubtitles) (filePath request)) ;;
        let inputPath := inputPath_of E request in
        (match createWebDAVClient E with
         | Some _ => console (LogWebDAVInput inputPath)
         | None => ret tt
         end) ;;
        s ← get;
        (if existsSync (fs s) PLUGIN_OUTPUT_PATH then ret tt
         else mkdirSync E PLUGIN_OUTPUT_PATH) ;;
        let safeTitle := sanitizeFilename (title_of request) in
        let yearStr := yearStr_of request in
        clear_arrays ;;
        for_each textSubtitles
          (process_stream E cfg (cid request) inputPath safeTitle yearStr) ;;
        s ← get;
        console (if (0 <? length (extractedCids s))%nat
                 then LogExtractedCount (length (extractedCids s)) (filePath request)
                 else LogNoneExtracted (filePath request)) ;;
        report E request startTime completed None None.

(** [process(request, sendCallback)]: the state it leaves. *)
Definition process (E : Env) (cfg : Config) (request : ProcessRequest)
    (s0 : State) : State :=
  let startTime := Date_now E s0 in
  fst (try_catch (process_try E cfg request startTime)
         (fun e => console (LogError e) ;;
                   report E request startTime failed None (Some e)) s0).

(** *** What a run did, read off its trace *)

Definition callbacks (t : list Event) : list CallbackPayload :=
  flat_map (fun e => match e with EvCallback p => [p] | _ => [] end) t.

Definition spawns (t : list Event) : list (list string) :=
  flat_map (fun e => match e with EvSpawn _ args => [args] | _ => [] end) t.

Definition unlinks (t : list Event) : list string :=
  flat_map (fun e => match e with EvUnlink p => [p] | _ => [] end) t.

Definition adds (t : list Event) : list (string * string * string) :=
  flat_map (fun e => match e with EvAddToSet c k v => [(c, k, v)] | _ => [] end) t.

(** Calls that write to the disk or to the metadata store. *)
Definition is_write (e : Event) : bool :=
  match e with
  | EvMkdir _ | EvSpawn _ _ | EvUnlink _ | EvAddToSet _ _ _ => true
  | _ => false
  end.

Definition only_console (evs : list Event) : Prop :=
  Forall (fun e => exists m, e = EvConsole m) evs.

Definition initial (f : gmap string Node)
    (st : gmap (string * string) (gset string)) : State :=
  {| fs := f; store := st; trace := []; extractedCids := [];
     extractedLanguages := [] |}.

(** The state in which [extractSubtitle] consults the tool. *)
Definition spawned (s : State) (i : nat) (args : list string) : State :=
  {| fs := fs s; store := store s;
     trace := (trace s ++ [EvConsole (LogRunning i)]) ++ [EvSpawn "ffmpeg" args];
     extractedCids := extractedCids s; extractedLanguages := extractedLanguages s |}.

(** The output path and the tool arguments [process] derives for a stream. *)
Definition outputPath_of (E : Env) (cfg : Config) (request : ProcessRequest)
    (sub : SubtitleStream) : string :=
  path_join E PLUGIN_OUTPUT_PATH
    (outputFilename_of cfg (sanitizeFilename (title_of request)) (yearStr_of request)
       (cid request) sub).

Definition args_of (E : Env) (cfg : Config) (request : ProcessRequest)
    (sub : SubtitleStream) : list string :=
  ffmpeg_args cfg (inputPath_of E request) (outputPath_of E cfg request sub) (index sub).

(** A stream was taken up by the loop: it was found extracted already, or
    the tool was started for it. *)
Definition visited (E : Env) (cfg : Config) (request : ProcessRequest)
    (sub : SubtitleStream) (evs : list Event) : Prop :=
  In (EvConsole (LogAlreadyExists
        (outputFilename_of cfg (sanitizeFilename (title_of request))
           (yearStr_of request) (cid request) sub))) evs
  \/ In (EvSpawn "ffmpeg" (args_of E cfg request sub)) evs.

Definition textSubtitles_of (E : Env) (request : ProcessRequest) : list SubtitleStream :=
  List.filter is_text_subtitle
    (parseSubtitleStreams E (default ∅ (existingMeta request))).

(** ** Concrete environments and requests *)

Module Scenario.

(** [path.join] of a directory and a plain file name. *)
Definition join (a b : string) : string := (a +:+ "/" +:+ b)%string.

(** A tool that leaves [bytes] at its output path, the last argument, and
    ends as [e] says. *)
Definition tool_writes (bytes : list byte) (e : ToolEnd)
    (s : State) (args : list string) : ToolRun :=
  {| tool_end := e; tool_stderr := EmptyString;
     tool_fs := <[ List.last args EmptyString := File bytes ]> (fs s) |}.

Definition tool_hangs (s : State) (args : list string) : ToolRun :=
  {| tool_end := Hangs; tool_stderr := EmptyString; tool_fs := fs s |}.

Definition env (tool : State -> list string -> ToolRun) : Env :=
  {| JSON_parse := fun _ => ParseThrows;
     path_join := join;
     WEBDAV_URL := None;
     Date_now := fun s => Z.of_nat (length (trace s));
     mkdirSync_result := fun _ _ => Some 4096;
     ffmpeg := tool;
     addToSet_ok := fun _ _ _ _ => true |}.

(** The tool writes a subtitle file of 20 bytes and exits with code 0. *)
Definition E_ok : Env := env (tool_writes (repeat x41 20) (Exits 500 (Some 0))).

(** The tool exits with code 1 and leaves 100 bytes of output behind. *)
Definition E_partial : Env := env (tool_writes (repeat x41 100) (Exits 500 (Some 1))).

Definition E_hangs : Env := env tool_hangs.

Definition cfg : Config := configure None None.

Definition request (meta : gmap string string) : ProcessRequest :=
  {| taskId := "task-1"; cid := "bafkvideo"; filePath := "/files/movie.mkv";
     callbackUrl := "http://core/callback"; metaCoreUrl := "http://core";
     existingMeta := Some meta |}.

Definition meta_subrip : gmap string string :=
  {[ "fileType" := "video"; "title" := "Movie";
     "subtitle_0_codec" := "subrip"; "subtitle_0_language" := "eng" ]}%string.

Definition meta_unknown_codec : gmap string string :=
  {[ "fileType" := "video"; "title" := "Movie";
     "subtitle_0_codec" := "unknown" ]}%string.

Definition meta_image_only : gmap string string :=
  {[ "fileType" := "video"; "title" := "Movie";
     "subtitle_0_codec" := "hdmv_pgs_subtitle" ]}%string.

Definition meta_gap : gmap string string :=
  {[ "fileType" := "video"; "subtitle_1_codec" := "subrip" ]}%string.

Definition stream (i : nat) (c : string) (lang : option string) : SubtitleStream :=
  {| index := i; codec := c; language := lang; title := None |}.

Definition eng_srt : string := "/output/Movie[bafkvideo]_subtitle.eng.srt".

End Scenario.

(** ** Test vectors *)

Definition bytes_of_string (s : string) : list byte :=
  map byte_of_ascii (list_ascii_of_string s).

Definition hex_digit (n : Z) : ascii :=
  match String.get (Z.to_nat n) "0123456789abcdef" with
  | Some c => c
  | None => "?"%char
  end.

Definition hex (bs : list byte) : string :=
  string_of_list_ascii
    (flat_map (fun b => [hex_digit (byte_to_Z b / 16); hex_digit (byte_to_Z b mod 16)]) bs).

(** ** Further definitions: buffers and numbers *)

(** [computeMidHash256Sync] with [Buffer.allocUnsafe] left open: [alloc n]
    is whatever the fresh buffer of [n] bytes holds. *)
Definition computeMidHash256Sync_alloc (alloc : Z -> list byte)
    (fs : gmap string Node) (filePath : string) : option string :=
  match statSync_size fs filePath with
  | None => None
  | Some fileSize =>
    match writeBigUInt64BE (alloc 8) fileSize with
    | None => None
    | Some sizeBuffer =>
      let read :=
        if fileSize <=? SAMPLE_SIZE then
          readSync fs filePath (alloc fileSize) fileSize 0
        else
          let middleOffset := (fileSize - SAMPLE_SIZE) / 2 in
          readSync fs filePath (alloc SAMPLE_SIZE) SAMPLE_SIZE middleOffset in
      match read with
      | None => None
      | Some sampleData =>
        let hashInput := sizeBuffer ++ sampleData in
        let hashBuffer := SHA256.sha256 hashInput in
        let cidBytes := [x01] ++ MIDHASH_VARINT ++ MIDHASH_VARINT ++ [x20] ++ hashBuffer in
        Some (base32_loop cidBytes)
      end
    end
  end.

(** The number a big-endian byte string denotes. *)
Definition be_value (bs : list byte) : Z :=
  fold_left (fun acc b => 256 * acc + byte_to_Z b) bs 0.

(** The events of one stream's turn. *)
Definition stream_event (vc op : string) (args : list string) (e : Event) : Prop :=
  match e with
  | EvConsole _ => True
  | EvSpawn command a => command = "ffmpeg"%string /\ a = args
  | EvKill signal => signal = "SIGKILL"%string
  | EvUnlink path => path = op
  | EvAddToSet c key _ =>
      c = vc /\ (key = "extractedSubtitles"%string \/ key = "subtitleLanguages"%string)
  | EvLater (EvConsole _) => True
  | EvLater (EvKill signal) => signal = "SIGKILL"%string
  | _ => False
  end.

(** What a run on [request] may do to the outside: log, report, make the
    output directory, start the tool for a text stream of the request with
    the arguments derived for it, kill it, delete the output file of such
    a stream, and add to the two sets of the request's video.  What the
    handlers of [extractSubtitle] do later is a log or a [kill]. *)
Definition allowed_event (E : Env) (cfg : Config) (request : ProcessRequest)
    (e : Event) : Prop :=
  match e with
  | EvConsole _ | EvCallback _ => True
  | EvMkdir path => path = PLUGIN_OUTPUT_PATH
  | EvSpawn command args =>
      command = "ffmpeg"%string
      /\ exists sub, In sub (textSubtitles_of E request)
                     /\ args = args_of E cfg request sub
  | EvKill signal => signal = "SIGKILL"%string
  | EvUnlink path =>
      exists sub, In sub (textSubtitles_of E request)
                  /\ path = outputPath_of E cfg request sub
  | EvAddToSet videoCid key _ =>
      videoCid = cid request
      /\ (key = "extractedSubtitles"%string \/ key = "subtitleLanguages"%string)
  | EvLater (EvConsole _) => True
  | EvLater (EvKill signal) => signal = "SIGKILL"%string
  | EvLater _ => False
  end.

(** ** More environments *)

Module Cases.

Import Scenario.

(** The metadata store refuses every write. *)
Definition E_store_down : Env :=
  {| JSON_parse := fun _ => ParseThrows;
     path_join := join;
     WEBDAV_URL := None;
     Date_now := fun s => Z.of_nat (length (trace s));
     mkdirSync_result := fun _ _ => Some 4096;
     ffmpeg := tool_writes (repeat x41 20) (Exits 500 (Some 0));
     addToSet_ok := fun _ _ _ _ => false |}.

(** [mkdirSync] throws. *)
Definition E_no_mkdir : Env :=
  {| JSON_parse := fun _ => ParseThrows;
     path_join := join;
     WEBDAV_URL := None;
     Date_now := fun s => Z.of_nat (length (trace s));
     mkdirSync_result := fun _ _ => None;
     ffmpeg := tool_writes (repeat x41 20) (Exits 500 (Some 0));
     addToSet_ok := fun _ _ _ _ => true |}.

(** Files are read through WebDAV. *)
Definition E_webdav : Env :=
  {| JSON_parse := fun _ => ParseThrows;
     path_join := join;
     WEBDAV_URL := Some "http://meta-sort/webdav/"%string;
     Date_now := fun s => Z.of_nat (length (trace s));
     mkdirSync_result := fun _ _ => Some 4096;
     ffmpeg := tool_writes (repeat x41 20) (Exits 500 (Some 0));
     addToSet_ok := fun _ _ _ _ => true |}.

(** The tool exits with code 0 and leaves 5 bytes. *)
Definition E_tiny : Env := env (tool_writes (repeat x41 5) (Exits 500 (Some 0))).

Definition cfg_force : Config := configure (Some true) None.

End Cases.

(** * Properties *)

(** ** The hash and the identifier on known inputs *)

Example sha256_constants :
  length SHA256.K = 64%nat
  /\ nth 0 SHA256.K 0%Z = 0x428a2f98%Z /\ nth 63 SHA256.K 0%Z = 0xc67178f2%Z
  /\ SHA256.ha SHA256.H0 = 0x6a09e667%Z /\ SHA256.hh SHA256.H0 = 0x5be0cd19%Z.
Proof. vm_compute. repeat split. Qed.

Example sha256_abc :
  hex (SHA256.sha256 (bytes_of_string "abc"))
  = "ba7816bf8f01cfea414140de5dae2223b00361a396177a9cb410ff61f20015ad"%string.
Proof. vm_compute. reflexivity. Qed.

Example sha256_two_blocks :
  hex (SHA256.sha256 (bytes_of_string
        "abcdbcdecdefdefgefghfghighijhijkijkljklmklmnlmnomnopnopq"))
  = "248d6a61d20638b8e5c026930c3e6039a33ce45964ff2167f6ecedd419db06c1"%string.
Proof. vm_compute. reflexivity. Qed.

Example cid_empty_file :
  computeMidHash256Sync {[ "/output/a.srt"%string := File [] ]} "/output/a.srt"
  = Some "bagacbabaecxvk4hvugaqw6xxrsxuxrykmyhq35i6ik5pshkn4wzdfdpa5a67y"%string.
Proof. vm_compute. reflexivity. Qed.

Example cid_hello_file :
  computeMidHash256Sync
    {[ "/output/a.srt"%string := File (bytes_of_string "hello world" ++ [x0a]) ]}
    "/output/a.srt"
  = Some "bagacbabaed55rlxokswbu2i53gbvvcz3bhxvjadtdigkg5q6j7xmiwblbn3t2"%string.
Proof. vm_compute. reflexivity. Qed.

Example cid_of_bytes_hello :
  cid_of_bytes (bytes_of_string "hello world" ++ [x0a])
  = "bagacbabaed55rlxokswbu2i53gbvvcz3bhxvjadtdigkg5q6j7xmiwblbn3t2"%string.
Proof. vm_compute. reflexivity. Qed.

(** ** Base32: the loop of [computeMidHash256Sync] against RFC 4648 *)

Section Base32.

Local Open Scope Z_scope.

Lemma ToInt32_eq z : JS.ToInt32 z = z - 2 ^ 32 * ((z + 2 ^ 31) / 2 ^ 32).
Proof.
  unfold JS.ToInt32. rewrite Z.mod_eq by lia. lia.
Qed.

Lemma ToInt32_mod z j : 0 <= j <= 32 -> JS.ToInt32 z mod 2 ^ j = z mod 2 ^ j.
Proof.
  intros Hj. rewrite ToInt32_eq.
  replace (2 ^ 32) with (2 ^ j * 2 ^ (32 - j)).
  - rewrite <- Z.mul_assoc.
    replace (z - 2 ^ j * (2 ^ (32 - j) * ((z + 2 ^ 31) / (2 ^ j * 2 ^ (32 - j)))))
      with (z + (- (2 ^ (32 - j) * ((z + 2 ^ 31) / (2 ^ j * 2 ^ (32 - j))))) * 2 ^ j) by lia.
    apply Z_mod_plus_full.
  - rewrite <- Z.pow_add_r by lia. f_equal. lia.
Qed.

Lemma ToInt32_small z : - 2 ^ 31 <= z < 2 ^ 31 -> JS.ToInt32 z = z.
Proof.
  intros H. unfold JS.ToInt32. rewrite Z.mod_small; lia.
Qed.

Lemma bits_value_snoc l (b : bool) :
  bits_value (l ++ [b]) = 2 * bits_value l + (if b then 1 else 0).
Proof. unfold bits_value. rewrite fold_left_app. reflexivity. Qed.

Lemma bits_value_app l1 l2 :
  bits_value (l1 ++ l2) = bits_value l1 * 2 ^ Z.of_nat (length l2) + bits_value l2.
Proof.
  induction l2 as [|b l2 IH] using rev_ind.
  - rewrite app_nil_r. change (bits_value []) with 0. cbn. lia.
  - rewrite app_assoc, !bits_value_snoc, IH, length_app. cbn [length].
    replace (Z.of_nat (length l2 + 1)) with (Z.succ (Z.of_nat (length l2))) by lia.
    rewrite Z.pow_succ_r by lia. lia.
Qed.

Lemma bits_value_range l : 0 <= bits_value l < 2 ^ Z.of_nat (length l).
Proof.
  induction l as [|b l IH] using rev_ind.
  - change (bits_value []) with 0. cbn. lia.
  - rewrite bits_value_snoc, length_app. cbn [length].
    replace (Z.of_nat (length l + 1)) with (Z.succ (Z.of_nat (length l))) by lia.
    rewrite Z.pow_succ_r by lia. destruct b; lia.
Qed.

Lemma bits_of_byte_value b : bits_value (bits_of_byte b) = byte_to_Z b.
Proof. destruct b; reflexivity. Qed.

Lemma bits_of_byte_length b : length (bits_of_byte b) = 8%nat.
Proof. reflexivity. Qed.

Lemma byte_to_Z_range b : 0 <= byte_to_Z b < 256.
Proof.
  unfold byte_to_Z. pose proof (Byte.to_N_bounded b) as H. lia.
Qed.

Lemma string_app_cons x (a b : string) :
  String.append (String x a) b = String x (String.append a b).
Proof. reflexivity. Qed.

Lemma string_app_assoc (a b c : string) :
  String.append (String.append a b) c = String.append a (String.append b c).
Proof.
  induction a as [|x a IH]; [reflexivity|].
  now rewrite !string_app_cons, IH.
Qed.

Lemma string_app_nil_r (a : string) : String.append a EmptyString = a.
Proof.
  induction a as [|x a IH]; [reflexivity|].
  now rewrite string_app_cons, IH.
Qed.

Lemma index_text_alphabet n :
  0 <= n < 32 -> JS.index_text base32Chars n = rfc4648_lower n.
Proof.
  intros Hn. unfold JS.index_text, rfc4648_lower, base32Chars.
  destruct (Z.leb_spec 0 n) as [_|]; [|lia].
  assert (Hm : (Z.to_nat n < 32)%nat) by lia.
  revert Hm. generalize (Z.to_nat n) as m. intros m Hm.
  do 32 (destruct m as [|m]; [reflexivity|]). lia.
Qed.

(** Bits [k .. k+4] and bits [0 .. k-1] of a number are read off its
    residue modulo [2^(k+5)]. *)
Lemma split_mod v k hi lo :
  0 <= k -> 0 <= lo < 2 ^ k -> 0 <= hi < 32 ->
  v mod 2 ^ (k + 5) = hi * 2 ^ k + lo ->
  (v / 2 ^ k) mod 32 = hi /\ v mod 2 ^ k = lo.
Proof.
  intros Hk Hlo Hhi H.
  assert (Hp : 0 < 2 ^ k) by (apply Z.pow_pos_nonneg; lia).
  rewrite Z.pow_add_r in H by lia. change (2 ^ 5) with 32 in H.
  rewrite Z.rem_mul_r in H by lia.
  pose proof (Z.mod_pos_bound v (2 ^ k) Hp) as B1.
  pose proof (Z.mod_pos_bound (v / 2 ^ k) 32 ltac:(lia)) as B2.
  assert (E : (v / 2 ^ k) mod 32 = hi) by nia.
  split; [exact E | nia].
Qed.

Lemma band_31 x : JS.band x 31 = x mod 32.
Proof.
  unfold JS.band. rewrite (ToInt32_small 31) by (cbn; lia).
  change 31 with (Z.ones 5). rewrite Z.land_ones by lia.
  apply (ToInt32_mod x 5). lia.
Qed.

Lemma sar_div value k : 0 <= k < 32 -> JS.sar value k = JS.ToInt32 value / 2 ^ k.
Proof.
  intros Hk. unfold JS.sar. rewrite Z.mod_small by lia.
  apply Z.shiftr_div_pow2. lia.
Qed.

(** [pending value p]: the low [length p] bits of [value] are the bit
    string [p] that has not been emitted yet. *)
Local Abbreviation pending value p :=
  (value mod 2 ^ Z.of_nat (length p) = bits_value p).

Lemma drain_spec fuel : forall value cid (p : list bool),
  (length p <= 27)%nat -> pending value p -> (length p <= fuel)%nat ->
  exists p' : list bool,
    (length p' < 5)%nat /\ pending value p' /\
    fst (drain fuel value (Z.of_nat (length p)) cid) = Z.of_nat (length p') /\
    forall rest,
      String.append cid (symbols (quintets (p ++ rest)))
      = String.append (snd (drain fuel value (Z.of_nat (length p)) cid))
                      (symbols (quintets (p' ++ rest))).
Proof.
  induction fuel as [|fuel IH]; intros value cid p Hlen Hp Hfuel.
  - destruct p; [|cbn in Hfuel; lia].
    exists []. cbn. repeat split; auto; lia.
  - cbn [drain]. destruct (Z.leb_spec 5 (Z.of_nat (length p))) as [H5|H5].
    + destruct p as [|b4 [|b3 [|b2 [|b1 [|b0 r]]]]]; cbn [length] in H5; try lia.
      cbn [length] in Hlen, Hfuel.
      replace (Z.of_nat (length (b4 :: b3 :: b2 :: b1 :: b0 :: r)) - 5)
        with (Z.of_nat (length r)) by (cbn [length]; lia).
      change (b4 :: b3 :: b2 :: b1 :: b0 :: r)
        with ([b4; b3; b2; b1; b0] ++ r) in Hp.
      rewrite bits_value_app in Hp.
      rewrite length_app in Hp. cbn [length] in Hp.
      replace (Z.of_nat (5 + length r)) with (Z.of_nat (length r) + 5) in Hp by lia.
      pose proof (bits_value_range r) as Rr.
      pose proof (bits_value_range [b4; b3; b2; b1; b0]) as R5.
      cbn [length] in R5. change (2 ^ Z.of_nat 5) with 32 in R5.
      assert (Hcongr : JS.ToInt32 value mod 2 ^ (Z.of_nat (length r) + 5)
                       = value mod 2 ^ (Z.of_nat (length r) + 5))
        by (apply ToInt32_mod; lia).
      rewrite <- Hcongr in Hp.
      destruct (split_mod _ _ _ _ (Nat2Z.is_nonneg (length r)) Rr R5 Hp) as [Hhi Hlo].
      rewrite ToInt32_mod in Hlo by lia.
      assert (Hsym : JS.index_text base32Chars
                       (JS.band (JS.sar value (Z.of_nat (length r))) 31)
                     = rfc4648_lower (bits_value [b4; b3; b2; b1; b0])).
      { rewrite band_31, sar_div by lia. rewrite Hhi.
        apply index_text_alphabet. exact R5. }
      rewrite Hsym.
      destruct (IH value
                  (String.append cid (rfc4648_lower (bits_value [b4; b3; b2; b1; b0])))
                  r ltac:(lia) Hlo ltac:(lia)) as (p' & Hp'len & Hp' & Hfst & Hrest).
      exists p'. repeat split; auto.
      intros rest. rewrite <- Hrest.
      change (quintets ((b4 :: b3 :: b2 :: b1 :: b0 :: r) ++ rest))
        with (bits_value [b4; b3; b2; b1; b0] :: quintets (r ++ rest)).
      cbn [symbols fold_right]. now rewrite string_app_assoc.
    + exists p. cbn [fst snd]. repeat split; auto. lia.
Qed.

Lemma lor_shift_byte v b : 0 <= b < 256 -> Z.lor (v * 256) b = v * 256 + b.
Proof.
  intros Hb. rewrite <- Z.lxor_lor, <- Z.add_nocarry_lxor; auto.
  all: apply Z.bits_inj'; intros n Hn; rewrite Z.land_spec, Z.bits_0.
  all: change 256 with (2 ^ 8); rewrite Z.mul_pow2_bits by lia.
  all: destruct (Z.ltb_spec n 8) as [Hlt|Hge];
    [ rewrite (Z.testbit_neg_r v) by lia; reflexivity
    | rewrite (Z.bits_above_log2 b n); [apply andb_false_r|lia|] ].
  all: destruct (Z.eq_dec b 0) as [->|Hnz]; [cbn; lia|].
  all: apply Z.le_lt_trans with 7; [|lia];
    assert (Z.log2 b < 8) by (apply Z.log2_lt_pow2; cbn; lia); lia.
Qed.

Lemma step_pending value (p : list bool) b :
  (length p < 5)%nat -> pending value p ->
  pending (JS.bor (JS.shl value 8) (byte_to_Z b)) (p ++ bits_of_byte b).
Proof.
  intros Hlen Hp. pose proof (byte_to_Z_range b) as Hb.
  rewrite bits_value_app, bits_of_byte_value, length_app, bits_of_byte_length.
  change (2 ^ Z.of_nat 8) with 256.
  rewrite <- Hp.
  replace (Z.of_nat (length p + 8)) with (Z.of_nat (length p) + 8) by lia.
  set (n := Z.of_nat (length p)) in *.
  assert (Hn : 0 <= n < 5) by lia.
  unfold JS.bor, JS.shl. change (8 mod 32) with 8.
  rewrite (ToInt32_small (byte_to_Z b)) by (cbn; lia).
  rewrite <- !Z.land_ones by lia.
  rewrite Z.land_lor_distr_l, !Z.land_ones by lia.
  rewrite !ToInt32_mod by lia.
  rewrite Z.shiftl_mul_pow2 by lia. change (2 ^ 8) with 256.
  rewrite Z.pow_add_r by lia. change (2 ^ 8) with 256.
  rewrite Z.mul_mod_distr_r by lia.
  rewrite ToInt32_mod by lia.
  rewrite (Z.mod_small (byte_to_Z b)).
  - apply lor_shift_byte. exact Hb.
  - assert (0 < 2 ^ n) by (apply Z.pow_pos_nonneg; lia). nia.
Qed.

Lemma flush_symbol value n v :
  0 < n < 5 -> value mod 2 ^ n = v ->
  JS.band (JS.shl value (5 - n)) 31 = Z.shiftl v (5 - n).
Proof.
  intros Hn <-. rewrite band_31. unfold JS.shl.
  rewrite (Z.mod_small (5 - n)) by lia.
  rewrite (ToInt32_mod _ 5) by lia.
  rewrite !Z.shiftl_mul_pow2 by lia.
  replace (2 ^ 5) with (2 ^ n * 2 ^ (5 - n)).
  - rewrite Z.mul_mod_distr_r.
    + now rewrite ToInt32_mod by lia.
    + apply Z.pow_nonzero; lia.
    + apply Z.pow_nonzero; lia.
  - rewrite <- Z.pow_add_r by lia. replace (n + (5 - n)) with 5 by lia. reflexivity.
Qed.

Lemma base32_fold bs : forall cid value (p : list bool),
  (length p < 5)%nat -> pending value p ->
  base32_flush (fold_left base32_step bs (cid, Z.of_nat (length p), value))
  = String.append cid (symbols (quintets (p ++ flat_map bits_of_byte bs))).
Proof.
  induction bs as [|b bs IH]; intros cid value p Hlen Hp.
  - cbn [fold_left flat_map base32_flush]. rewrite app_nil_r.
    destruct p as [|b1 p]; [cbn; now rewrite string_app_nil_r|].
    destruct (Z.ltb_spec 0 (Z.of_nat (length (b1 :: p)))) as [Hpos|]; [|cbn [length] in *; lia].
    rewrite (flush_symbol value (Z.of_nat (length (b1 :: p))) (bits_value (b1 :: p)))
      by (auto; cbn [length] in *; lia).
    assert (Hq : quintets (b1 :: p)
                 = [Z.shiftl (bits_value (b1 :: p)) (5 - Z.of_nat (length (b1 :: p)))]).
    { destruct p as [|b2 [|b3 [|b4 [|b5 r]]]]; try reflexivity.
      cbn [length] in Hlen. lia. }
    rewrite Hq. cbn [symbols fold_right]. rewrite string_app_nil_r.
    f_equal. apply index_text_alphabet.
    pose proof (bits_value_range (b1 :: p)) as R.
    set (n := Z.of_nat (length (b1 :: p))) in *.
    rewrite Z.shiftl_mul_pow2 by lia.
    assert (2 ^ n * 2 ^ (5 - n) = 32).
    { rewrite <- Z.pow_add_r by lia. replace (n + (5 - n)) with 5 by lia. reflexivity. }
    assert (0 < 2 ^ (5 - n)) by (apply Z.pow_pos_nonneg; lia). nia.
  - cbn [fold_left flat_map]. unfold base32_step at 2.
    pose proof (step_pending value p b Hlen Hp) as Hp1.
    set (value1 := JS.bor (JS.shl value 8) (byte_to_Z b)) in *.
    assert (Hl1 : length (p ++ bits_of_byte b) = (length p + 8)%nat)
      by (rewrite length_app; reflexivity).
    replace (Z.of_nat (length p) + 8) with (Z.of_nat (length (p ++ bits_of_byte b))) by lia.
    destruct (drain_spec (Z.to_nat (Z.of_nat (length (p ++ bits_of_byte b))))
                value1 cid (p ++ bits_of_byte b) ltac:(lia) Hp1 ltac:(lia))
      as (p' & Hp'len & Hp' & Hfst & Hrest).
    destruct (drain _ value1 _ cid) as [bits' cid'] eqn:Hd.
    cbn [fst snd] in Hfst, Hrest. subst bits'.
    rewrite IH by assumption.
    rewrite app_assoc. now rewrite Hrest.
Qed.

(** *** The encoding loses nothing *)

Lemma rfc4648_lower_char q :
  0 <= q < 32 -> exists c, rfc4648_lower q = String c EmptyString.
Proof.
  intros Hq. unfold rfc4648_lower.
  assert (Hm : (Z.to_nat q < 32)%nat) by lia.
  revert Hm. generalize (Z.to_nat q) as m. intros m Hm.
  do 32 (destruct m as [|m]; [eexists; reflexivity|]). lia.
Qed.

Lemma rfc4648_lower_inj q1 q2 :
  0 <= q1 < 32 -> 0 <= q2 < 32 ->
  rfc4648_lower q1 = rfc4648_lower q2 -> q1 = q2.
Proof.
  intros H1 H2 Heq.
  assert (Hn : Z.to_nat q1 = Z.to_nat q2); [|lia].
  unfold rfc4648_lower in Heq.
  assert (Hm1 : (Z.to_nat q1 < 32)%nat) by lia.
  assert (Hm2 : (Z.to_nat q2 < 32)%nat) by lia.
  revert Heq Hm1 Hm2.
  generalize (Z.to_nat q1) as m1. generalize (Z.to_nat q2) as m2.
  intros m2 m1.
  do 32 (destruct m1 as [|m1];
         [do 32 (destruct m2 as [|m2]; [intros; (reflexivity || discriminate)|]);
          intros; lia|]).
  intros; lia.
Qed.

Lemma symbols_inj qs1 : forall qs2,
  Forall (fun q => 0 <= q < 32) qs1 -> Forall (fun q => 0 <= q < 32) qs2 ->
  symbols qs1 = symbols qs2 -> qs1 = qs2.
Proof.
  induction qs1 as [|q1 qs1 IH]; intros [|q2 qs2] F1 F2 Heq.
  - reflexivity.
  - apply Forall_inv in F2. destruct (rfc4648_lower_char q2 F2) as [c Hc].
    cbn [symbols fold_right] in Heq. rewrite Hc in Heq. discriminate.
  - apply Forall_inv in F1. destruct (rfc4648_lower_char q1 F1) as [c Hc].
    cbn [symbols fold_right] in Heq. rewrite Hc in Heq. discriminate.
  - pose proof (Forall_inv F1) as R1. pose proof (Forall_inv F2) as R2.
    destruct (rfc4648_lower_char q1 R1) as [c1 Hc1].
    destruct (rfc4648_lower_char q2 R2) as [c2 Hc2].
    cbn [symbols fold_right] in Heq. fold (symbols qs1) in Heq. fold (symbols qs2) in Heq.
    rewrite Hc1, Hc2, !string_app_cons in Heq.
    change (String.append EmptyString ?x) with x in Heq.
    injection Heq as Hc Hs.
    f_equal.
    + apply rfc4648_lower_inj; auto. rewrite Hc1, Hc2. now subst.
    + apply IH; auto; eapply Forall_inv_tail; eassumption.
Qed.

Lemma bits_value_inj l1 : forall l2,
  length l1 = length l2 -> bits_value l1 = bits_value l2 -> l1 = l2.
Proof.
  induction l1 as [|b1 l1 IH]; intros [|b2 l2] Hlen Hv; try discriminate.
  - reflexivity.
  - injection Hlen as Hlen.
    change (b1 :: l1) with ([b1] ++ l1) in Hv. change (b2 :: l2) with ([b2] ++ l2) in Hv.
    rewrite !bits_value_app, <- Hlen in Hv.
    pose proof (bits_value_range l1) as R1. pose proof (bits_value_range l2) as R2.
    rewrite <- Hlen in R2.
    assert (Hb : bits_value [b1] = bits_value [b2] /\ bits_value l1 = bits_value l2).
    { destruct b1, b2; cbn in Hv |- *; split; try reflexivity; nia. }
    destruct Hb as [Hb Hl]. f_equal.
    + destruct b1, b2; try reflexivity; discriminate.
    + now apply IH.
Qed.

Lemma quintets_range l : Forall (fun q => 0 <= q < 32) (quintets l).
Proof.
  assert (H : forall n l, (length l <= n)%nat -> Forall (fun q => 0 <= q < 32) (quintets l)).
  { clear l. induction n as [|n IH]; intros l Hn.
    - destruct l; [constructor|cbn in Hn; lia].
    - destruct l as [|b4 [|b3 [|b2 [|b1 [|b0 r]]]]].
      1: constructor.
      5: { change (quintets (b4 :: b3 :: b2 :: b1 :: b0 :: r))
             with (bits_value [b4; b3; b2; b1; b0] :: quintets r).
           constructor.
           - pose proof (bits_value_range [b4; b3; b2; b1; b0]) as R. cbn in R. exact R.
           - apply IH. cbn [length] in Hn. lia. }
      all: repeat constructor; match goal with
           | |- context [bits_value ?l] => pose proof (bits_value_range l) as R
           end; cbn [length] in *;
        rewrite Z.shiftl_mul_pow2 by lia; cbn in R |- *; lia. }
  apply (H (length l)). lia.
Qed.

Lemma quintets_inj l1 l2 :
  length l1 = length l2 -> quintets l1 = quintets l2 -> l1 = l2.
Proof.
  assert (H : forall n l1 l2, (length l1 <= n)%nat -> length l1 = length l2 ->
                              quintets l1 = quintets l2 -> l1 = l2).
  { clear l1 l2. induction n as [|n IH]; intros l1 l2 Hn Hlen Hq.
    - destruct l1; [|cbn in Hn; lia]. destruct l2; [reflexivity|discriminate].
    - destruct l1 as [|b4 [|b3 [|b2 [|b1 [|b0 r]]]]];
        destruct l2 as [|c4 [|c3 [|c2 [|c1 [|c0 r']]]]]; try discriminate.
      1: reflexivity.
      5: { change (quintets (b4 :: b3 :: b2 :: b1 :: b0 :: r))
             with (bits_value [b4; b3; b2; b1; b0] :: quintets r) in Hq.
           change (quintets (c4 :: c3 :: c2 :: c1 :: c0 :: r'))
             with (bits_value [c4; c3; c2; c1; c0] :: quintets r') in Hq.
           injection Hq as Hhead Htail.
           apply bits_value_inj in Hhead; [|reflexivity].
           injection Hhead as -> -> -> -> ->.
           do 5 f_equal. apply IH; auto.
           - cbn [length] in Hn. lia.
           - cbn [length] in Hlen. lia. }
      all: cbn [quintets length] in Hq; injection Hq as Hq;
        rewrite !Z.shiftl_mul_pow2 in Hq by lia;
        apply Z.mul_cancel_r in Hq; [|cbn; lia];
        apply bits_value_inj in Hq; [exact Hq|reflexivity]. }
  intros Hlen. apply (H (length l1)); auto.
Qed.

Lemma byte_to_Z_inj b1 b2 : byte_to_Z b1 = byte_to_Z b2 -> b1 = b2.
Proof.
  unfold byte_to_Z. intros H. apply N2Z.inj in H.
  pose proof (Byte.of_to_N b1) as H1. rewrite H, Byte.of_to_N in H1. congruence.
Qed.

Lemma bits_of_bytes_inj bs1 : forall bs2,
  flat_map bits_of_byte bs1 = flat_map bits_of_byte bs2 -> bs1 = bs2.
Proof.
  induction bs1 as [|b1 bs1 IH]; intros [|b2 bs2] Heq; try discriminate.
  - reflexivity.
  - cbn [flat_map] in Heq.
    apply app_inj_1 in Heq as [Hb Hrest]; [|reflexivity].
    f_equal; [|now apply IH].
    apply byte_to_Z_inj. now rewrite <- !bits_of_byte_value, Hb.
Qed.

Lemma bits_of_bytes_length bs : length (flat_map bits_of_byte bs) = (8 * length bs)%nat.
Proof.
  induction bs as [|b bs IH]; [reflexivity|].
  cbn [flat_map]. rewrite length_app, IH, bits_of_byte_length. cbn [length]. lia.
Qed.

Lemma base32_nopad_inj bs1 bs2 :
  length bs1 = length bs2 -> base32_nopad bs1 = base32_nopad bs2 -> bs1 = bs2.
Proof.
  intros Hlen Heq. unfold base32_nopad in Heq.
  apply symbols_inj in Heq; try apply quintets_range.
  apply quintets_inj in Heq; [now apply bits_of_bytes_inj|].
  now rewrite !bits_of_bytes_length, Hlen.
Qed.

(** The loop of the source encodes exactly RFC 4648 base32, lower case,
    without padding, behind the multibase prefix [b]. *)
Lemma base32_loop_spec bs :
  base32_loop bs = String.append "b" (base32_nopad bs).
Proof.
  unfold base32_loop, base32_nopad.
  apply (base32_fold bs "b"%string 0 []); [cbn; lia | reflexivity].
Qed.

End Base32.

(** ** The content identifier *)

Section ContentIdentifier.

Local Open Scope Z_scope.

Lemma be_bytes_length n v : length (be_bytes n v) = n.
Proof.
  unfold be_bytes. now rewrite length_map, length_rev, length_seq.
Qed.

Lemma sha256_length msg : length (SHA256.sha256 msg) = 32%nat.
Proof.
  unfold SHA256.sha256, SHA256.digest_of, SHA256.word_bytes.
  now rewrite !length_app, !be_bytes_length.
Qed.

Lemma cid_structure_length d : length (cid_structure d) = 38%nat.
Proof.
  unfold cid_structure. rewrite length_app, sha256_length. reflexivity.
Qed.

Lemma allocUnsafe_length n : 0 <= n -> Z.of_nat (length (Buffer_allocUnsafe n)) = n.
Proof.
  intros Hn. unfold Buffer_allocUnsafe. rewrite repeat_length. lia.
Qed.

Lemma size_buffer v :
  0 <= v < 2 ^ 64 ->
  writeBigUInt64BE (Buffer_allocUnsafe 8) v = Some (be_bytes 8 v).
Proof.
  intros Hv. unfold writeBigUInt64BE.
  destruct (Z.leb_spec 0 v); [|lia]. destruct (Z.ltb_spec v (2 ^ 64)); [|lia].
  cbn [andb]. change (skipn 8 (Buffer_allocUnsafe 8)) with (@nil byte).
  now rewrite app_nil_r.
Qed.

(** A read of [len] bytes that lies inside the file fills a buffer of
    [len] bytes completely: nothing of the unspecified contents is left. *)
Lemma readSync_inside fs p d len position :
  fs !! p = Some (File d) ->
  0 <= len -> 0 <= position -> position + len <= Z.of_nat (length d) ->
  readSync fs p (Buffer_allocUnsafe len) len position
  = Some (firstn (Z.to_nat len) (skipn (Z.to_nat position) d)).
Proof.
  intros Hp Hlen Hpos Hin. unfold readSync. rewrite Hp. f_equal.
  set (got := firstn (Z.to_nat len) (skipn (Z.to_nat position) d)).
  assert (Hgot : length got = Z.to_nat len).
  { unfold got. rewrite length_firstn, length_skipn. lia. }
  rewrite Hgot. unfold Buffer_allocUnsafe.
  rewrite skipn_all2 by (rewrite repeat_length; lia).
  apply app_nil_r.
Qed.

Lemma sample_read fs p d :
  fs !! p = Some (File d) ->
  (if Z.of_nat (length d) <=? SAMPLE_SIZE
   then readSync fs p (Buffer_allocUnsafe (Z.of_nat (length d))) (Z.of_nat (length d)) 0
   else readSync fs p (Buffer_allocUnsafe SAMPLE_SIZE) SAMPLE_SIZE
          ((Z.of_nat (length d) - SAMPLE_SIZE) / 2))
  = Some (sample_of d).
Proof.
  intros Hp. unfold sample_of. change (1024 * 1024) with 1048576 in *.
  change SAMPLE_SIZE with 1048576.
  destruct (Z.leb_spec (Z.of_nat (length d)) 1048576) as [Hle|Hgt].
  - rewrite (readSync_inside fs p d) by (auto; lia).
    rewrite Nat2Z.id. change (Z.to_nat 0) with 0%nat.
    rewrite skipn_O. now rewrite firstn_all.
  - assert (0 <= (Z.of_nat (length d) - 1048576) / 2) by (apply Z.div_pos; lia).
    assert (2 * ((Z.of_nat (length d) - 1048576) / 2) <= Z.of_nat (length d) - 1048576)
      by (apply Z.mul_div_le; lia).
    rewrite (readSync_inside fs p d) by (auto; lia). reflexivity.
Qed.

Lemma sample_of_length d :
  1048576 < Z.of_nat (length d) -> Z.of_nat (length (sample_of d)) = 1048576.
Proof.
  intros Hgt. unfold sample_of.
  destruct (Z.leb_spec (Z.of_nat (length d)) 1048576) as [Hle|_]; [lia|].
  assert (0 <= (Z.of_nat (length d) - 1048576) / 2) by (apply Z.div_pos; lia).
  assert (2 * ((Z.of_nat (length d) - 1048576) / 2) <= Z.of_nat (length d) - 1048576)
    by (apply Z.mul_div_le; lia).
  rewrite length_firstn, length_skipn. lia.
Qed.

Lemma computeMidHash256Sync_file fs filePath d :
  fs !! filePath = Some (File d) ->
  Z.of_nat (length d) <= JS.MAX_SAFE_INTEGER ->
  computeMidHash256Sync fs filePath = Some (cid_of_bytes d).
Proof.
  intros Hp Hsize. unfold computeMidHash256Sync, statSync_size. rewrite Hp.
  rewrite size_buffer by (unfold JS.MAX_SAFE_INTEGER in Hsize; lia).
  rewrite (sample_read fs filePath d Hp).
  unfold cid_of_bytes, cid_structure, MIDHASH_VARINT.
  now rewrite base32_loop_spec.
Qed.

(** C1: for every regular file (of a size a JavaScript number holds
    exactly), [computeMidHash256Sync] returns the letter b followed by the
    lower-case unpadded RFC 4648 base32 text of the 38 bytes
    01 80 20 80 20 20 and the SHA-256 digest of the 8-byte big-endian file
    length followed by the sample; the sample is the whole file up to
    1 MiB and otherwise the 1,048,576 bytes from offset
    floor((L - 1,048,576) / 2). *)
Theorem computeMidHash256Sync_bit_exact fs filePath d :
  fs !! filePath = Some (File d) ->
  Z.of_nat (length d) <= JS.MAX_SAFE_INTEGER ->
  computeMidHash256Sync fs filePath
  = Some (String.append "b"
            (base32_nopad
               ([x01; x80; x20; x80; x20; x20]
                ++ SHA256.sha256
                     (be_bytes 8 (Z.of_nat (length d)) ++ sample_of d))))
  /\ length ([x01; x80; x20; x80; x20; x20]
             ++ SHA256.sha256
                  (be_bytes 8 (Z.of_nat (length d)) ++ sample_of d)) = 38%nat
  /\ (Z.of_nat (length d) <= 1048576 -> sample_of d = d)
  /\ (1048576 < Z.of_nat (length d) ->
      sample_of d
      = firstn (Z.to_nat 1048576)
          (skipn (Z.to_nat ((Z.of_nat (length d) - 1048576) / 2)) d)
      /\ Z.of_nat (length (sample_of d)) = 1048576).
Proof.
  intros Hp Hsize. split; [|split; [|split]].
  - exact (computeMidHash256Sync_file fs filePath d Hp Hsize).
  - exact (cid_structure_length d).
  - intros Hle. unfold sample_of.
    destruct (Z.leb_spec (Z.of_nat (length d)) 1048576); [reflexivity|lia].
  - intros Hgt. split; [|exact (sample_of_length d Hgt)].
    unfold sample_of.
    destruct (Z.leb_spec (Z.of_nat (length d)) 1048576); [lia|reflexivity].
Qed.

(** *** What the identifier depends on *)

Lemma cid_of_bytes_digest d :
  cid_of_bytes d
  = String.append "b"
      (base32_nopad ([x01; x80; x20; x80; x20; x20] ++ SHA256.sha256 (hash_input d))).
Proof. reflexivity. Qed.

Lemma multibase_prefix_inj (x y : string) :
  String.append "b" x = String.append "b" y -> x = y.
Proof. intros H. rewrite !string_app_cons in H. now injection H. Qed.

Lemma cid_of_bytes_eq_iff d1 d2 :
  cid_of_bytes d1 = cid_of_bytes d2
  <-> SHA256.sha256 (hash_input d1) = SHA256.sha256 (hash_input d2).
Proof.
  rewrite !cid_of_bytes_digest. split.
  - intros Heq. apply multibase_prefix_inj in Heq.
    apply base32_nopad_inj in Heq.
    + now apply app_inv_head in Heq.
    + now rewrite !length_app, !sha256_length.
  - now intros ->.
Qed.




(** A window of exactly 1 MiB between a head and a tail of which the head
    is the shorter by at most one byte is the sample. *)
Lemma sample_of_centred (pre w post : list byte) :
  Z.of_nat (length w) = 1048576 ->
  (0 < length pre + length post)%nat ->
  Z.of_nat (length pre) = (Z.of_nat (length pre) + Z.of_nat (length post)) / 2 ->
  sample_of (pre ++ w ++ post) = w.
Proof.
  intros Hw Hpos Hhalf. unfold sample_of.
  rewrite !length_app.
  destruct (Z.leb_spec (Z.of_nat (length pre + (length w + length post))) 1048576); [lia|].
  replace ((Z.of_nat (length pre + (length w + length post)) - 1048576) / 2)
    with (Z.of_nat (length pre))
    by (rewrite Hhalf at 1; f_equal; lia).
  rewrite Nat2Z.id, drop_app_length.
  apply take_app_length'. lia.
Qed.

(** *** Bytes, and a file longer than 1 MiB *)

Lemma byte_of_to_Z b : byte_of_Z (byte_to_Z b) = b.
Proof.
  unfold byte_of_Z, byte_to_Z. pose proof (Byte.to_N_bounded b) as Hb.
  rewrite Z.mod_small by lia. rewrite N2Z.id. now rewrite Byte.of_to_N.
Qed.

Lemma byte_to_of_Z z : 0 <= z < 256 -> byte_to_Z (byte_of_Z z) = z.
Proof.
  intros Hz. unfold byte_of_Z, byte_to_Z. rewrite Z.mod_small by lia.
  pose proof (Byte.to_of_N_option_map (Z.to_N z)) as H.
  destruct (N.leb_spec (Z.to_N z) 255) as [_|]; [|lia].
  destruct (Byte.of_N (Z.to_N z)) as [b|]; [|discriminate].
  injection H as H. rewrite H. lia.
Qed.

Lemma window_file_length w :
  length w = 33%nat -> Z.of_nat (length (window_file w)) = 1048578.
Proof.
  intros Hw. unfold window_file. rewrite !length_app, repeat_length, Hw.
  cbn [length]. lia.
Qed.

Lemma window_file_sample w :
  length w = 33%nat ->
  sample_of (window_file w) = w ++ repeat x00 (Z.to_nat 1048543).
Proof.
  intros Hw. unfold window_file. apply sample_of_centred.
  - rewrite length_app, repeat_length, Hw. lia.
  - cbn [length]. lia.
  - reflexivity.
Qed.



End ContentIdentifier.

(** ** The run *)

Section Run.

Local Open Scope Z_scope.

Ltac munfold :=
  repeat (progress (unfold mbind, mret, M_bind, M_ret, bind, ret, throw, try_catch, get, modify,
    console, emit, set_fs, push_cid, push_language, sendCallback, set_store,
    clear_arrays in *; cbn [fst snd fs store trace extractedCids extractedLanguages] in * )).

(** Closes [exists s' r evs, run = (s', inl r) /\ trace s' = trace s ++ evs /\ _]
    once the run is evaluated: the witnesses are read off the state. *)
Ltac finish :=
  do 3 eexists; split; [reflexivity|];
  cbn [fst snd fs store trace extractedCids extractedLanguages];
  split; [rewrite <- ?app_assoc; reflexivity|];
  cbn.

Lemma on_close_spec op i code stderr s :
  exists s' b evs,
    on_close op i code stderr s = (s', inl b) /\
    trace s' = trace s ++ evs /\
    (spawns evs = [] /\ callbacks evs = [] /\ adds evs = []) /\
    (store s' = store s /\ extractedCids s' = extractedCids s /\
    extractedLanguages s' = extractedLanguages s) /\
    (b = true <-> code = Some 0 /\ existsSync (fs s) op = true /\
                  exists n, statSync_size (fs s) op = Some n /\ 10 < n) /\
    (b = true -> fs s' = fs s) /\
    (code <> Some 0 -> fs s' = fs s).
Proof.
  unfold on_close, unlinkSync, existsSync, statSync_size. munfold.
  destruct code as [[| |]|]; cbn [andb].
  2-4: destruct (fs s !! op) as [[d|n]|]; finish; intuition (try congruence);
       match goal with H : _ /\ _ |- _ => destruct H as [H ?]; congruence end.
  destruct (fs s !! op) as [[d|n]|] eqn:Hop; cbn [andb].
  - destruct (Z.ltb_spec 10 (Z.of_nat (length d))); munfold.
    + finish. intuition eauto.
    + rewrite Hop. munfold. finish. intuition (try congruence).
      destruct H3 as (n & Hn & ?). injection Hn as <-. lia.
  - destruct (Z.ltb_spec 10 n); munfold.
    + finish. intuition eauto.
    + rewrite Hop. munfold. finish. intuition (try congruence).
      destruct H3 as (m & Hn & ?). injection Hn as <-. lia.
  - munfold. finish. intuition (try congruence).
Qed.

Lemma spawns_app a b : spawns (a ++ b) = spawns a ++ spawns b.
Proof. apply flat_map_app. Qed.
Lemma callbacks_app a b : callbacks (a ++ b) = callbacks a ++ callbacks b.
Proof. apply flat_map_app. Qed.
Lemma adds_app a b : adds (a ++ b) = adds a ++ adds b.
Proof. apply flat_map_app. Qed.

Lemma extractSubtitle_spec E cfg ip op i c s :
  let args := ffmpeg_args cfg ip op i in
  let run := ffmpeg E (spawned s i args) args in
  exists s' b evs,
    extractSubtitle E cfg ip op i c s = (s', inl b) /\
    trace s' = trace s ++ EvConsole (LogRunning i) :: EvSpawn "ffmpeg" args :: evs /\
    (spawns evs = [] /\ callbacks evs = [] /\ adds evs = []) /\
    (store s' = store s /\ extractedCids s' = extractedCids s /\
     extractedLanguages s' = extractedLanguages s) /\
    (b = true <->
       exists t, tool_end run = Exits t (Some 0) /\ t < 120000 /\
                 existsSync (tool_fs run) op = true /\
                 exists n, statSync_size (tool_fs run) op = Some n /\ 10 < n) /\
    (b = true -> fs s' = tool_fs run) /\
    (fst (first_event (tool_end run) 120000) = OnTimer ->
       b = false /\ In (EvKill "SIGKILL") evs /\ fs s' = tool_fs run) /\
    (forall t code, tool_end run = Exits t code -> code <> Some 0 -> fs s' = tool_fs run).
Proof.
  intros args run. unfold extractSubtitle. munfold.
  fold args.
  change {| fs := fs s; store := store s;
     trace := (trace s ++ [EvConsole (LogRunning i)]) ++ [EvSpawn "ffmpeg" args];
     extractedCids := extractedCids s; extractedLanguages := extractedLanguages s |}
    with (spawned s i args).
  fold run.
  set (s1 := {| fs := tool_fs run; store := store s;
                trace := (trace s ++ [EvConsole (LogRunning i)]) ++ [EvSpawn "ffmpeg" args];
                extractedCids := extractedCids s;
                extractedLanguages := extractedLanguages s |}).
  unfold first_event.
  destruct (tool_end run) as [t code|t msg|] eqn:Hend.
  - destruct (Z.ltb_spec t 120000) as [Hlt|Hge]; cbn [fst].
    + destruct (on_close_spec op i code (tool_stderr run) s1)
        as (s' & b & evs & Heq & Htr & Hev & Hfr & Hb & Hfs1 & Hfs2).
      rewrite Heq. do 2 eexists. exists (evs ++ [EvLater (EvKill "SIGKILL")]).
      split; [reflexivity|].
      cbn [trace fs store extractedCids extractedLanguages].
      rewrite Htr. subst s1. cbn [trace fs store extractedCids extractedLanguages] in *.
      split; [rewrite <- !app_assoc; reflexivity|].
      rewrite spawns_app, callbacks_app, adds_app.
      destruct Hev as (-> & -> & ->).
      split; [repeat split|]. split; [exact Hfr|].
      split; [|split; [exact Hfs1|split; [discriminate|]]].
      * rewrite Hb. split.
        -- intros (-> & Hex & Hn). exists t. auto.
        -- intros (t' & Ht' & _ & Hex & Hn). injection Ht' as _ <-. auto.
      * intros t' code' Ht' Hc. injection Ht' as _ <-. auto.
    + do 3 eexists. split; [reflexivity|]. subst s1.
      cbn [trace fs store extractedCids extractedLanguages].
      split; [rewrite <- !app_assoc; reflexivity|]. cbn.
      intuition (try congruence).
      * destruct H as (t' & Ht' & ? & _). injection Ht' as <- _. lia.
  - destruct (Z.ltb_spec t 120000) as [Hlt|Hge]; cbn [fst].
    all: do 3 eexists; (split; [reflexivity|]); subst s1;
      cbn [trace fs store extractedCids extractedLanguages];
      (split; [rewrite <- !app_assoc; reflexivity|]); cbn;
      intuition (try congruence).
    all: match goal with H : exists _, _ |- _ => destruct H as (? & ? & _); congruence end.
  - cbn [fst]. do 3 eexists. split; [reflexivity|]. subst s1.
    cbn [trace fs store extractedCids extractedLanguages].
    split; [rewrite <- !app_assoc; reflexivity|]. cbn.
    intuition (try congruence).
    match goal with H : exists _, _ |- _ => destruct H as (? & ? & _); congruence end.
Qed.

(** X23: the promise of [extractSubtitle] resolves to [true] exactly when
    the tool exited with code 0 before the timer of 120000 ms and left
    something of more than 10 bytes at the output path. *)
Lemma extractSubtitle_accepts_iff E cfg ip op i c s :
  let args := ffmpeg_args cfg ip op i in
  let run := ffmpeg E (spawned s i args) args in
  snd (extractSubtitle E cfg ip op i c s) = inl true <->
  exists t, tool_end run = Exits t (Some 0) /\ t < 120000 /\
            existsSync (tool_fs run) op = true /\
            exists n, statSync_size (tool_fs run) op = Some n /\ 10 < n.
Proof.
  intros args run.
  destruct (extractSubtitle_spec E cfg ip op i c s)
    as (s' & b & evs & Heq & _ & _ & _ & Hb & _).
  rewrite Heq. cbn [snd]. fold args run in Hb. rewrite <- Hb.
  split; [now intros [= ->]|now intros ->].
Qed.

(** A tool that exits with another code leaves the disk as it made it:
    nothing of its output is removed. *)
Lemma extractSubtitle_keeps_output_of_failed_tool E cfg ip op i c s t code :
  let args := ffmpeg_args cfg ip op i in
  let run := ffmpeg E (spawned s i args) args in
  tool_end run = Exits t code -> code <> Some 0 ->
  snd (extractSubtitle E cfg ip op i c s) = inl false
  /\ fs (fst (extractSubtitle E cfg ip op i c s)) = tool_fs run.
Proof.
  intros args run Hend Hcode.
  destruct (extractSubtitle_spec E cfg ip op i c s)
    as (s' & b & evs & Heq & _ & _ & _ & Hb & _ & _ & Hkeep).
  fold args run in Hb, Hkeep. rewrite Heq. cbn [fst snd]. split.
  - destruct b; [|reflexivity]. exfalso.
    destruct (proj1 Hb eq_refl) as (t' & Ht' & _). rewrite Hend in Ht'.
    injection Ht' as _ ->. now apply Hcode.
  - exact (Hkeep t code Hend Hcode).
Qed.

Lemma only_console_quiet evs :
  only_console evs ->
  spawns evs = [] /\ callbacks evs = [] /\ adds evs = [] /\
  Forall (fun e => is_write e = false) evs.
Proof.
  induction 1 as [|e evs [m ->] _ (IH1 & IH2 & IH3 & IH4)]; cbn; auto.
Qed.

Lemma process_stream_fast E cfg vc ip st ys sub s :
  let fn := outputFilename_of cfg st ys vc sub in
  let op := path_join E PLUGIN_OUTPUT_PATH fn in
  existsSync (fs s) op = true -> forceRecompute cfg = false ->
  exists s' evs,
    process_stream E cfg vc ip st ys sub s = (s', inl tt) /\
    trace s' = trace s ++ EvConsole (LogAlreadyExists fn) :: evs /\
    only_console evs /\
    fs s' = fs s /\ store s' = store s /\
    match computeMidHash256Sync (fs s) op with
    | Some c => extractedCids s' = extractedCids s ++ [c]
    | None => extractedCids s' = extractedCids s
    end.
Proof.
  intros fn op Hex Hforce. unfold process_stream. fold fn. fold op. munfold.
  rewrite Hex, Hforce. cbn [andb negb].
  unfold computeCid, note_language. munfold.
  destruct (computeMidHash256Sync (fs s) op) as [c|]; munfold.
  - destruct (language sub) as [[|a r]|]; munfold.
    2: destruct (existsb _ _); munfold.
    all: do 2 eexists; (split; [reflexivity|]);
      cbn [trace fs store extractedCids extractedLanguages];
      rewrite <- ?app_assoc; repeat split; constructor.
  - do 2 eexists. split; [reflexivity|].
    cbn [trace fs store extractedCids extractedLanguages].
    rewrite <- ?app_assoc; repeat split. repeat constructor. eauto.
Qed.

Lemma process_stream_slow E cfg vc ip st ys sub s :
  let fn := outputFilename_of cfg st ys vc sub in
  let op := path_join E PLUGIN_OUTPUT_PATH fn in
  let args := ffmpeg_args cfg ip op (index sub) in
  existsSync (fs s) op && negb (forceRecompute cfg) = false ->
  exists s1 b s' evs,
    extractSubtitle E cfg ip op (index sub) (codec sub) s = (s1, inl b) /\
    process_stream E cfg vc ip st ys sub s = (s', inl tt) /\
    trace s' = trace s ++ EvConsole (LogRunning (index sub)) :: EvSpawn "ffmpeg" args :: evs /\
    spawns evs = [] /\ callbacks evs = [] /\
    (b = false -> s' = s1 /\ adds evs = []).
Proof.
  intros fn op args Hslow. unfold process_stream. fold fn. fold op. munfold.
  rewrite Hslow.
  destruct (extractSubtitle_spec E cfg ip op (index sub) (codec sub) s)
    as (s1 & b & evs1 & Heq & Htr & (Hsp & Hcb & Had) & Hfr & _).
  fold args in Htr.
  exists s1, b. rewrite Heq.
  destruct b.
  - unfold computeCid, note_language, addToSet. munfold.
    destruct (computeMidHash256Sync (fs s1) op) as [c|]; munfold.
    + destruct (language sub) as [[|a r]|]; munfold.
      2: destruct (existsb _ _); munfold.
      all: repeat (destruct (addToSet_ok E _ _ _ _); munfold).
      all: do 2 eexists; (split; [reflexivity|]); (split; [reflexivity|]);
        cbn [trace fs store extractedCids extractedLanguages];
        rewrite Htr, <- ?app_assoc; cbn [app];
        (split; [reflexivity|]);
        rewrite ?spawns_app, ?callbacks_app, Hsp, Hcb; cbn;
        repeat split; discriminate.
    + do 2 eexists. split; [reflexivity|]. split; [reflexivity|].
      cbn [trace fs store extractedCids extractedLanguages].
      rewrite Htr, <- ?app_assoc. cbn [app].
      split; [reflexivity|].
      rewrite ?spawns_app, ?callbacks_app, Hsp, Hcb. cbn.
      repeat split; discriminate.
  - munfold. exists s1, evs1. repeat split; auto.
Qed.

Lemma process_stream_total E cfg request sub s :
  exists s' evs,
    process_stream E cfg (cid request) (inputPath_of E request)
      (sanitizeFilename (title_of request)) (yearStr_of request) sub s = (s', inl tt) /\
    trace s' = trace s ++ evs /\
    callbacks evs = [] /\
    visited E cfg request sub evs /\
    (forall a, In a (spawns evs) -> a = args_of E cfg request sub).
Proof.
  set (op := outputPath_of E cfg request sub).
  destruct (existsSync (fs s) op && negb (forceRecompute cfg)) eqn:Hpath.
  - apply andb_true_iff in Hpath as [Hex Hforce].
    apply negb_true_iff in Hforce.
    destruct (process_stream_fast E cfg (cid request) (inputPath_of E request)
                (sanitizeFilename (title_of request)) (yearStr_of request) sub s Hex Hforce)
      as (s' & evs & Heq & Htr & Hcons & _).
    destruct (only_console_quiet evs Hcons) as (Hsp & Hcb & _).
    exists s', (EvConsole (LogAlreadyExists
                  (outputFilename_of cfg (sanitizeFilename (title_of request))
                     (yearStr_of request) (cid request) sub)) :: evs).
    repeat split; auto.
    + left. now left.
    + intros a Ha. change (In a (spawns evs)) in Ha. rewrite Hsp in Ha. destruct Ha.
  - destruct (process_stream_slow E cfg (cid request) (inputPath_of E request)
                (sanitizeFilename (title_of request)) (yearStr_of request) sub s Hpath)
      as (s1 & b & s' & evs & _ & Heq & Htr & Hsp & Hcb & _).
    exists s', (EvConsole (LogRunning (index sub))
                :: EvSpawn "ffmpeg" (args_of E cfg request sub) :: evs).
    repeat split; auto.
    + right. right. now left.
    + intros a Ha. change (In a (args_of E cfg request sub :: spawns evs)) in Ha.
      rewrite Hsp in Ha. destruct Ha as [<-|[]]. reflexivity.
Qed.

(** The loop takes up every stream of its list, whatever happens to the
    ones before it, and ends normally. *)
Lemma for_each_streams E cfg request l : forall s,
  exists s' evs,
    for_each l (process_stream E cfg (cid request) (inputPath_of E request)
                  (sanitizeFilename (title_of request)) (yearStr_of request)) s
    = (s', inl tt) /\
    trace s' = trace s ++ evs /\
    callbacks evs = [] /\
    (forall sub, In sub l -> visited E cfg request sub evs) /\
    (forall a, In a (spawns evs) -> exists sub, In sub l /\ a = args_of E cfg request sub).
Proof.
  induction l as [|sub l IH]; intros s.
  - exists s, []. cbn. rewrite app_nil_r. repeat split; auto; intros ? [].
  - cbn [for_each]. munfold.
    destruct (process_stream_total E cfg request sub s)
      as (s1 & evs1 & Heq1 & Htr1 & Hcb1 & Hv1 & Hsp1).
    rewrite Heq1.
    destruct (IH s1) as (s' & evs & Heq & Htr & Hcb & Hv & Hsp).
    rewrite Heq. exists s', (evs1 ++ evs).
    split; [reflexivity|]. split; [now rewrite Htr, Htr1, app_assoc|].
    split; [now rewrite callbacks_app, Hcb1, Hcb|]. split.
    + intros sub' [<-|Hin]; unfold visited in *.
      * destruct Hv1 as [H|H]; [left|right]; apply in_or_app; now left.
      * destruct (Hv sub' Hin) as [H|H]; [left|right]; apply in_or_app; now right.
    + intros a Ha. rewrite spawns_app in Ha. apply in_app_or in Ha as [Ha|Ha].
      * exists sub. split; [now left|]. now apply Hsp1.
      * destruct (Hsp a Ha) as (sub' & Hin & ->). exists sub'. split; [now right|reflexivity].
Qed.

Lemma filter_text_nil l :
  Forall (fun s => codec s ∈ UNSUPPORTED_SUBTITLE_CODECS) l ->
  List.filter is_text_subtitle l = [].
Proof.
  induction 1 as [|s l Hs _ IH]; [reflexivity|].
  cbn [List.filter]. unfold is_text_subtitle at 1.
  rewrite bool_decide_eq_true_2 by exact Hs. exact IH.
Qed.

Lemma truthy_recorded (v : option string) :
  (exists w, v = Some w /\ w <> EmptyString) -> JS.truthy v = true.
Proof. intros (w & -> & Hw). destruct w; [contradiction|reflexivity]. Qed.

(** C3: a run on something that is not a video, or on a video that already
    records extracted subtitles (a non-empty [extractedSubtitles] value)
    while [forceRecompute] is off, or with no subtitle stream parsed, or
    with every parsed stream of an image-based codec, reports [skipped]
    once, with one of the four stated reasons, starts no tool, makes no
    write call and leaves the disk and the metadata store as they were. *)
Theorem process_short_circuits E cfg request s0 :
  meta_field (existingMeta request) "fileType" <> Some "video"%string
  \/ ((exists v, meta_field (existingMeta request) "extractedSubtitles" = Some v
                 /\ v <> EmptyString)
      /\ forceRecompute cfg = false)
  \/ parseSubtitleStreams E (default ∅ (existingMeta request)) = []
  \/ Forall (fun s => codec s ∈ UNSUPPORTED_SUBTITLE_CODECS)
        (parseSubtitleStreams E (default ∅ (existingMeta request))) ->
  exists evs p why,
    trace (process E cfg request s0) = trace s0 ++ evs /\
    callbacks evs = [p] /\ status p = skipped /\ reason p = Some why /\
    In why [ "Not a video file"; "Subtitles already extracted";
             "No subtitle streams found";
             "Only image-based subtitles (cannot convert to text)" ]%string /\
    spawns evs = [] /\
    Forall (fun e => is_write e = false) evs /\
    fs (process E cfg request s0) = fs s0 /\
    store (process E cfg request s0) = store s0.
Proof.
  intros Hcase. unfold process, process_try, report. munfold.
  destruct (bool_decide (meta_field (existingMeta request) "fileType" = Some "video"%string))
    eqn:Hvideo; cbn [negb].
  2: { do 3 eexists. cbn. split; [reflexivity|]. cbn. repeat split; eauto 10. }
  apply bool_decide_eq_true_1 in Hvideo.
  destruct (JS.truthy (meta_field (existingMeta request) "extractedSubtitles")
            && negb (forceRecompute cfg)) eqn:Halready.
  { do 3 eexists. cbn. split; [reflexivity|]. cbn. repeat split; eauto 10. }
  destruct (parseSubtitleStreams E (default ∅ (existingMeta request)))
    as [|sub0 subs] eqn:Hparse; cbn [length Nat.eqb].
  { do 3 eexists. cbn. split; [reflexivity|]. cbn. repeat split; eauto 10. }
  destruct (List.filter is_text_subtitle (sub0 :: subs)) as [|t0 ts] eqn:Htext;
    cbn [length Nat.eqb].
  { do 3 eexists. cbn. split; [rewrite <- app_assoc; reflexivity|].
    cbn. repeat split; eauto 10. }
  exfalso. destruct Hcase as [H|[[Hrec Hforce]|[H|H]]].
  - contradiction.
  - rewrite (truthy_recorded _ Hrec), Hforce in Halready. discriminate.
  - discriminate.
  - rewrite (filter_text_nil _ H) in Htext. discriminate.
Qed.

Lemma bind_ok {A B} (m : M A) (k : A -> M B) s s1 a :
  m s = (s1, inl a) -> (m ≫= k) s = k a s1.
Proof. unfold mbind, M_bind, bind. now intros ->. Qed.

(** The [try] block of a run that gets past the four short-circuit checks
    and has its output directory ends normally: it takes up every text
    subtitle stream, starts the tool only for such streams, and reports
    [completed] once, whatever the tool, the file system and the metadata
    store do. *)
Lemma process_try_loop E cfg request startTime s0 :
  meta_field (existingMeta request) "fileType" = Some "video"%string ->
  JS.truthy (meta_field (existingMeta request) "extractedSubtitles")
    && negb (forceRecompute cfg) = false ->
  textSubtitles_of E request <> [] ->
  (existsSync (fs s0) PLUGIN_OUTPUT_PATH = true
   \/ forall s, mkdirSync_result E s PLUGIN_OUTPUT_PATH <> None) ->
  exists sF evs p,
    process_try E cfg request startTime s0 = (sF, inl tt) /\
    trace sF = trace s0 ++ evs /\
    callbacks evs = [p] /\
    (status p = completed /\ reason p = None /\ error p = None) /\
    (forall sub, In sub (textSubtitles_of E request) -> visited E cfg request sub evs) /\
    (forall a, In a (spawns evs) ->
       exists sub, In sub (textSubtitles_of E request) /\ a = args_of E cfg request sub).
Proof.
  intros Hvideo Halready Htext Hdir.
  unfold process_try. cbv zeta.
  rewrite bool_decide_eq_true_2 by exact Hvideo. cbn [negb].
  rewrite Halready.
  unfold textSubtitles_of in *.
  destruct (parseSubtitleStreams E (default ∅ (existingMeta request)))
    as [|sub0 subs] eqn:Hparse; [now contradiction Htext|].
  cbn [length Nat.eqb].
  set (l := List.filter is_text_subtitle (sub0 :: subs)) in *.
  destruct (length l =? 0)%nat eqn:Hlen.
  { apply Nat.eqb_eq in Hlen. destruct l; [now contradiction Htext|discriminate]. }
  erewrite bind_ok by reflexivity.
  set (pre1 := match createWebDAVClient E with
               | Some _ => [EvConsole (LogWebDAVInput (inputPath_of E request))]
               | None => []
               end).
  erewrite (bind_ok _ _ _
              {| fs := fs s0; store := store s0;
                 trace := trace s0
                          ++ EvConsole (LogFound (length l) (filePath request)) :: pre1;
                 extractedCids := extractedCids s0;
                 extractedLanguages := extractedLanguages s0 |} tt).
  2: { subst pre1. unfold console, emit, modify.
       destruct (createWebDAVClient E); cbn [fs store trace extractedCids extractedLanguages].
       - now rewrite <- app_assoc.
       - reflexivity. }
  erewrite bind_ok by reflexivity. cbn [fs].
  set (s1 := {| fs := fs s0; store := store s0;
                trace := trace s0
                         ++ EvConsole (LogFound (length l) (filePath request)) :: pre1;
                extractedCids := extractedCids s0;
                extractedLanguages := extractedLanguages s0 |}).
  assert (Hmk : exists s2 pre2,
            (if existsSync (fs s0) PLUGIN_OUTPUT_PATH then ret tt
             else mkdirSync E PLUGIN_OUTPUT_PATH) s1 = (s2, inl tt)
            /\ trace s2 = trace s1 ++ pre2 /\ spawns pre2 = [] /\ callbacks pre2 = []).
  { destruct (existsSync (fs s0) PLUGIN_OUTPUT_PATH) eqn:Hex.
    - exists s1, []. rewrite app_nil_r. repeat split.
    - destruct Hdir as [Hyes|Hok]; [discriminate|].
      unfold mkdirSync. erewrite bind_ok by reflexivity.
      erewrite bind_ok by reflexivity.
      destruct (mkdirSync_result E _ PLUGIN_OUTPUT_PATH) eqn:Hres; [|now apply Hok in Hres].
      do 2 eexists. split; [reflexivity|]. cbn [trace]. repeat split. }
  destruct Hmk as (s2 & pre2 & Heq2 & Htr2 & Hsp2 & Hcb2).
  rewrite (bind_ok _ _ _ _ _ Heq2).
  erewrite bind_ok by reflexivity.
  destruct (for_each_streams E cfg request l
              {| fs := fs s2; store := store s2; trace := trace s2;
                 extractedCids := []; extractedLanguages := [] |})
    as (s3 & evs & Heq3 & Htr3 & Hcb3 & Hvis & Hsp3).
  rewrite (bind_ok _ _ _ _ _ Heq3).
  erewrite bind_ok by reflexivity.
  erewrite bind_ok by reflexivity.
  unfold report. erewrite bind_ok by reflexivity.
  do 3 eexists. split; [reflexivity|].
  cbn [trace]. rewrite Htr3. cbn [trace]. rewrite Htr2. subst s1. cbn [trace].
  split; [rewrite <- !app_assoc; cbn [app]; reflexivity|].
  assert (Hsp1 : spawns pre1 = [] /\ callbacks pre1 = [])
    by (subst pre1; destruct (createWebDAVClient E); split; reflexivity).
  destruct Hsp1 as [Hsp1 Hcb1].
  split; [|split; [|split]].
  - change (EvConsole (LogFound (length l) (filePath request)) :: ?x)
      with ([EvConsole (LogFound (length l) (filePath request))] ++ x).
    rewrite !callbacks_app, Hcb1, Hcb2, Hcb3. cbn. reflexivity.
  - repeat split.
  - intros sub Hin. destruct (Hvis sub Hin) as [H|H]; [left|right].
    all: right; apply in_or_app; right; apply in_or_app; right;
      apply in_or_app; now left.
  - intros a Ha.
    change (EvConsole (LogFound (length l) (filePath request)) :: ?x)
      with ([EvConsole (LogFound (length l) (filePath request))] ++ x) in Ha.
    rewrite !spawns_app, Hsp1, Hsp2 in Ha. cbn in Ha. rewrite app_nil_r in Ha.
    now apply Hsp3.
Qed.

Lemma process_loop E cfg request s0 :
  meta_field (existingMeta request) "fileType" = Some "video"%string ->
  JS.truthy (meta_field (existingMeta request) "extractedSubtitles")
    && negb (forceRecompute cfg) = false ->
  textSubtitles_of E request <> [] ->
  (existsSync (fs s0) PLUGIN_OUTPUT_PATH = true
   \/ forall s, mkdirSync_result E s PLUGIN_OUTPUT_PATH <> None) ->
  exists evs p,
    trace (process E cfg request s0) = trace s0 ++ evs /\
    callbacks evs = [p] /\
    (status p = completed /\ reason p = None /\ error p = None) /\
    (forall sub, In sub (textSubtitles_of E request) -> visited E cfg request sub evs) /\
    (forall a, In a (spawns evs) ->
       exists sub, In sub (textSubtitles_of E request) /\ a = args_of E cfg request sub).
Proof.
  intros Hvideo Halready Htext Hdir.
  destruct (process_try_loop E cfg request (Date_now E s0) s0 Hvideo Halready Htext Hdir)
    as (sF & evs & p & Heq & Hrest).
  exists evs, p. unfold process, try_catch. rewrite Heq. exact Hrest.
Qed.

Lemma in_textSubtitles E request sub :
  In sub (textSubtitles_of E request) <->
  (In sub (parseSubtitleStreams E (default ∅ (existingMeta request)))
   /\ codec sub ∉ UNSUPPORTED_SUBTITLE_CODECS).
Proof.
  unfold textSubtitles_of. rewrite filter_In. unfold is_text_subtitle.
  rewrite negb_true_iff, bool_decide_eq_false. reflexivity.
Qed.

(** C8: in a run that gets past the short-circuit checks and has its
    output directory, every text subtitle stream is taken up by the loop,
    whatever happened to the streams before it (a failing tool, a failing
    hash, a failing metadata write), and the run reports [completed],
    exactly once, however many of its streams failed. *)
Theorem process_completes_despite_failures E cfg request s0 :
  meta_field (existingMeta request) "fileType" = Some "video"%string ->
  JS.truthy (meta_field (existingMeta request) "extractedSubtitles")
    && negb (forceRecompute cfg) = false ->
  textSubtitles_of E request <> [] ->
  (existsSync (fs s0) PLUGIN_OUTPUT_PATH = true
   \/ forall s, mkdirSync_result E s PLUGIN_OUTPUT_PATH <> None) ->
  exists evs p,
    trace (process E cfg request s0) = trace s0 ++ evs /\
    callbacks evs = [p] /\ status p = completed /\ error p = None /\
    (forall sub, In sub (textSubtitles_of E request) -> visited E cfg request sub evs).
Proof.
  intros Hvideo Halready Htext Hdir.
  destruct (process_try_loop E cfg request (Date_now E s0) s0 Hvideo Halready Htext Hdir)
    as (sF & evs & p & Heq & Htr & Hcb & (Hst & _ & Herr) & Hvis & _).
  exists evs, p. unfold process, try_catch. rewrite Heq. cbn [fst].
  repeat split; auto.
Qed.

(** C5: a stream whose output file is already on disk, with
    [forceRecompute] off, is treated as extracted: the tool is not started
    for it, the identifier is the one [computeMidHash256Sync] gives for the
    bytes of that file, it is appended to [extractedCids], and the disk is
    left as it was, so that taking up the stream again from any state with
    the same disk gives the same identifier, again without the tool. *)
Theorem process_stream_reuses_existing_file E cfg vc ip st ys sub s d :
  let op := path_join E PLUGIN_OUTPUT_PATH (outputFilename_of cfg st ys vc sub) in
  fs s !! op = Some (File d) ->
  Z.of_nat (length d) <= JS.MAX_SAFE_INTEGER ->
  forceRecompute cfg = false ->
  exists s' evs,
    process_stream E cfg vc ip st ys sub s = (s', inl tt) /\
    trace s' = trace s ++ evs /\ spawns evs = [] /\
    computeMidHash256Sync (fs s) op = Some (cid_of_bytes d) /\
    extractedCids s' = extractedCids s ++ [cid_of_bytes d] /\
    fs s' = fs s /\
    forall s2, fs s2 = fs s' ->
      exists s2' evs2,
        process_stream E cfg vc ip st ys sub s2 = (s2', inl tt) /\
        trace s2' = trace s2 ++ evs2 /\ spawns evs2 = [] /\
        extractedCids s2' = extractedCids s2 ++ [cid_of_bytes d] /\
        fs s2' = fs s2.
Proof.
  intros op Hfile Hsize Hforce.
  assert (Hone : forall s2, fs s2 = fs s ->
            exists s2' evs2,
              process_stream E cfg vc ip st ys sub s2 = (s2', inl tt) /\
              trace s2' = trace s2 ++ evs2 /\ spawns evs2 = [] /\
              extractedCids s2' = extractedCids s2 ++ [cid_of_bytes d] /\
              fs s2' = fs s2).
  { intros s2 Hfs.
    assert (Hex : existsSync (fs s2) op = true)
      by (unfold existsSync; now rewrite Hfs, Hfile).
    destruct (process_stream_fast E cfg vc ip st ys sub s2 Hex Hforce)
      as (s2' & evs & Heq & Htr & Hcons & Hfs' & _ & Hcid).
    fold op in Hcid. rewrite Hfs in Hcid.
    rewrite (computeMidHash256Sync_file (fs s) op d Hfile Hsize) in Hcid.
    destruct (only_console_quiet evs Hcons) as (Hsp & _).
    exists s2', (EvConsole (LogAlreadyExists (outputFilename_of cfg st ys vc sub)) :: evs).
    repeat split; auto. }
  destruct (Hone s eq_refl) as (s' & evs & Heq & Htr & Hsp & Hcid & Hfs).
  exists s', evs. repeat split; auto.
  - exact (computeMidHash256Sync_file (fs s) op d Hfile Hsize).
  - intros s2 Hfs2. apply Hone. now rewrite Hfs2.
Qed.

(** C10: on the already-exists path (output file on disk, [forceRecompute]
    off) [process] collects the identifier of the file in its local array
    and issues no [addToSet]: the metadata store is not touched.  Whenever
    taking up a stream does issue an [addToSet], the stream went through
    the tool and [extractSubtitle] resolved to [true]. *)
Theorem fast_path_writes_no_metadata E cfg vc ip st ys sub s :
  let op := path_join E PLUGIN_OUTPUT_PATH (outputFilename_of cfg st ys vc sub) in
  existsSync (fs s) op = true ->
  forceRecompute cfg = false ->
  (exists s' evs,
     process_stream E cfg vc ip st ys sub s = (s', inl tt) /\
     trace s' = trace s ++ evs /\
     adds evs = [] /\ store s' = store s /\
     match computeMidHash256Sync (fs s) op with
     | Some c => extractedCids s' = extractedCids s ++ [c]
     | None => extractedCids s' = extractedCids s
     end)
  /\ (forall s2 s2' evs2,
        process_stream E cfg vc ip st ys sub s2 = (s2', inl tt) ->
        trace s2' = trace s2 ++ evs2 ->
        adds evs2 <> [] ->
        existsSync (fs s2) op && negb (forceRecompute cfg) = false
        /\ exists s1, extractSubtitle E cfg ip op (index sub) (codec sub) s2
                      = (s1, inl true)).
Proof.
  intros op Hex Hforce. split.
  - destruct (process_stream_fast E cfg vc ip st ys sub s Hex Hforce)
      as (s' & evs & Heq & Htr & Hcons & _ & Hstore & Hcid).
    destruct (only_console_quiet evs Hcons) as (_ & _ & Hadds & _).
    exists s', (EvConsole (LogAlreadyExists (outputFilename_of cfg st ys vc sub)) :: evs).
    repeat split; auto.
  - intros s2 s2' evs2 Heq2 Htr2 Hadds.
    destruct (existsSync (fs s2) op && negb (forceRecompute cfg)) eqn:Hpath.
    + exfalso. apply andb_true_iff in Hpath as [Hex2 _].
      destruct (process_stream_fast E cfg vc ip st ys sub s2 Hex2 Hforce)
        as (s3 & evs & Heq & Htr & Hcons & _).
      rewrite Heq in Heq2. injection Heq2 as <-.
      rewrite Htr in Htr2. apply app_inv_head in Htr2. subst evs2.
      destruct (only_console_quiet evs Hcons) as (_ & _ & Hnone & _).
      apply Hadds. exact Hnone.
    + split; [reflexivity|].
      destruct (process_stream_slow E cfg vc ip st ys sub s2 Hpath)
        as (s1 & b & s3 & evs & Hext & Heq & Htr & _ & _ & Hfalse).
      exists s1. destruct b; [exact Hext|]. exfalso.
      destruct (Hfalse eq_refl) as [_ Hnone].
      rewrite Heq in Heq2. injection Heq2 as <-.
      rewrite Htr in Htr2. apply app_inv_head in Htr2. subst evs2.
      apply Hadds. exact Hnone.
Qed.

(** C7: the promise of [extractSubtitle] settles on the first of the
    tool's end and the timer of 120000 ms, so no later than 120000 ms after
    the tool was started.  When the tool has not ended by then, it is sent
    SIGKILL, the promise resolves to [false], nothing is recorded for the
    stream, and the loop goes on with the streams that remain. *)
Theorem extractSubtitle_timeout_kills E cfg vc ip st ys sub rest s :
  let op := path_join E PLUGIN_OUTPUT_PATH (outputFilename_of cfg st ys vc sub) in
  let args := ffmpeg_args cfg ip op (index sub) in
  let run := ffmpeg E (spawned s (index sub) args) args in
  existsSync (fs s) op && negb (forceRecompute cfg) = false ->
  match tool_end run with
  | Exits t _ | SpawnFails t _ => 120000 <= t
  | Hangs => True
  end ->
  (forall e, snd (first_event e 120000) <= 120000) /\
  exists s1 evs,
    extractSubtitle E cfg ip op (index sub) (codec sub) s = (s1, inl false) /\
    trace s1 = trace s ++ EvConsole (LogRunning (index sub))
                       :: EvSpawn "ffmpeg" args :: evs /\
    In (EvKill "SIGKILL") evs /\ adds evs = [] /\
    store s1 = store s /\ extractedCids s1 = extractedCids s /\
    process_stream E cfg vc ip st ys sub s = (s1, inl tt) /\
    for_each (sub :: rest) (process_stream E cfg vc ip st ys) s
    = for_each rest (process_stream E cfg vc ip st ys) s1.
Proof.
  intros op args run Hslow Hlate. split.
  { intros [t c|t m|]; cbn; try lia; destruct (Z.ltb_spec t 120000); cbn; lia. }
  assert (Htimer : fst (first_event (tool_end run) 120000) = OnTimer).
  { destruct (tool_end run) as [t c|t m|]; cbn; [| |reflexivity];
      destruct (Z.ltb_spec t 120000); [lia|reflexivity|lia|reflexivity]. }
  destruct (extractSubtitle_spec E cfg ip op (index sub) (codec sub) s)
    as (s1 & b & evs & Heq & Htr & (_ & _ & Hadds) & (Hstore & Hcids & _) & _ & _ & Hkill & _).
  destruct (Hkill Htimer) as (-> & Hin & _).
  destruct (process_stream_slow E cfg vc ip st ys sub s Hslow)
    as (s1' & b' & s' & evs' & Heq' & Hps & _ & _ & _ & Hfalse).
  fold op in Heq'. rewrite Heq in Heq'. injection Heq' as <- <-.
  destruct (Hfalse eq_refl) as [-> _].
  exists s1, evs. repeat split; auto.
  cbn [for_each]. now rewrite (bind_ok _ _ _ _ _ Hps).
Qed.

End Run.

(** ** The classifier *)

Section Classifier.

Lemma scan_entries_index entries : forall i streams,
  map index (scan_entries entries i streams)
  = map index streams ++ seq i (length (retained_entries entries)).
Proof.
  induction entries as [|e rest IH]; intros i streams.
  - cbn. now rewrite app_nil_r.
  - destruct e as [|ctype cname tags].
    + cbn. now rewrite app_nil_r.
    + unfold retained_entries. cbn [scan_entries before_null List.filter is_subtitle_entry].
      destruct ctype as [t|]; [destruct (String.eqb t "subtitle")|].
      * rewrite IH, map_app. cbn [map length seq index].
        now rewrite <- app_assoc.
      * apply IH.
      * apply IH.
Qed.

Lemma scan_entries_codec entries : forall i streams,
  map codec (scan_entries entries i streams)
  = map codec streams ++ map entry_codec (retained_entries entries).
Proof.
  induction entries as [|e rest IH]; intros i streams.
  - cbn. now rewrite app_nil_r.
  - destruct e as [|ctype cname tags].
    + cbn. now rewrite app_nil_r.
    + unfold retained_entries. cbn [scan_entries before_null List.filter is_subtitle_entry].
      destruct ctype as [t|]; [destruct (String.eqb t "subtitle")|].
      * rewrite IH, map_app. cbn [map codec entry_codec].
        now rewrite <- app_assoc.
      * apply IH.
      * apply IH.
Qed.

Lemma scan_fields_index existingMeta (l : list nat) : forall streams,
  map index (fold_left (scan_field existingMeta) l streams)
  = map index streams
    ++ List.filter (fun i => JS.truthy (existingMeta !! subtitle_key i "_codec")) l.
Proof.
  induction l as [|i l IH]; intros streams.
  - cbn. now rewrite app_nil_r.
  - cbn [fold_left List.filter]. rewrite IH. unfold scan_field.
    destruct (JS.truthy (existingMeta !! subtitle_key i "_codec")).
    + rewrite map_app. cbn [map index]. now rewrite <- app_assoc.
    + reflexivity.
Qed.

Lemma scan_fields_index_nil existingMeta (l : list nat) :
  map index (fold_left (scan_field existingMeta) l [])
  = List.filter (fun i => JS.truthy (existingMeta !! subtitle_key i "_codec")) l.
Proof. now rewrite scan_fields_index. Qed.

Lemma scan_entries_index_nil entries :
  map index (scan_entries entries 0 []) = seq 0 (length (retained_entries entries)).
Proof. now rewrite scan_entries_index. Qed.

Lemma scan_entries_codec_nil entries :
  map codec (scan_entries entries 0 []) = map entry_codec (retained_entries entries).
Proof. now rewrite scan_entries_codec. Qed.

Lemma filter_below n : forall (f : nat -> bool) a m,
  (forall i, (a <= i < a + m)%nat -> f i = (i <? a + n)%nat) ->
  (n <= m)%nat ->
  List.filter f (seq a m) = seq a n.
Proof.
  induction n as [|n IH]; intros f a m Hf Hle.
  - cbn [seq]. clear Hle. revert a Hf.
    induction m as [|m IHm]; intros a Hf; [reflexivity|].
    cbn [seq List.filter]. rewrite Hf by lia.
    destruct (Nat.ltb_spec a (a + 0)); [lia|].
    apply IHm. intros i Hi. rewrite Hf by lia.
    destruct (Nat.ltb_spec i (a + 0)); destruct (Nat.ltb_spec i (S a + 0)); lia || reflexivity.
  - destruct m as [|m]; [lia|].
    cbn [seq List.filter]. rewrite Hf by lia.
    destruct (Nat.ltb_spec a (a + S n)); [|lia].
    f_equal. apply IH; [|lia].
    intros i Hi. rewrite Hf by lia.
    destruct (Nat.ltb_spec i (a + S n)); destruct (Nat.ltb_spec i (S a + n)); lia || reflexivity.
Qed.

(** C9, as the code has it: the streams read from the JSON list are the
    entries marked [subtitle] (up to a [null] entry), in order, and the
    k-th of them has index k.  The streams read from the numbered fields
    are one for each non-empty [subtitle_i_codec] with i below 20, in
    increasing order of i, and each has index i: the k-th has index k when
    the fields present are those of 0 .. n-1. *)
Theorem parseSubtitleStreams_indices E existingMeta :
  let l := parseSubtitleStreams E existingMeta in
  (json_streams E existingMeta <> [] ->
     l = json_streams E existingMeta /\ map index l = seq 0 (length l))
  /\ (forall entries,
        JS.truthy (existingMeta !! "streams"%string) = true ->
        JSON_parse E (or_else (existingMeta !! "streams"%string) "") = Entries entries ->
        map codec (json_streams E existingMeta)
        = map entry_codec (retained_entries entries))
  /\ (json_streams E existingMeta = [] ->
        map index l = present_fields existingMeta
        /\ forall n, (n <= 20)%nat ->
             (forall i, (i < 20)%nat ->
                JS.truthy (existingMeta !! subtitle_key i "_codec") = (i <? n)%nat) ->
             map index l = seq 0 n).
Proof.
  cbv zeta. unfold parseSubtitleStreams. split; [|split].
  - intros Hne. destruct (json_streams E existingMeta) as [|s0 r] eqn:Hj; [contradiction|].
    split; [reflexivity|]. rewrite <- Hj. unfold json_streams in *.
    destruct (JS.truthy (existingMeta !! "streams"%string)); [|discriminate].
    destruct (JSON_parse E _) as [| |entries]; try discriminate.
    pose proof (scan_entries_index_nil entries) as Hidx.
    rewrite Hidx. f_equal. symmetry.
    rewrite <- (length_map index), Hidx. apply length_seq.
  - intros entries Htruthy Hparse. unfold json_streams. rewrite Htruthy, Hparse.
    apply scan_entries_codec_nil.
  - intros Hnil. rewrite Hnil.
    pose proof (scan_fields_index_nil existingMeta (seq 0 20)) as Hidx.
    split; [exact Hidx|].
    intros n Hn Hpresent. rewrite Hidx. apply (filter_below n _ 0%nat 20%nat); [|exact Hn].
    intros i Hi. apply Hpresent. lia.
Qed.

End Classifier.

(** ** Concrete runs *)

Section ConcreteRuns.

Import Scenario.

Local Open Scope string_scope.

(** C6, where the code departs from the claim: a tool that exits with
    code 1 leaves 100 bytes at the output path.  [extractSubtitle] resolves
    to [false] and calls no [unlinkSync]: the partial file stays on disk,
    the run reports [completed] with nothing extracted, and the next run
    of the same request finds the file, starts no tool and collects the
    identifier of the partial file as that of an extracted subtitle. *)
Theorem failed_tool_leaves_partial_file :
  let s1 := process E_partial cfg (request meta_subrip) (initial ∅ ∅) in
  let s2 := process E_partial cfg (request meta_subrip) (initial (fs s1) (store s1)) in
  snd (extractSubtitle E_partial cfg "/files/movie.mkv" eng_srt 0 "subrip" (initial ∅ ∅))
  = inl false
  /\ fs (fst (extractSubtitle E_partial cfg "/files/movie.mkv" eng_srt 0 "subrip"
               (initial ∅ ∅))) !! eng_srt
     = Some (File (repeat x41 100))
  /\ spawns (trace s1) = [args_of E_partial cfg (request meta_subrip)
                            (stream 0 "subrip" (Some "eng"))]
  /\ unlinks (trace s1) = []
  /\ extractedCids s1 = []
  /\ fs s1 !! eng_srt = Some (File (repeat x41 100))
  /\ spawns (trace s2) = []
  /\ In (EvConsole (LogAlreadyExists "Movie[bafkvideo]_subtitle.eng.srt")) (trace s2)
  /\ extractedCids s2 = [cid_of_bytes (repeat x41 100)].
Proof.
  vm_compute. repeat split; try reflexivity. right. left. reflexivity.
Qed.

(** C2, the claim as stated fails: a stream whose codec is in neither list
    is handed to the tool. *)
Lemma unknown_codec_is_extracted :
  ~ (forall E cfg request s0 sub,
       In sub (parseSubtitleStreams E (default ∅ (existingMeta request))) ->
       CODEC_EXTENSION_MAP !! codec sub = None ->
       codec sub ∉ UNSUPPORTED_SUBTITLE_CODECS ->
       ~ In (args_of E cfg request sub) (spawns (trace (process E cfg request s0)))).
Proof.
  intros H.
  apply (H E_ok cfg (request meta_unknown_codec) (initial ∅ ∅) (stream 0 "unknown" None)).
  - vm_compute. left. reflexivity.
  - vm_compute. reflexivity.
  - apply (bool_decide_unpack _). vm_compute. exact I.
  - vm_compute. left. reflexivity.
Qed.

(** C3, the claim as stated fails in its fourth case: a run whose streams
    all have a codec outside the supported table, but not in the
    image-based list, is not skipped: the tool is started and the run
    reports [completed]. *)
Lemma unlisted_codec_run_is_not_skipped :
  ~ (forall E cfg request s0,
       Forall (fun s => CODEC_EXTENSION_MAP !! codec s = None)
         (parseSubtitleStreams E (default ∅ (existingMeta request))) ->
       exists p,
         callbacks (trace (process E cfg request s0)) = [p]
         /\ status p = skipped
         /\ spawns (trace (process E cfg request s0)) = []).
Proof.
  intros H.
  destruct (H E_ok cfg (request meta_unknown_codec) (initial ∅ ∅)) as (p & Hcb & Hst & _).
  - vm_compute. repeat constructor.
  - vm_compute in Hcb. injection Hcb as <-. discriminate Hst.
Qed.

(** C9, the claim as stated fails on the numbered fields: a bag with
    [subtitle_1_codec] and no [subtitle_0_codec] yields one stream, and its
    index is 1. *)
Lemma fallback_keeps_field_number :
  ~ (forall E existingMeta (k : nat) s,
       parseSubtitleStreams E existingMeta !! k = Some s -> index s = k).
Proof.
  intros H.
  specialize (H E_ok meta_gap 0%nat (stream 1 "subrip" None)).
  discriminate H. vm_compute. reflexivity.
Qed.

(** *** The theorems at concrete inputs *)

Lemma computeMidHash256Sync_bit_exact_witness :
  ({[ "/output/a.srt" := File [x68; x69] ]} : gmap string Node) !! "/output/a.srt"
  = Some (File [x68; x69])
  /\ (Z.of_nat (length [x68; x69]) <= JS.MAX_SAFE_INTEGER)%Z
  /\ computeMidHash256Sync {[ "/output/a.srt" := File [x68; x69] ]} "/output/a.srt"
     = Some (String.append "b"
               (base32_nopad
                  ([x01; x80; x20; x80; x20; x20]
                   ++ SHA256.sha256 (be_bytes 8 2 ++ [x68; x69])))).
Proof.
  assert (H1 : ({[ "/output/a.srt" := File [x68; x69] ]} : gmap string Node)
               !! "/output/a.srt" = Some (File [x68; x69]))
    by (vm_compute; reflexivity).
  assert (H2 : (Z.of_nat (length [x68; x69]) <= JS.MAX_SAFE_INTEGER)%Z)
    by (vm_compute; discriminate).
  split; [exact H1|]. split; [exact H2|].
  exact (proj1 (computeMidHash256Sync_bit_exact _ _ _ H1 H2)).
Defined.


Lemma process_short_circuits_witness :
  exists evs p why,
    trace (process E_ok cfg (request meta_image_only) (initial ∅ ∅)) = evs /\
    callbacks evs = [p] /\ status p = skipped /\ reason p = Some why /\
    spawns evs = [] /\
    fs (process E_ok cfg (request meta_image_only) (initial ∅ ∅)) = ∅.
Proof.
  destruct (process_short_circuits E_ok cfg (request meta_image_only) (initial ∅ ∅))
    as (evs & p & why & Htr & Hcb & Hst & Hwhy & _ & Hsp & _ & Hfs & _).
  - right. right. right. vm_compute.
    constructor; [|constructor].
    apply (bool_decide_unpack _). vm_compute. exact I.
  - exists evs, p, why. repeat split; assumption.
Defined.

Lemma process_completes_despite_failures_witness :
  exists evs p,
    trace (process E_partial cfg (request meta_subrip) (initial ∅ ∅)) = evs /\
    callbacks evs = [p] /\ status p = completed.
Proof.
  destruct (process_completes_despite_failures E_partial cfg (request meta_subrip)
              (initial ∅ ∅))
    as (evs & p & Htr & Hcb & Hst & _).
  - vm_compute. reflexivity.
  - vm_compute. reflexivity.
  - vm_compute. discriminate.
  - right. intros s. vm_compute. discriminate.
  - exists evs, p. repeat split; assumption.
Defined.

Lemma process_stream_reuses_existing_file_witness :
  exists s',
    fst (process_stream E_ok cfg "bafkvideo" "/files/movie.mkv" "Movie" ""
           (stream 0 "subrip" (Some "eng"))
           (initial {[ eng_srt := File (repeat x41 20) ]} ∅)) = s' /\
    extractedCids s' = [cid_of_bytes (repeat x41 20)] /\
    spawns (trace s') = [].
Proof.
  destruct (process_stream_reuses_existing_file E_ok cfg "bafkvideo" "/files/movie.mkv"
              "Movie" "" (stream 0 "subrip" (Some "eng"))
              (initial {[ eng_srt := File (repeat x41 20) ]} ∅) (repeat x41 20))
    as (s' & evs & Heq & Htr & Hsp & _ & Hcids & _).
  - vm_compute. reflexivity.
  - vm_compute. discriminate.
  - reflexivity.
  - exists s'. rewrite Heq. repeat split; [exact Hcids|].
    rewrite Htr. exact Hsp.
Defined.

Lemma fast_path_writes_no_metadata_witness :
  exists s',
    fst (process_stream E_ok cfg "bafkvideo" "/files/movie.mkv" "Movie" ""
           (stream 0 "subrip" (Some "eng"))
           (initial {[ eng_srt := File (repeat x41 20) ]} ∅)) = s' /\
    adds (trace s') = [] /\ store s' = ∅.
Proof.
  destruct (fast_path_writes_no_metadata E_ok cfg "bafkvideo" "/files/movie.mkv"
              "Movie" "" (stream 0 "subrip" (Some "eng"))
              (initial {[ eng_srt := File (repeat x41 20) ]} ∅))
    as [(s' & evs & Heq & Htr & Hadds & Hstore & _) _].
  - vm_compute. reflexivity.
  - reflexivity.
  - exists s'. rewrite Heq. repeat split; [|exact Hstore].
    rewrite Htr. exact Hadds.
Defined.

Lemma extractSubtitle_timeout_kills_witness :
  exists s1,
    extractSubtitle E_hangs cfg "/files/movie.mkv" eng_srt 0 "subrip" (initial ∅ ∅)
    = (s1, inl false) /\
    In (EvKill "SIGKILL") (trace s1).
Proof.
  destruct (extractSubtitle_timeout_kills E_hangs cfg "bafkvideo" "/files/movie.mkv"
              "Movie" "" (stream 0 "subrip" (Some "eng")) [] (initial ∅ ∅))
    as [_ (s1 & evs & Heq & Htr & Hkill & _)].
  - vm_compute. reflexivity.
  - vm_compute. exact I.
  - exists s1. split; [exact Heq|]. rewrite Htr.
    apply in_or_app. right. right. right. exact Hkill.
Defined.

Lemma parseSubtitleStreams_indices_witness :
  map index (parseSubtitleStreams E_ok meta_subrip) = seq 0 1.
Proof.
  refine (proj2 (proj2 (proj2 (parseSubtitleStreams_indices E_ok meta_subrip)) _) 1%nat _ _).
  - vm_compute. reflexivity.
  - lia.
  - intros i Hi. do 20 (destruct i as [|i]; [vm_compute; reflexivity|]). lia.
Defined.

End ConcreteRuns.

(** ** The identifier: its text, its inputs *)

(** ** More on the encoding and the sample *)

Section EncodingFacts.

Local Open Scope Z_scope.

Lemma quintets_length l : length (quintets l) = ((length l + 4) / 5)%nat.
Proof.
  assert (H : forall n l, (length l <= n)%nat ->
                          length (quintets l) = ((length l + 4) / 5)%nat).
  { clear l. induction n as [|n IH]; intros l Hn.
    - destruct l; [reflexivity|cbn in Hn; lia].
    - destruct l as [|b4 [|b3 [|b2 [|b1 [|b0 r]]]]]; try reflexivity.
      change (quintets (b4 :: b3 :: b2 :: b1 :: b0 :: r))
        with (bits_value [b4; b3; b2; b1; b0] :: quintets r).
      replace (length (b4 :: b3 :: b2 :: b1 :: b0 :: r)) with (length r + 5)%nat
        by (cbn [length]; lia).
      cbn [length] in Hn |- *. rewrite IH by lia.
      replace (length r + 5 + 4)%nat with ((length r + 4) + 1 * 5)%nat by lia.
      rewrite Nat.div_add by lia. lia. }
  apply (H (length l)). lia.
Qed.

Lemma symbols_length qs :
  Forall (fun q => 0 <= q < 32) qs -> String.length (symbols qs) = length qs.
Proof.
  induction 1 as [|q qs Hq _ IH]; [reflexivity|].
  destruct (rfc4648_lower_char q Hq) as [c Hc].
  cbn [symbols fold_right]. fold (symbols qs). rewrite Hc, string_app_cons.
  cbn [String.length length]. change (String.append EmptyString ?x) with x.
  now rewrite IH.
Qed.

Lemma base32_nopad_length bs :
  String.length (base32_nopad bs) = ((8 * length bs + 4) / 5)%nat.
Proof.
  unfold base32_nopad. rewrite symbols_length by apply quintets_range.
  now rewrite quintets_length, bits_of_bytes_length.
Qed.

(** X1: the text the loop makes of [n] bytes has 1 + ceil(8n / 5)
    characters: the prefix b and one symbol for every five bits begun. *)
Theorem base32_loop_length bs :
  String.length (base32_loop bs) = S ((8 * length bs + 4) / 5).
Proof.
  rewrite base32_loop_spec, string_app_cons. cbn [String.length].
  change (String.append EmptyString ?x) with x.
  now rewrite base32_nopad_length.
Qed.

(** X2: the loop loses nothing: two byte strings with the same text are the
    same byte string, whatever their lengths. *)
Theorem base32_loop_lossless bs1 bs2 :
  base32_loop bs1 = base32_loop bs2 -> bs1 = bs2.
Proof.
  intros Heq.
  rewrite !base32_loop_spec in Heq. apply multibase_prefix_inj in Heq.
  pose proof (f_equal String.length Heq) as Hlen.
  rewrite !base32_nopad_length in Hlen.
  apply base32_nopad_inj; [|exact Heq].
  pose proof (Nat.div_mod_eq (8 * length bs1 + 4) 5) as D1.
  pose proof (Nat.div_mod_eq (8 * length bs2 + 4) 5) as D2.
  pose proof (Nat.mod_upper_bound (8 * length bs1 + 4) 5 ltac:(lia)) as M1.
  pose proof (Nat.mod_upper_bound (8 * length bs2 + 4) 5 ltac:(lia)) as M2.
  lia.
Qed.

Lemma rfc4648_lower_in_alphabet q :
  0 <= q < 32 ->
  exists c, rfc4648_lower q = String c EmptyString
            /\ In c (list_ascii_of_string base32Chars).
Proof.
  intros Hq. unfold rfc4648_lower.
  assert (Hm : (Z.to_nat q < 32)%nat) by lia.
  revert Hm. generalize (Z.to_nat q) as m. intros m Hm.
  do 32 (destruct m as [|m]; [eexists; split; [reflexivity|cbn; tauto]|]). lia.
Qed.

Lemma symbols_in_alphabet qs :
  Forall (fun q => 0 <= q < 32) qs ->
  Forall (fun c => In c (list_ascii_of_string base32Chars))
         (list_ascii_of_string (symbols qs)).
Proof.
  induction 1 as [|q qs Hq _ IH]; [constructor|].
  destruct (rfc4648_lower_in_alphabet q Hq) as (c & Hc & Hin).
  cbn [symbols fold_right]. fold (symbols qs). rewrite Hc, string_app_cons.
  change (String.append EmptyString ?x) with x.
  cbn [list_ascii_of_string]. now constructor.
Qed.

Lemma cid_prefix_symbols (rest : list byte) :
  base32_nopad ([x01; x80; x20; x80; x20; x20] ++ rest)
  = String.append "agacbabae"
      (symbols (quintets ([false; false; false] ++ flat_map bits_of_byte rest))).
Proof.
  unfold base32_nopad. rewrite flat_map_app.
  let t := eval vm_compute in (flat_map bits_of_byte [x01; x80; x20; x80; x20; x20]) in
  change (flat_map bits_of_byte [x01; x80; x20; x80; x20; x20]) with t.
  reflexivity.
Qed.

(** X3: the identifier of every regular file is a text of 62 characters of
    the base32 alphabet that starts with bagacbabae, the part the tag bytes
    01 80 20 80 20 20 fix before the digest begins. *)
Theorem cid_text_shape fs filePath d :
  fs !! filePath = Some (File d) ->
  Z.of_nat (length d) <= JS.MAX_SAFE_INTEGER ->
  exists rest,
    computeMidHash256Sync fs filePath = Some (String.append "bagacbabae" rest)
    /\ String.length rest = 52%nat
    /\ Forall (fun c => In c (list_ascii_of_string base32Chars))
              (list_ascii_of_string (String.append "bagacbabae" rest)).
Proof.
  intros Hp Hsize.
  rewrite (computeMidHash256Sync_file fs filePath d Hp Hsize).
  unfold cid_of_bytes, cid_structure.
  set (digest := SHA256.sha256 _).
  pose proof (sha256_length (be_bytes 8 (Z.of_nat (length d)) ++ sample_of d)) as Hd.
  fold digest in Hd.
  exists (symbols (quintets ([false; false; false] ++ flat_map bits_of_byte digest))).
  split; [|split].
  - rewrite cid_prefix_symbols. reflexivity.
  - rewrite symbols_length by apply quintets_range.
    rewrite quintets_length, length_app, bits_of_bytes_length, Hd. reflexivity.
  - change (String.append "bagacbabae" ?x)
      with (String "b" (String.append "agacbabae" x)).
    rewrite <- cid_prefix_symbols.
    cbn [list_ascii_of_string]. constructor; [cbn; tauto|].
    apply symbols_in_alphabet, quintets_range.
Qed.

(** X4: what [Buffer.allocUnsafe] hands out never reaches the identifier:
    both buffers are overwritten in full before they are read, so the
    result is the same for every content of the fresh buffers. *)
Theorem computeMidHash256Sync_ignores_fresh_buffers alloc fs filePath :
  (forall n, 0 <= n -> length (alloc n) = Z.to_nat n) ->
  computeMidHash256Sync_alloc alloc fs filePath = computeMidHash256Sync fs filePath.
Proof.
  intros Halloc.
  assert (Hskip : forall n m, 0 <= n -> (Z.to_nat n <= m)%nat ->
            skipn m (alloc n) = skipn m (Buffer_allocUnsafe n)).
  { intros n m Hn Hm. rewrite !skipn_all2; auto.
    - unfold Buffer_allocUnsafe. rewrite repeat_length. exact Hm.
    - rewrite Halloc by exact Hn. exact Hm. }
  assert (Hsize : forall v, writeBigUInt64BE (alloc 8) v
                            = writeBigUInt64BE (Buffer_allocUnsafe 8) v).
  { intros v. unfold writeBigUInt64BE.
    destruct ((0 <=? v) && (v <? 2 ^ 64)); [|reflexivity].
    now rewrite (Hskip 8 8%nat) by lia. }
  assert (Hread : forall len pos d,
            fs !! filePath = Some (File d) ->
            0 <= len -> 0 <= pos -> pos + len <= Z.of_nat (length d) ->
            readSync fs filePath (alloc len) len pos
            = readSync fs filePath (Buffer_allocUnsafe len) len pos).
  { intros len pos d Hp Hlen Hpos Hin. unfold readSync. rewrite Hp. do 2 f_equal.
    apply Hskip; [exact Hlen|]. rewrite length_firstn, length_skipn. lia. }
  unfold computeMidHash256Sync_alloc, computeMidHash256Sync.
  destruct (statSync_size fs filePath) as [fileSize|] eqn:Hstat; [|reflexivity].
  rewrite Hsize.
  destruct (writeBigUInt64BE (Buffer_allocUnsafe 8) fileSize) as [sizeBuffer|];
    [|reflexivity].
  unfold statSync_size in Hstat.
  destruct (fs !! filePath) as [[d|n]|] eqn:Hp; [| |discriminate].
  - injection Hstat as <-. change SAMPLE_SIZE with 1048576.
    destruct (Z.leb_spec (Z.of_nat (length d)) 1048576) as [Hle|Hgt].
    + now rewrite (Hread _ _ d eq_refl) by lia.
    + assert (0 <= (Z.of_nat (length d) - 1048576) / 2) by (apply Z.div_pos; lia).
      assert (2 * ((Z.of_nat (length d) - 1048576) / 2) <= Z.of_nat (length d) - 1048576)
        by (apply Z.mul_div_le; lia).
      now rewrite (Hread _ _ d eq_refl) by lia.
  - unfold readSync. rewrite Hp. now destruct (fileSize <=? SAMPLE_SIZE).
Qed.

Lemma be_value_from acc (bs : list byte) :
  fold_left (fun a b => 256 * a + byte_to_Z b) bs acc
  = acc * 256 ^ Z.of_nat (length bs) + be_value bs.
Proof.
  unfold be_value. revert acc.
  induction bs as [|b bs IH]; intros acc; [cbn; lia|].
  cbn [fold_left length]. rewrite IH, (IH (256 * 0 + byte_to_Z b)).
  rewrite Nat2Z.inj_succ, Z.pow_succ_r by lia. ring.
Qed.

Lemma be_bytes_S n v :
  be_bytes (S n) v = byte_of_Z (Z.shiftr v (8 * Z.of_nat n)) :: be_bytes n v.
Proof.
  unfold be_bytes. rewrite seq_S, rev_app_distr. reflexivity.
Qed.

Lemma be_value_be_bytes n v :
  0 <= v -> be_value (be_bytes n v) = v mod 2 ^ (8 * Z.of_nat n).
Proof.
  intros Hv. induction n as [|n IH].
  - cbn. now rewrite Z.mod_1_r.
  - rewrite be_bytes_S. unfold be_value at 1. cbn [fold_left].
    rewrite be_value_from, be_bytes_length, IH.
    replace (byte_of_Z (Z.shiftr v (8 * Z.of_nat n)))
      with (byte_of_Z (Z.shiftr v (8 * Z.of_nat n) mod 256))
      by (unfold byte_of_Z; now rewrite Z.mod_mod).
    rewrite byte_to_of_Z by (apply Z.mod_pos_bound; lia).
    rewrite Z.shiftr_div_pow2 by lia.
    replace (8 * Z.of_nat (S n)) with (8 * Z.of_nat n + 8) by lia.
    rewrite Z.pow_add_r by lia.
    rewrite Z.rem_mul_r by (try apply Z.pow_nonzero; lia).
    replace (256 ^ Z.of_nat n) with (2 ^ (8 * Z.of_nat n))
      by (rewrite Z.pow_mul_r by lia; reflexivity).
    change (2 ^ 8) with 256. lia.
Qed.

Lemma be_bytes_8_inj v w :
  0 <= v < 2 ^ 64 -> 0 <= w < 2 ^ 64 -> be_bytes 8 v = be_bytes 8 w -> v = w.
Proof.
  intros Hv Hw Heq. apply (f_equal be_value) in Heq.
  rewrite !be_value_be_bytes in Heq by lia.
  change (8 * Z.of_nat 8) with 64 in Heq.
  now rewrite !Z.mod_small in Heq by lia.
Qed.

(** X5: when two regular files get the same identifier, either they have
    the same length and the same sample, or SHA-256 maps two different
    digest inputs to one digest. *)
Theorem equal_identifiers_explained fs p1 p2 d1 d2 :
  fs !! p1 = Some (File d1) ->
  fs !! p2 = Some (File d2) ->
  Z.of_nat (length d1) <= JS.MAX_SAFE_INTEGER ->
  Z.of_nat (length d2) <= JS.MAX_SAFE_INTEGER ->
  computeMidHash256Sync fs p1 = computeMidHash256Sync fs p2 ->
  (length d1 = length d2 /\ sample_of d1 = sample_of d2)
  \/ (hash_input d1 <> hash_input d2
      /\ SHA256.sha256 (hash_input d1) = SHA256.sha256 (hash_input d2)).
Proof.
  intros H1 H2 S1 S2 Heq.
  rewrite (computeMidHash256Sync_file fs p1 d1 H1 S1) in Heq.
  rewrite (computeMidHash256Sync_file fs p2 d2 H2 S2) in Heq.
  apply (inj Some) in Heq. apply cid_of_bytes_eq_iff in Heq.
  destruct (List.list_eq_dec Byte.byte_eq_dec (hash_input d1) (hash_input d2))
    as [Hin|Hin]; [left|right; now split].
  unfold hash_input in Hin.
  apply app_inj_1 in Hin; [|now rewrite !be_bytes_length].
  destruct Hin as [Hlen Hsample]. split; [|exact Hsample].
  assert (JS.MAX_SAFE_INTEGER < 2 ^ 64) by reflexivity.
  apply be_bytes_8_inj in Hlen; lia.
Qed.

(** X6: in a file of more than 1 MiB the sample is the middle of the file:
    the bytes before it and the bytes after it differ in number by at most
    one, the odd byte being after. *)
Theorem sample_is_the_middle (d : list byte) :
  1048576 < Z.of_nat (length d) ->
  exists pre post,
    d = pre ++ sample_of d ++ post
    /\ Z.of_nat (length (sample_of d)) = 1048576
    /\ (length pre <= length post <= length pre + 1)%nat.
Proof.
  intros HL. unfold sample_of.
  destruct (Z.leb_spec (Z.of_nat (length d)) 1048576) as [|_]; [lia|].
  set (off := (Z.of_nat (length d) - 1048576) / 2).
  assert (Hoff : 0 <= off) by (apply Z.div_pos; lia).
  assert (Hlo : 2 * off <= Z.of_nat (length d) - 1048576)
    by (apply Z.mul_div_le; lia).
  assert (Hhi : Z.of_nat (length d) - 1048576 < 2 * off + 2).
  { pose proof (Z.mul_succ_div_gt (Z.of_nat (length d) - 1048576) 2 ltac:(lia)).
    fold off in H. lia. }
  generalize dependent off. intros off Hoff Hlo Hhi.
  assert (HN : Z.of_nat (Z.to_nat 1048576) = 1048576) by (apply Z2Nat.id; lia).
  generalize dependent (Z.to_nat 1048576). intros N HN.
  exists (firstn (Z.to_nat off) d), (skipn N (skipn (Z.to_nat off) d)).
  split; [|split].
  - now rewrite (firstn_skipn N), (firstn_skipn (Z.to_nat off)).
  - rewrite length_firstn, length_skipn. lia.
  - rewrite length_firstn, !length_skipn. lia.
Qed.

End EncodingFacts.

(** ** File names and WebDAV paths *)

Section Names.

Lemma trim_start_spec l :
  exists sp, l = sp ++ trim_start l
    /\ Forall (fun c => is_space c = true) sp
    /\ (forall c r, trim_start l = c :: r -> is_space c = false).
Proof.
  induction l as [|c r IH].
  - exists []. split; [reflexivity|]. split; [constructor|]. discriminate.
  - cbn [trim_start]. destruct (is_space c) eqn:Hc.
    + destruct IH as (sp & Hl & Hsp & Hhd). exists (c :: sp).
      split; [cbn [app]; now f_equal|]. split; [now constructor|exact Hhd].
    + exists []. split; [reflexivity|]. split; [constructor|].
      intros c' r' [= <- _]. exact Hc.
Qed.

Lemma trim_spec l :
  exists sp1 sp2, l = sp1 ++ trim l ++ sp2
    /\ Forall (fun c => is_space c = true) sp1
    /\ Forall (fun c => is_space c = true) sp2
    /\ (forall c r, trim l = c :: r -> is_space c = false)
    /\ (forall c r, trim l = r ++ [c] -> is_space c = false).
Proof.
  destruct (trim_start_spec l) as (sp1 & H1 & F1 & Hd1).
  destruct (trim_start_spec (rev (trim_start l))) as (sp2 & H2 & F2 & Hd2).
  unfold trim. set (T := trim_start (rev (trim_start l))) in *.
  apply (f_equal (@rev ascii)) in H2. rewrite rev_involutive, rev_app_distr in H2.
  exists sp1, (rev sp2). split; [now rewrite <- H2|].
  split; [exact F1|]. split; [now apply Forall_rev|]. split.
  - intros c r Hr. rewrite Hr in H2. exact (Hd1 c _ H2).
  - intros c r Hr. apply (f_equal (@rev ascii)) in Hr.
    rewrite rev_involutive, rev_app_distr in Hr. exact (Hd2 c _ Hr).
Qed.

Lemma collapse_spaces_elements inrun l :
  Forall (fun c => c = " "%char \/ (In c l /\ is_space c = false))
         (collapse_spaces inrun l).
Proof.
  revert inrun. induction l as [|c r IH]; intros inrun; [constructor|].
  assert (Hr : forall b, Forall (fun c0 => c0 = " "%char \/ (In c0 (c :: r) /\ is_space c0 = false))
                                (collapse_spaces b r)).
  { intros b. eapply List.Forall_impl; [|apply IH].
    intros a [->|[Hin Ha]]; [now left|right; split; [now right|exact Ha]]. }
  cbn [collapse_spaces]. destruct (is_space c) eqn:Hc.
  - destruct inrun; [apply Hr|]. constructor; [now left|apply Hr].
  - constructor; [right; split; [now left|exact Hc]|apply Hr].
Qed.

Lemma collapse_spaces_single inrun l :
  (forall a r, collapse_spaces inrun l <> a ++ " "%char :: " "%char :: r)
  /\ (inrun = true -> forall r, collapse_spaces inrun l <> " "%char :: r).
Proof.
  revert inrun. induction l as [|c r IH]; intros inrun.
  - split; [intros [|x a] b; discriminate|discriminate].
  - cbn [collapse_spaces]. destruct (is_space c) eqn:Hc.
    + destruct inrun.
      * apply IH.
      * split; [|discriminate].
        intros [|x a] b Heq; apply (f_equal (@tl ascii)) in Heq; cbn [tl app] in Heq.
        -- exact (proj2 (IH true) eq_refl _ Heq).
        -- exact (proj1 (IH true) _ _ Heq).
    + split.
      * intros [|x a] b Heq.
        -- apply (f_equal (@hd ascii c)) in Heq. cbn [hd app] in Heq.
           subst c. discriminate.
        -- apply (f_equal (@tl ascii)) in Heq. cbn [tl app] in Heq.
           exact (proj1 (IH false) _ _ Heq).
      * intros _ b Heq. apply (f_equal (@hd ascii c)) in Heq. cbn [hd] in Heq.
        subst c. discriminate.
Qed.

Lemma collapse_spaces_keeps inrun l c :
  In c l -> is_space c = false -> In c (collapse_spaces inrun l).
Proof.
  revert inrun. induction l as [|x r IH]; intros inrun Hin Hc; [destruct Hin|].
  cbn [collapse_spaces]. destruct Hin as [->|Hin].
  - rewrite Hc. now left.
  - destruct (is_space x); [destruct inrun|]; try right; now apply IH.
Qed.

(** The five marks of a clean list of characters. *)
Lemma sanitize_chars_clean l :
  let out := trim (collapse_spaces false
                     (List.filter (fun c => negb (is_invalid_char c)) l)) in
  Forall (fun c => is_invalid_char c = false) out
  /\ Forall (fun c => is_space c = true -> c = " "%char) out
  /\ (forall a b, out <> a ++ " "%char :: " "%char :: b)
  /\ (forall c r, out = c :: r -> is_space c = false)
  /\ (forall c r, out = r ++ [c] -> is_space c = false).
Proof.
  intros out. subst out.
  set (l1 := List.filter _ l). set (l2 := collapse_spaces false l1).
  destruct (trim_spec l2) as (sp1 & sp2 & Hl2 & _ & _ & Hhd & Hlast).
  assert (Hel : Forall (fun c => c = " "%char \/ (In c l1 /\ is_space c = false)) (trim l2)).
  { pose proof (collapse_spaces_elements false l1) as H. fold l2 in H.
    rewrite Hl2 in H. apply Forall_app in H as [_ H]. now apply Forall_app in H as [H _]. }
  split; [|split; [|split; [|split]]].
  - eapply List.Forall_impl; [|exact Hel]. intros c [->|[Hin _]]; [reflexivity|].
    apply filter_In in Hin as [_ Hin]. now apply negb_true_iff in Hin.
  - eapply List.Forall_impl; [|exact Hel]. intros c [->|[_ Hc]]; [reflexivity|congruence].
  - intros a b Heq. rewrite Heq in Hl2.
    apply (proj1 (collapse_spaces_single false l1) (sp1 ++ a) (b ++ sp2)).
    fold l2. rewrite Hl2. now rewrite <- !app_assoc.
  - exact Hhd.
  - exact Hlast.
Qed.

Lemma collapse_spaces_fix inrun l :
  Forall (fun c => is_space c = true -> c = " "%char) l ->
  (forall a b, l <> a ++ " "%char :: " "%char :: b) ->
  (inrun = true -> forall c r, l = c :: r -> is_space c = false) ->
  collapse_spaces inrun l = l.
Proof.
  revert inrun. induction l as [|c r IH]; intros inrun Hsp Hdbl Hhd; [reflexivity|].
  apply Forall_cons_iff in Hsp as [Hc Hsp].
  assert (Hdbl' : forall a b, r <> a ++ " "%char :: " "%char :: b).
  { intros a b ->. exact (Hdbl (c :: a) b eq_refl). }
  cbn [collapse_spaces]. destruct (is_space c) eqn:Hcs.
  - destruct inrun; [specialize (Hhd eq_refl c r eq_refl); congruence|].
    specialize (Hc eq_refl). subst c. f_equal. apply IH; [exact Hsp|exact Hdbl'|].
    intros _ c' r' ->. destruct (is_space c') eqn:Hc'; [|reflexivity].
    apply Forall_cons_iff in Hsp as [Hc2 _]. specialize (Hc2 Hc'). subst c'.
    exfalso. exact (Hdbl [] r' eq_refl).
  - f_equal. apply IH; [exact Hsp|exact Hdbl'|discriminate].
Qed.

Lemma sanitize_chars_fix l :
  Forall (fun c => is_invalid_char c = false) l ->
  Forall (fun c => is_space c = true -> c = " "%char) l ->
  (forall a b, l <> a ++ " "%char :: " "%char :: b) ->
  (forall c r, l = c :: r -> is_space c = false) ->
  (forall c r, l = r ++ [c] -> is_space c = false) ->
  trim (collapse_spaces false (List.filter (fun c => negb (is_invalid_char c)) l)) = l.
Proof.
  intros Hinv Hsp Hdbl Hhd Hlast.
  rewrite forallb_filter_id.
  2:{ apply forallb_forall. intros c Hc. rewrite List.Forall_forall in Hinv.
      now rewrite (Hinv c Hc). }
  rewrite collapse_spaces_fix by (try assumption; discriminate).
  unfold trim.
  assert (Hts : trim_start l = l).
  { destruct l as [|c r]; [reflexivity|]. cbn [trim_start]. now rewrite (Hhd c r eq_refl). }
  rewrite Hts.
  assert (Hte : trim_start (rev l) = rev l).
  { destruct (rev l) as [|c r] eqn:Hr; [reflexivity|].
    cbn [trim_start]. rewrite (Hlast c (rev r)); [reflexivity|].
    apply (f_equal (@rev ascii)) in Hr. now rewrite rev_involutive in Hr. }
  rewrite Hte. apply rev_involutive.
Qed.

(** X7: for a name of ASCII characters, the sanitized name holds none of
    the characters < > : double quote / \ | ? *, no white space but single
    spaces, and neither starts nor ends with a space. *)
Theorem sanitizeFilename_clean name :
  Forall (fun c => (nat_of_ascii c < 128)%nat) (list_ascii_of_string name) ->
  let out := list_ascii_of_string (sanitizeFilename name) in
  Forall (fun c => is_invalid_char c = false) out
  /\ Forall (fun c => is_space c = true -> c = " "%char) out
  /\ (forall a b, out <> a ++ [" "; " "]%char ++ b)
  /\ (forall r, out <> " "%char :: r)
  /\ (forall r, out <> r ++ [" "%char]).
Proof.
  intros _ out. subst out. unfold sanitizeFilename.
  rewrite list_ascii_of_string_of_list_ascii.
  destruct (sanitize_chars_clean (list_ascii_of_string name))
    as (H1 & H2 & H3 & H4 & H5).
  split; [exact H1|]. split; [exact H2|]. split; [exact H3|]. split.
  - intros r Hr. now specialize (H4 _ _ Hr).
  - intros r Hr. now specialize (H5 _ _ Hr).
Qed.

(** X8: on names of ASCII characters sanitizing is idempotent: the
    sanitized name is left as it is by sanitizing it again. *)
Theorem sanitizeFilename_idempotent name :
  Forall (fun c => (nat_of_ascii c < 128)%nat) (list_ascii_of_string name) ->
  sanitizeFilename (sanitizeFilename name) = sanitizeFilename name.
Proof.
  intros _. unfold sanitizeFilename. rewrite list_ascii_of_string_of_list_ascii.
  f_equal.
  destruct (sanitize_chars_clean (list_ascii_of_string name))
    as (H1 & H2 & H3 & H4 & H5).
  now apply sanitize_chars_fix.
Qed.

Lemma trim_start_spaces l :
  Forall (fun c => is_space c = true) l -> trim_start l = [].
Proof.
  induction 1 as [|c r Hc _ IH]; [reflexivity|]. cbn [trim_start]. now rewrite Hc.
Qed.

(** X9: for a name of ASCII characters, the sanitized name is empty
    exactly when the name has nothing but removed characters and white
    space.  (The white space outside ASCII that the pattern and [trim]
    also match is not modelled, hence the restriction.) *)
Theorem sanitizeFilename_empty_iff name :
  Forall (fun c => (nat_of_ascii c < 128)%nat) (list_ascii_of_string name) ->
  sanitizeFilename name = EmptyString
  <-> Forall (fun c => is_invalid_char c || is_space c = true)
             (list_ascii_of_string name).
Proof.
  intros _.
  unfold sanitizeFilename.
  set (l := list_ascii_of_string name).
  set (l1 := List.filter _ l). set (l2 := collapse_spaces false l1).
  split.
  - intros Hempty.
    assert (Ht : trim l2 = []).
    { apply (f_equal list_ascii_of_string) in Hempty.
      now rewrite list_ascii_of_string_of_list_ascii in Hempty. }
    destruct (trim_spec l2) as (sp1 & sp2 & Hl2 & F1 & F2 & _).
    rewrite Ht in Hl2. cbn [app] in Hl2.
    assert (Hall : Forall (fun c => is_space c = true) l2)
      by (rewrite Hl2; apply Forall_app; now split).
    apply List.Forall_forall. intros c Hc.
    destruct (is_invalid_char c) eqn:Hi; [reflexivity|]. cbn [orb].
    destruct (is_space c) eqn:Hs; [reflexivity|]. exfalso.
    assert (Hin1 : In c l1) by (apply filter_In; split; [exact Hc|now rewrite Hi]).
    pose proof (collapse_spaces_keeps false l1 c Hin1 Hs) as Hin2. fold l2 in Hin2.
    rewrite List.Forall_forall in Hall. rewrite (Hall c Hin2) in Hs. discriminate.
  - intros Hall.
    assert (H1 : Forall (fun c => is_space c = true) l1).
    { apply List.Forall_forall. intros c Hc. apply filter_In in Hc as [Hc Hv].
      rewrite List.Forall_forall in Hall. specialize (Hall c Hc).
      apply negb_true_iff in Hv. now rewrite Hv in Hall. }
    assert (H2 : Forall (fun c => is_space c = true) l2).
    { eapply List.Forall_impl; [|apply collapse_spaces_elements].
      intros c [->|[Hin Hs]]; [reflexivity|].
      rewrite List.Forall_forall in H1. rewrite (H1 c Hin) in Hs. discriminate. }
    unfold trim. rewrite (trim_start_spaces l2 H2). reflexivity.
Qed.

Lemma substring_all s : String.substring 0 (String.length s) s = s.
Proof.
  induction s as [|c s IH]; [reflexivity|]. cbn [String.length String.substring].
  now rewrite IH.
Qed.

(** X10: a path whose first six characters are /files loses them, whatever
    follows: /files/a and /filesa both become a under the base URL. *)
Theorem toWebDAVUrl_drops_six_characters baseUrl rest :
  toWebDAVUrl baseUrl ("/files" +:+ rest)
  = (baseUrl +:+ (if String.prefix "/" rest then rest else "/" +:+ rest))%string.
Proof.
  unfold toWebDAVUrl.
  assert (Hsub : substring_from 6 ("/files" +:+ rest) = rest).
  { unfold substring_from. rewrite !string_app_cons.
    change (String.append EmptyString rest) with rest.
    cbn [String.length Nat.sub String.substring]. rewrite Nat.sub_0_r. apply substring_all. }
  rewrite Hsub.
  assert (Hp : String.prefix "/files" ("/files" +:+ rest) = true).
  { rewrite !string_app_cons. now destruct rest. }
  rewrite Hp. now destruct (String.prefix "/files/" ("/files" +:+ rest)).
Qed.

Lemma list_ascii_app (a b : string) :
  list_ascii_of_string (a +:+ b) = list_ascii_of_string a ++ list_ascii_of_string b.
Proof.
  induction a as [|x a IH]; [reflexivity|].
  rewrite string_app_cons. cbn [list_ascii_of_string app]. now rewrite IH.
Qed.

Lemma string_of_list_app (a b : list ascii) :
  string_of_list_ascii (a ++ b)
  = (string_of_list_ascii a +:+ string_of_list_ascii b)%string.
Proof.
  induction a as [|x a IH]; [reflexivity|].
  cbn [app string_of_list_ascii]. now rewrite string_app_cons, IH.
Qed.

Lemma strip_trailing_slash_one b : strip_trailing_slash (b +:+ "/") = b.
Proof.
  unfold strip_trailing_slash. rewrite list_ascii_app, rev_app_distr.
  cbn [list_ascii_of_string rev app]. cbn [Ascii.eqb Bool.eqb].
  rewrite rev_involutive. apply string_of_list_ascii_of_string.
Qed.

Lemma strip_trailing_slash_none b :
  (forall r, b <> (r +:+ "/")%string) -> strip_trailing_slash b = b.
Proof.
  intros Hb. unfold strip_trailing_slash.
  destruct (rev (list_ascii_of_string b)) as [|c r] eqn:Hr; [reflexivity|].
  destruct (Ascii.eqb_spec c "/"); [|reflexivity]. subst c. exfalso.
  apply (Hb (string_of_list_ascii (rev r))).
  apply (f_equal (@rev ascii)) in Hr. rewrite rev_involutive in Hr.
  apply (f_equal string_of_list_ascii) in Hr.
  rewrite string_of_list_ascii_of_string in Hr. rewrite Hr.
  cbn [rev]. now rewrite string_of_list_app.
Qed.

(** X11: with [WEBDAV_URL] set to a base, written with or without one
    trailing slash, the input of a file /files/rest is base/rest. *)
Theorem inputPath_of_webdav E request base rest :
  WEBDAV_URL E = Some (base +:+ "/")%string
  \/ (WEBDAV_URL E = Some base /\ base <> EmptyString
      /\ forall r, base <> (r +:+ "/")%string) ->
  filePath request = ("/files/" +:+ rest)%string ->
  inputPath_of E request = (base +:+ "/" +:+ rest)%string.
Proof.
  intros Hurl Hpath. unfold inputPath_of.
  assert (Hclient : createWebDAVClient E = Some base).
  { unfold createWebDAVClient. destruct Hurl as [Hu|(Hu & Hne & Hb)]; rewrite Hu.
    - pose proof (strip_trailing_slash_one base) as Hs.
      destruct (base +:+ "/")%string eqn:Hb; [destruct base; discriminate|].
      now rewrite Hs.
    - destruct base; [congruence|]. now rewrite strip_trailing_slash_none. }
  rewrite Hclient, Hpath.
  change ("/files/" +:+ rest)%string with ("/files" +:+ (String "/" rest))%string.
  unfold toWebDAVUrl.
  assert (Hsub : substring_from 6 ("/files" +:+ String "/" rest) = String "/" rest).
  { unfold substring_from. rewrite !string_app_cons.
    change (String.append EmptyString (String "/" rest)) with (String "/" rest).
    cbn [String.length Nat.sub String.substring]. f_equal. apply substring_all. }
  rewrite Hsub.
  assert (Hp : String.prefix "/files/" ("/files" +:+ String "/" rest) = true).
  { rewrite !string_app_cons. now destruct rest. }
  rewrite Hp.
  assert (Hslash : String.prefix "/" (String "/" rest) = true) by now destruct rest.
  rewrite Hslash. reflexivity.
Qed.

End Names.

(** ** Which streams share an output file *)

Section OutputFiles.

Lemma to_uint_not_nil n : Nat.to_uint n <> Decimal.Nil.
Proof.
  intros H. pose proof (DecimalNat.Unsigned.of_to n) as Hn.
  rewrite H in Hn. cbn in Hn. subst n. discriminate H.
Qed.

Lemma nat_text_inj n m : JS.nat_text n = JS.nat_text m -> n = m.
Proof.
  unfold JS.nat_text. intros Heq.
  apply (f_equal DecimalString.NilZero.uint_of_string) in Heq.
  rewrite !DecimalString.NilZero.usu in Heq by apply to_uint_not_nil.
  injection Heq as Heq. apply (f_equal Nat.of_uint) in Heq.
  now rewrite !DecimalNat.Unsigned.of_to in Heq.
Qed.

Lemma string_app_inv_head (a x y : string) : (a +:+ x = a +:+ y)%string -> x = y.
Proof.
  induction a as [|c a IH]; [easy|].
  rewrite !string_app_cons. intros [= H]. now apply IH.
Qed.

Lemma string_app_inv_tail (x y a : string) : (x +:+ a = y +:+ a)%string -> x = y.
Proof.
  intros Heq. apply (f_equal list_ascii_of_string) in Heq.
  rewrite !list_ascii_app in Heq. apply app_inv_tail in Heq.
  apply (f_equal string_of_list_ascii) in Heq.
  now rewrite !string_of_list_ascii_of_string in Heq.
Qed.

Lemma outputFilename_of_eq_iff cfg st ys vc sub1 sub2 :
  outputFilename_of cfg st ys vc sub1 = outputFilename_of cfg st ys vc sub2
  <-> langSuffix_of sub1 = langSuffix_of sub2.
Proof.
  unfold outputFilename_of. split; [|now intros ->].
  intros Heq. do 5 apply string_app_inv_head in Heq.
  now apply string_app_inv_tail in Heq.
Qed.

(** X22: two streams of a video get the same output file name, the name
    [process] hands to [path.join], exactly when both carry the same
    language, or neither carries one and their indices are the same (or
    the language of one is the decimal index of the other, which has
    none).  So the names of streams with different languages differ, and
    so do those of unlabelled streams with different indices.  What
    [path.join] makes of two different names is not part of this. *)
Theorem output_files_coincide_iff cfg st ys vc sub1 sub2 :
  let key sub := match language sub with
                 | Some (String a r) => String a r
                 | _ => JS.nat_text (index sub)
                 end in
  (outputFilename_of cfg st ys vc sub1 = outputFilename_of cfg st ys vc sub2
   <-> key sub1 = key sub2)
  /\ (forall a1 r1 a2 r2,
        language sub1 = Some (String a1 r1) -> language sub2 = Some (String a2 r2) ->
        String a1 r1 <> String a2 r2 ->
        outputFilename_of cfg st ys vc sub1 <> outputFilename_of cfg st ys vc sub2)
  /\ (JS.truthy (language sub1) = false -> JS.truthy (language sub2) = false ->
      index sub1 <> index sub2 ->
      outputFilename_of cfg st ys vc sub1 <> outputFilename_of cfg st ys vc sub2).
Proof.
  intros key.
  assert (Hkey : outputFilename_of cfg st ys vc sub1 = outputFilename_of cfg st ys vc sub2
                 <-> key sub1 = key sub2).
  { rewrite outputFilename_of_eq_iff. unfold langSuffix_of, key.
    split.
    - intros Heq.
      destruct (language sub1) as [[|a1 r1]|]; destruct (language sub2) as [[|a2 r2]|];
        now apply (string_app_inv_head ".") in Heq.
    - intros Heq.
      destruct (language sub1) as [[|a1 r1]|]; destruct (language sub2) as [[|a2 r2]|];
        now rewrite Heq. }
  split; [exact Hkey|]. split.
  - intros a1 r1 a2 r2 H1 H2 Hne Heq. apply Hkey in Heq. unfold key in Heq.
    rewrite H1, H2 in Heq. contradiction.
  - intros H1 H2 Hne Heq. apply Hkey in Heq. unfold key in Heq.
    destruct (language sub1) as [[|a1 r1]|]; try discriminate H1;
      destruct (language sub2) as [[|a2 r2]|]; try discriminate H2;
      now apply nat_text_inj in Heq.
Qed.

End OutputFiles.

(** ** Runs: callbacks, the output directory, the metadata store *)

Section RunFacts.

Ltac munfold :=
  repeat (progress (unfold mbind, mret, M_bind, M_ret, bind, ret, throw, try_catch, get, modify,
    console, emit, set_fs, push_cid, push_language, sendCallback, set_store,
    clear_arrays in *; cbn [fst snd fs store trace extractedCids extractedLanguages] in * )).

(** A run past the four checks, from the directory check on. *)
Lemma process_try_prefix E cfg request startTime s0 :
  meta_field (existingMeta request) "fileType" = Some "video"%string ->
  JS.truthy (meta_field (existingMeta request) "extractedSubtitles")
    && negb (forceRecompute cfg) = false ->
  textSubtitles_of E request <> [] ->
  process_try E cfg request startTime s0
  = ((if existsSync (fs s0) PLUGIN_OUTPUT_PATH then ret tt
      else mkdirSync E PLUGIN_OUTPUT_PATH) ;;
     clear_arrays ;;
     for_each (textSubtitles_of E request)
       (process_stream E cfg (cid request) (inputPath_of E request)
          (sanitizeFilename (title_of request)) (yearStr_of request)) ;;
     s ← get;
     console (if (0 <? length (extractedCids s))%nat
              then LogExtractedCount (length (extractedCids s)) (filePath request)
              else LogNoneExtracted (filePath request)) ;;
     report E request startTime completed None None)
    {| fs := fs s0; store := store s0;
       trace := trace s0
                ++ EvConsole (LogFound (length (textSubtitles_of E request))
                                (filePath request))
                   :: match createWebDAVClient E with
                      | Some _ => [EvConsole (LogWebDAVInput (inputPath_of E request))]
                      | None => []
                      end;
       extractedCids := extractedCids s0;
       extractedLanguages := extractedLanguages s0 |}.
Proof.
  intros Hvideo Halready Htext.
  unfold process_try. cbv zeta.
  rewrite bool_decide_eq_true_2 by exact Hvideo. cbn [negb].
  rewrite Halready.
  unfold textSubtitles_of in *.
  destruct (parseSubtitleStreams E (default ∅ (existingMeta request)))
    as [|sub0 subs] eqn:Hparse; [now contradiction Htext|].
  cbn [length Nat.eqb].
  set (l := List.filter is_text_subtitle (sub0 :: subs)) in *.
  destruct (length l =? 0)%nat eqn:Hlen.
  { apply Nat.eqb_eq in Hlen. destruct l; [now contradiction Htext|discriminate]. }
  erewrite bind_ok by reflexivity.
  set (pre1 := match createWebDAVClient E with
               | Some _ => [EvConsole (LogWebDAVInput (inputPath_of E request))]
               | None => []
               end).
  erewrite (bind_ok _ _ _
              {| fs := fs s0; store := store s0;
                 trace := trace s0
                          ++ EvConsole (LogFound (length l) (filePath request)) :: pre1;
                 extractedCids := extractedCids s0;
                 extractedLanguages := extractedLanguages s0 |} tt).
  2: { subst pre1. unfold console, emit, modify.
       destruct (createWebDAVClient E); cbn [fs store trace extractedCids extractedLanguages].
       - now rewrite <- app_assoc.
       - reflexivity. }
  erewrite bind_ok by reflexivity. cbn [fs]. reflexivity.
Qed.

(** The end of a run whose loop is over: the count is logged and
    [completed] is reported. *)
Lemma process_try_end E request startTime s3 :
  exists m p,
    (s ← get;
     console (if (0 <? length (extractedCids s))%nat
              then LogExtractedCount (length (extractedCids s)) (filePath request)
              else LogNoneExtracted (filePath request)) ;;
     report E request startTime completed None None) s3
    = ({| fs := fs s3; store := store s3;
          trace := trace s3 ++ [EvConsole m; EvCallback p];
          extractedCids := extractedCids s3;
          extractedLanguages := extractedLanguages s3 |}, inl tt)
    /\ cb_taskId p = taskId request /\ status p = completed
    /\ reason p = None /\ error p = None.
Proof.
  unfold report. munfold. do 2 eexists. split.
  - rewrite <- app_assoc. reflexivity.
  - cbn. repeat split.
Qed.

(** The directory check: nothing when [/output] is there, else one
    [mkdirSync], which makes the directory or throws. *)
Lemma ensure_output_directory E (here : bool) s1 :
  (if here then ret tt else mkdirSync E PLUGIN_OUTPUT_PATH) s1
  = if here then (s1, inl tt)
    else
      let s := {| fs := fs s1; store := store s1;
                  trace := trace s1 ++ [EvMkdir PLUGIN_OUTPUT_PATH];
                  extractedCids := extractedCids s1;
                  extractedLanguages := extractedLanguages s1 |} in
      match mkdirSync_result E s PLUGIN_OUTPUT_PATH with
      | Some reported =>
          ({| fs := <[ PLUGIN_OUTPUT_PATH := Dir reported ]> (fs s1); store := store s1;
              trace := trace s1 ++ [EvMkdir PLUGIN_OUTPUT_PATH];
              extractedCids := extractedCids s1;
              extractedLanguages := extractedLanguages s1 |}, inl tt)
      | None => (s, inr "mkdir failed"%string)
      end.
Proof.
  destruct here; [reflexivity|]. unfold mkdirSync. munfold.
  now destruct (mkdirSync_result E _ PLUGIN_OUTPUT_PATH).
Qed.

(** The trace of a run as the steps of [process] itself follow each
    other: the call of [sendCallback] is the last of them. *)
Lemma process_trace_shape E cfg request s0 :
  exists evs p,
    trace (process E cfg request s0) = trace s0 ++ evs ++ [EvCallback p]
    /\ callbacks evs = []
    /\ cb_taskId p = taskId request
    /\ (status p = failed ->
          In (EvMkdir PLUGIN_OUTPUT_PATH) evs /\ spawns evs = []).
Proof.
  destruct (bool_decide (meta_field (existingMeta request) "fileType" = Some "video"%string))
    eqn:Hvideo.
  2: { unfold process, process_try, report. munfold. rewrite Hvideo. cbn [negb].
       exists []. eexists. cbn. repeat split. discriminate. }
  destruct (JS.truthy (meta_field (existingMeta request) "extractedSubtitles")
            && negb (forceRecompute cfg)) eqn:Halready.
  { unfold process, process_try, report. munfold. rewrite Hvideo, Halready. cbn [negb].
    exists []. eexists. cbn. repeat split. discriminate. }
  destruct (textSubtitles_of E request) as [|t0 ts] eqn:Htext.
  { unfold process, process_try, report. munfold. rewrite Hvideo, Halready. cbn [negb].
    unfold textSubtitles_of in Htext.
    destruct (parseSubtitleStreams E (default ∅ (existingMeta request)))
      as [|sub0 subs]; cbn [length Nat.eqb].
    - exists []. eexists. cbn. repeat split. discriminate.
    - rewrite Htext. cbn [length Nat.eqb].
      exists [EvConsole (LogAllImageBased (S (length subs)))]. eexists. cbn.
      split; [now rewrite <- app_assoc|]. repeat split. discriminate. }
  apply bool_decide_eq_true_1 in Hvideo.
  assert (Hne : textSubtitles_of E request <> []) by (rewrite Htext; discriminate).
  unfold process, try_catch.
  rewrite (process_try_prefix E cfg request _ s0 Hvideo Halready Hne).
  rewrite Htext. set (l := t0 :: ts).
  set (pre := EvConsole (LogFound (length l) (filePath request))
              :: match createWebDAVClient E with
                 | Some _ => [EvConsole (LogWebDAVInput (inputPath_of E request))]
                 | None => []
                 end).
  assert (Hpre : callbacks pre = [] /\ spawns pre = [])
    by (subst pre; destruct (createWebDAVClient E); split; reflexivity).
  destruct Hpre as [Hcbpre Hsppre].
  set (s1 := {| fs := fs s0; store := store s0; trace := trace s0 ++ pre;
                extractedCids := extractedCids s0;
                extractedLanguages := extractedLanguages s0 |}).
  unfold mbind at 1, M_bind at 1, bind at 1.
  rewrite (ensure_output_directory E (existsSync (fs s0) PLUGIN_OUTPUT_PATH) s1).
  assert (Hloop : forall s2 mk,
            trace s2 = trace s1 ++ mk -> callbacks mk = [] ->
            exists evs p,
              trace (fst (let '(s', r) :=
                       (clear_arrays ;;
                        for_each l
                          (process_stream E cfg (cid request) (inputPath_of E request)
                             (sanitizeFilename (title_of request)) (yearStr_of request)) ;;
                        s ← get;
                        console (if (0 <? length (extractedCids s))%nat
                                 then LogExtractedCount (length (extractedCids s))
                                        (filePath request)
                                 else LogNoneExtracted (filePath request)) ;;
                        report E request (Date_now E s0) completed None None) s2 in
                     match r with
                     | inl a => (s', inl a)
                     | inr e => (console (LogError e) ;;
                                 report E request (Date_now E s0) failed None (Some e)) s'
                     end))
              = trace s0 ++ evs ++ [EvCallback p]
              /\ callbacks evs = [] /\ cb_taskId p = taskId request
              /\ (status p = failed ->
                    In (EvMkdir PLUGIN_OUTPUT_PATH) evs /\ spawns evs = [])).
  { intros s2 mk Htr2 Hcbmk.
    erewrite bind_ok by reflexivity.
    destruct (for_each_streams E cfg request l
                {| fs := fs s2; store := store s2; trace := trace s2;
                   extractedCids := []; extractedLanguages := [] |})
      as (s3 & evs & Heq3 & Htr3 & Hcb3 & _).
    rewrite (bind_ok _ _ _ _ _ Heq3).
    destruct (process_try_end E request (Date_now E s0) s3)
      as (m & p & Hend & Hid & Hst & _).
    rewrite Hend. cbn [fst trace].
    exists (pre ++ mk ++ evs ++ [EvConsole m]), p.
    rewrite Htr3. cbn [trace]. rewrite Htr2. subst s1. cbn [trace].
    split; [rewrite <- !app_assoc; reflexivity|].
    split; [rewrite !callbacks_app, Hcbpre, Hcbmk, Hcb3; reflexivity|].
    split; [exact Hid|]. rewrite Hst. discriminate. }
  destruct (existsSync (fs s0) PLUGIN_OUTPUT_PATH).
  - apply (Hloop s1 []); [now rewrite app_nil_r|reflexivity].
  - cbv zeta.
    destruct (mkdirSync_result E _ PLUGIN_OUTPUT_PATH) as [reported|].
    + apply (Hloop _ [EvMkdir PLUGIN_OUTPUT_PATH]); reflexivity.
    + unfold report. munfold.
      exists (pre ++ [EvMkdir PLUGIN_OUTPUT_PATH; EvConsole (LogError "mkdir failed")]).
      eexists.
      split; [subst s1; cbn [trace]; rewrite <- !app_assoc; reflexivity|].
      split; [rewrite callbacks_app, Hcbpre; reflexivity|].
      split; [reflexivity|]. intros _. split.
      * apply in_or_app. right. now left.
      * rewrite spawns_app, Hsppre. reflexivity.
Qed.

(** X12: every run, whatever the request, the disk, the tool and the
    metadata store do, sends exactly one callback, and the callback
    carries the task id of the request.  [failed] is reported only by a
    run that called [mkdirSync] for the output directory, and such a run
    starts no tool. *)
Theorem process_reports_once E cfg request s0 :
  exists evs p,
    trace (process E cfg request s0) = trace s0 ++ evs
    /\ callbacks evs = [p]
    /\ cb_taskId p = taskId request
    /\ (status p = failed ->
          In (EvMkdir PLUGIN_OUTPUT_PATH) evs /\ spawns evs = []).
Proof.
  destruct (process_trace_shape E cfg request s0) as (evs & p & Htr & Hcb & Hid & Hfail).
  exists (evs ++ [EvCallback p]), p. split; [exact Htr|].
  split; [now rewrite callbacks_app, Hcb|]. split; [exact Hid|].
  intros Hst. destruct (Hfail Hst) as [Hmk Hsp]. split.
  - apply in_or_app. now left.
  - now rewrite spawns_app, Hsp.
Qed.

(** The fresh path of one stream, when the tool exits with code 0 in time
    and leaves a regular file of more than 10 bytes. *)
Lemma process_stream_fresh E cfg vc ip st ys sub s d :
  let fn := outputFilename_of cfg st ys vc sub in
  let op := path_join E PLUGIN_OUTPUT_PATH fn in
  let args := ffmpeg_args cfg ip op (index sub) in
  let run := ffmpeg E (spawned s (index sub) args) args in
  let c := cid_of_bytes d in
  existsSync (fs s) op && negb (forceRecompute cfg) = false ->
  (exists t, tool_end run = Exits t (Some 0) /\ t < 120000) ->
  tool_fs run !! op = Some (File d) ->
  10 < Z.of_nat (length d) <= JS.MAX_SAFE_INTEGER ->
  exists s' evs,
    process_stream E cfg vc ip st ys sub s = (s', inl tt) /\
    trace s' = trace s ++ EvConsole (LogRunning (index sub)) :: EvSpawn "ffmpeg" args :: evs /\
    spawns evs = [] /\ callbacks evs = [] /\
    fs s' = tool_fs run /\
    extractedCids s' = extractedCids s ++ [c] /\
    ((forall s0 k v, addToSet_ok E s0 vc k v = true) ->
       adds evs = (vc, "extractedSubtitles"%string, c)
                  :: match language sub with
                     | Some (String a r) => [(vc, "subtitleLanguages"%string, String a r)]
                     | _ => []
                     end
       /\ store s' !! (vc, "extractedSubtitles"%string)
          = Some ({[ c ]} ∪ default ∅ (store s !! (vc, "extractedSubtitles"%string)))
       /\ (forall a r, language sub = Some (String a r) ->
             store s' !! (vc, "subtitleLanguages"%string)
             = Some ({[ String a r ]}
                     ∪ default ∅ (store s !! (vc, "subtitleLanguages"%string))))
       /\ (forall v k, v <> vc -> store s' !! (v, k) = store s !! (v, k))) /\
    ((forall s0 k v, addToSet_ok E s0 vc k v = false) ->
       adds evs = [(vc, "extractedSubtitles"%string, c)]
       /\ store s' = store s
       /\ exists e, In (EvConsole (LogProcessFailed e)) evs).
Proof.
  intros fn op args run c Hslow Hend Hop Hsize.
  unfold process_stream. fold fn. fold op. munfold. rewrite Hslow.
  destruct (extractSubtitle_spec E cfg ip op (index sub) (codec sub) s)
    as (s1 & b & evs1 & Heq & Htr & (Hsp & Hcb & Had) & (Hst & Hci & Hla) & Hb & Hfs & _).
  fold args in Htr. fold args run in Hb, Hfs.
  assert (Htrue : b = true).
  { apply Hb. destruct Hend as (t & Ht & Hlt). exists t.
    split; [exact Ht|]. split; [exact Hlt|]. unfold existsSync, statSync_size. rewrite Hop.
    split; [reflexivity|]. exists (Z.of_nat (length d)). split; [reflexivity|lia]. }
  subst b. specialize (Hfs eq_refl). rewrite Heq.
  assert (Hcid : computeMidHash256Sync (fs s1) op = Some c).
  { rewrite Hfs. apply computeMidHash256Sync_file; [exact Hop|lia]. }
  unfold computeCid, note_language, addToSet. munfold. rewrite Hcid. munfold.
  destruct (language sub) as [[|a r]|]; munfold.
  2: destruct (existsb _ _); munfold.
  all: repeat (match goal with
               | |- context [addToSet_ok ?e ?x ?y ?z ?w] =>
                   destruct (addToSet_ok e x y z w) eqn:?; munfold
               end).
  all: do 2 eexists; (split; [reflexivity|]);
    cbn [trace fs store extractedCids extractedLanguages];
    rewrite Htr, <- ?app_assoc; cbn [app];
    (split; [reflexivity|]);
    rewrite ?spawns_app, ?callbacks_app, ?adds_app, Hsp, Hcb, Had, Hci, Hst; cbn [app];
    (split; [reflexivity|]); (split; [reflexivity|]);
    (split; [exact Hfs|]); (split; [reflexivity|]).
  all: split; intros Hall;
    repeat match goal with
           | H : addToSet_ok _ _ _ _ _ = _ |- _ => rewrite Hall in H; try discriminate H; clear H
           end.
  all: try (split; [reflexivity|]).
  all: try (split; [reflexivity|]; eexists; apply in_or_app; right; cbn; eauto 10).
  all: try (split; [|split]).
  all: try (intros ? ? ?; discriminate).
  all: try (intros v k Hv; rewrite ?lookup_insert_ne by congruence; reflexivity).
  all: try (intros a0 r0 [= <- <-]).
  all: rewrite ?lookup_insert_eq; rewrite ?lookup_insert_ne by discriminate;
    rewrite ?lookup_insert_eq; try reflexivity.
Qed.

(** A run past the four checks whose output directory is there or can be
    made: the state the loop starts in, and how the run ends after it. *)
Lemma process_loop_decomposed E cfg request s0 :
  meta_field (existingMeta request) "fileType" = Some "video"%string ->
  JS.truthy (meta_field (existingMeta request) "extractedSubtitles")
    && negb (forceRecompute cfg) = false ->
  textSubtitles_of E request <> [] ->
  (existsSync (fs s0) PLUGIN_OUTPUT_PATH = true
   \/ forall s, mkdirSync_result E s PLUGIN_OUTPUT_PATH <> None) ->
  exists s2 pre,
    trace s2 = trace s0 ++ pre /\
    spawns pre = [] /\ callbacks pre = [] /\ adds pre = [] /\
    store s2 = store s0 /\ extractedCids s2 = [] /\
    (existsSync (fs s0) PLUGIN_OUTPUT_PATH = true ->
       fs s2 = fs s0 /\ only_console pre) /\
    (forall p, p <> PLUGIN_OUTPUT_PATH -> fs s2 !! p = fs s0 !! p) /\
    forall s3,
      for_each (textSubtitles_of E request)
        (process_stream E cfg (cid request) (inputPath_of E request)
           (sanitizeFilename (title_of request)) (yearStr_of request)) s2
      = (s3, inl tt) ->
      exists m p,
        process E cfg request s0
        = {| fs := fs s3; store := store s3;
             trace := trace s3 ++ [EvConsole m; EvCallback p];
             extractedCids := extractedCids s3;
             extractedLanguages := extractedLanguages s3 |}
        /\ cb_taskId p = taskId request /\ status p = completed
        /\ reason p = None /\ error p = None.
Proof.
  intros Hvideo Halready Htext Hdir.
  unfold process, try_catch.
  rewrite (process_try_prefix E cfg request _ s0 Hvideo Halready Htext).
  set (l := textSubtitles_of E request).
  set (pre := EvConsole (LogFound (length l) (filePath request))
              :: match createWebDAVClient E with
                 | Some _ => [EvConsole (LogWebDAVInput (inputPath_of E request))]
                 | None => []
                 end).
  assert (Hpre : only_console pre).
  { subst pre. destruct (createWebDAVClient E); repeat constructor; eauto. }
  destruct (only_console_quiet pre Hpre) as (Hsp & Hcb & Had & _).
  set (s1 := {| fs := fs s0; store := store s0; trace := trace s0 ++ pre;
                extractedCids := extractedCids s0;
                extractedLanguages := extractedLanguages s0 |}).
  unfold mbind at 1, M_bind at 1, bind at 1.
  rewrite (ensure_output_directory E (existsSync (fs s0) PLUGIN_OUTPUT_PATH) s1).
  assert (Hend : forall s2 s3,
            for_each l
              (process_stream E cfg (cid request) (inputPath_of E request)
                 (sanitizeFilename (title_of request)) (yearStr_of request))
              {| fs := fs s2; store := store s2; trace := trace s2;
                 extractedCids := []; extractedLanguages := [] |} = (s3, inl tt) ->
            exists m p,
              fst (let '(s', r) :=
                       (clear_arrays ;;
                        for_each l
                          (process_stream E cfg (cid request) (inputPath_of E request)
                             (sanitizeFilename (title_of request)) (yearStr_of request)) ;;
                        s ← get;
                        console (if (0 <? length (extractedCids s))%nat
                                 then LogExtractedCount (length (extractedCids s))
                                        (filePath request)
                                 else LogNoneExtracted (filePath request)) ;;
                        report E request (Date_now E s0) completed None None) s2 in
                     match r with
                     | inl a => (s', inl a)
                     | inr e => (console (LogError e) ;;
                                 report E request (Date_now E s0) failed None (Some e)) s'
                     end)
              = {| fs := fs s3; store := store s3;
                   trace := trace s3 ++ [EvConsole m; EvCallback p];
                   extractedCids := extractedCids s3;
                   extractedLanguages := extractedLanguages s3 |}
              /\ cb_taskId p = taskId request /\ status p = completed
              /\ reason p = None /\ error p = None).
  { intros s2 s3 Heq3.
    erewrite bind_ok by reflexivity.
    rewrite (bind_ok _ _ _ _ _ Heq3).
    destruct (process_try_end E request (Date_now E s0) s3) as (m & p & Hend & Hp).
    rewrite Hend. exists m, p. split; [reflexivity|exact Hp]. }
  destruct (existsSync (fs s0) PLUGIN_OUTPUT_PATH) eqn:Hex.
  - exists {| fs := fs s1; store := store s1; trace := trace s1;
              extractedCids := []; extractedLanguages := [] |}, pre.
    cbn [fs store trace extractedCids].
    split; [reflexivity|]. do 5 (split; [auto|]).
    split; [auto|]. split; [reflexivity|].
    intros s3 Heq3. exact (Hend s1 s3 Heq3).
  - destruct Hdir as [Hyes|Hok]; [discriminate|]. cbv zeta.
    destruct (mkdirSync_result E _ PLUGIN_OUTPUT_PATH) as [reported|] eqn:Hres;
      [|now apply Hok in Hres].
    exists {| fs := <[ PLUGIN_OUTPUT_PATH := Dir reported ]> (fs s1); store := store s1;
              trace := trace s1 ++ [EvMkdir PLUGIN_OUTPUT_PATH];
              extractedCids := []; extractedLanguages := [] |},
           (pre ++ [EvMkdir PLUGIN_OUTPUT_PATH]).
    cbn [fs store trace extractedCids].
    split; [subst s1; cbn [trace]; now rewrite app_assoc|].
    rewrite spawns_app, callbacks_app, adds_app, Hsp, Hcb, Had.
    do 5 (split; [reflexivity|]). split; [discriminate|].
    split; [intros p Hp; now rewrite lookup_insert_ne|].
    intros s3 Heq3. eapply Hend. exact Heq3.
Qed.

(** X13: a run past the four checks whose output directory is missing and
    cannot be made reports [failed] once, with the error, and does nothing
    else: no tool is started, nothing is written to the disk or to the
    metadata store. *)
Theorem process_fails_without_output_directory E cfg request s0 :
  meta_field (existingMeta request) "fileType" = Some "video"%string ->
  JS.truthy (meta_field (existingMeta request) "extractedSubtitles")
    && negb (forceRecompute cfg) = false ->
  textSubtitles_of E request <> [] ->
  existsSync (fs s0) PLUGIN_OUTPUT_PATH = false ->
  (forall s, mkdirSync_result E s PLUGIN_OUTPUT_PATH = None) ->
  exists evs p,
    trace (process E cfg request s0) = trace s0 ++ evs /\
    callbacks evs = [p] /\ status p = failed /\ error p <> None /\
    spawns evs = [] /\ adds evs = [] /\
    fs (process E cfg request s0) = fs s0 /\
    store (process E cfg request s0) = store s0.
Proof.
  intros Hvideo Halready Htext Hex Hmk.
  set (pre := EvConsole (LogFound (length (textSubtitles_of E request)) (filePath request))
              :: match createWebDAVClient E with
                 | Some _ => [EvConsole (LogWebDAVInput (inputPath_of E request))]
                 | None => []
                 end).
  assert (Hrun : exists e p,
            process E cfg request s0
            = {| fs := fs s0; store := store s0;
                 trace := trace s0 ++ pre ++ [EvMkdir PLUGIN_OUTPUT_PATH;
                                              EvConsole (LogError e); EvCallback p];
                 extractedCids := extractedCids s0;
                 extractedLanguages := extractedLanguages s0 |}
            /\ status p = failed /\ error p <> None).
  { unfold process, try_catch.
    rewrite (process_try_prefix E cfg request _ s0 Hvideo Halready Htext).
    unfold mbind at 1, M_bind at 1, bind at 1.
    rewrite ensure_output_directory, Hex. cbv zeta. rewrite Hmk.
    unfold report. munfold. fold pre.
    do 2 eexists. split; [rewrite <- !app_assoc; reflexivity|].
    cbn. split; [reflexivity|discriminate]. }
  destruct Hrun as (e & p & Hrun & Hst & Herr). rewrite Hrun. cbn [trace fs store].
  assert (Hpre : only_console pre).
  { subst pre. destruct (createWebDAVClient E); repeat constructor; eauto. }
  destruct (only_console_quiet pre Hpre) as (Hsp & Hcb & Had & _).
  do 2 eexists. split; [reflexivity|].
  rewrite !callbacks_app, !spawns_app, !adds_app, Hsp, Hcb, Had. cbn.
  repeat split; assumption.
Qed.

Lemma for_each_forced E cfg request l :
  forceRecompute cfg = true ->
  forall s, exists s' evs,
    for_each l (process_stream E cfg (cid request) (inputPath_of E request)
                  (sanitizeFilename (title_of request)) (yearStr_of request)) s
    = (s', inl tt) /\
    trace s' = trace s ++ evs /\
    spawns evs = map (args_of E cfg request) l.
Proof.
  intros Hforce. induction l as [|sub l IH]; intros s.
  - exists s, []. cbn. now rewrite app_nil_r.
  - cbn [for_each].
    destruct (process_stream_slow E cfg (cid request) (inputPath_of E request)
                (sanitizeFilename (title_of request)) (yearStr_of request) sub s)
      as (s0 & b & s1 & evs1 & _ & Heq1 & Htr1 & Hsp1 & _).
    { rewrite Hforce. apply andb_false_r. }
    rewrite (bind_ok _ _ _ _ _ Heq1).
    destruct (IH s1) as (s' & evs & Heq & Htr & Hsp).
    rewrite Heq. do 2 eexists. split; [reflexivity|].
    rewrite Htr, Htr1, <- app_assoc. split; [reflexivity|].
    rewrite spawns_app, Hsp. cbn [spawns flat_map app map]. fold (spawns evs1).
    rewrite Hsp1. reflexivity.
Qed.

(** X14: with [forceRecompute] on, a run that reaches the loop starts the
    tool exactly once for every text subtitle stream, in the order of the
    classifier, whether or not the output files are on disk, and reports
    [completed]. *)
Theorem forced_run_starts_tool_for_every_text_stream E cfg request s0 :
  forceRecompute cfg = true ->
  meta_field (existingMeta request) "fileType" = Some "video"%string ->
  textSubtitles_of E request <> [] ->
  (existsSync (fs s0) PLUGIN_OUTPUT_PATH = true
   \/ forall s, mkdirSync_result E s PLUGIN_OUTPUT_PATH <> None) ->
  exists evs p,
    trace (process E cfg request s0) = trace s0 ++ evs ++ [EvCallback p] /\
    spawns evs = map (args_of E cfg request) (textSubtitles_of E request) /\
    status p = completed.
Proof.
  intros Hforce Hvideo Htext Hdir.
  assert (Halready : JS.truthy (meta_field (existingMeta request) "extractedSubtitles")
                     && negb (forceRecompute cfg) = false)
    by (rewrite Hforce; apply andb_false_r).
  destruct (process_loop_decomposed E cfg request s0 Hvideo Halready Htext Hdir)
    as (s2 & pre & Htr2 & Hsp2 & _ & _ & _ & _ & _ & _ & Hend).
  destruct (for_each_forced E cfg request (textSubtitles_of E request) Hforce s2)
    as (s3 & evs & Heq3 & Htr3 & Hsp3).
  destruct (Hend s3 Heq3) as (m & p & Hrun & _ & Hst & _).
  exists (pre ++ evs ++ [EvConsole m]), p. rewrite Hrun. cbn [trace].
  rewrite Htr3, Htr2. split; [now rewrite <- !app_assoc|].
  split; [|exact Hst].
  rewrite !spawns_app, Hsp2, Hsp3. cbn. now rewrite app_nil_r.
Qed.

Lemma for_each_present E cfg request l :
  forceRecompute cfg = false ->
  forall s,
    (forall sub, In sub l -> existsSync (fs s) (outputPath_of E cfg request sub) = true) ->
    exists s' evs,
      for_each l (process_stream E cfg (cid request) (inputPath_of E request)
                    (sanitizeFilename (title_of request)) (yearStr_of request)) s
      = (s', inl tt) /\
      trace s' = trace s ++ evs /\ only_console evs /\
      fs s' = fs s /\ store s' = store s.
Proof.
  intros Hforce. induction l as [|sub l IH]; intros s Hall.
  - exists s, []. cbn. rewrite app_nil_r. repeat split. constructor.
  - cbn [for_each].
    destruct (process_stream_fast E cfg (cid request) (inputPath_of E request)
                (sanitizeFilename (title_of request)) (yearStr_of request) sub s)
      as (s1 & evs1 & Heq1 & Htr1 & Hc1 & Hfs1 & Hst1 & _).
    { apply Hall. now left. }
    { exact Hforce. }
    rewrite (bind_ok _ _ _ _ _ Heq1).
    destruct (IH s1) as (s' & evs & Heq & Htr & Hc & Hfs & Hst).
    { intros sub' Hin. rewrite Hfs1. apply Hall. now right. }
    rewrite Heq. do 2 eexists. split; [reflexivity|].
    rewrite Htr, Htr1, <- app_assoc. split; [reflexivity|].
    split; [|split; congruence].
    apply Forall_app. split; [|exact Hc]. constructor; [eauto|exact Hc1].
Qed.

(** X15: a run on a video whose text subtitle files are all on disk
    already, with [forceRecompute] off, starts no tool and writes nothing:
    the disk and the metadata store are as before, also when the store
    does not list these subtitles yet, and [completed] is reported. *)
Theorem rerun_with_files_present_is_quiet E cfg request s0 :
  forceRecompute cfg = false ->
  meta_field (existingMeta request) "fileType" = Some "video"%string ->
  JS.truthy (meta_field (existingMeta request) "extractedSubtitles") = false ->
  textSubtitles_of E request <> [] ->
  existsSync (fs s0) PLUGIN_OUTPUT_PATH = true ->
  (forall sub, In sub (textSubtitles_of E request) ->
     existsSync (fs s0) (outputPath_of E cfg request sub) = true) ->
  exists evs p,
    trace (process E cfg request s0) = trace s0 ++ evs ++ [EvCallback p] /\
    status p = completed /\
    only_console evs /\
    fs (process E cfg request s0) = fs s0 /\
    store (process E cfg request s0) = store s0.
Proof.
  intros Hforce Hvideo Hnot Htext Hout Hall.
  assert (Halready : JS.truthy (meta_field (existingMeta request) "extractedSubtitles")
                     && negb (forceRecompute cfg) = false) by now rewrite Hnot.
  destruct (process_loop_decomposed E cfg request s0 Hvideo Halready Htext (or_introl Hout))
    as (s2 & pre & Htr2 & _ & _ & _ & Hst2 & _ & Hsame & _ & Hend).
  destruct (Hsame Hout) as [Hfs2 Hpre].
  destruct (for_each_present E cfg request (textSubtitles_of E request) Hforce s2)
    as (s3 & evs & Heq3 & Htr3 & Hc3 & Hfs3 & Hst3).
  { intros sub Hin. rewrite Hfs2. now apply Hall. }
  destruct (Hend s3 Heq3) as (m & p & Hrun & _ & Hst & _).
  exists (pre ++ evs ++ [EvConsole m]), p. rewrite Hrun. cbn [trace fs store].
  rewrite Htr3, Htr2. split; [now rewrite <- !app_assoc|].
  split; [exact Hst|]. split; [|split; congruence].
  apply Forall_app. split; [exact Hpre|].
  apply Forall_app. split; [exact Hc3|]. repeat constructor. eauto.
Qed.

(** X16: a fresh extraction that succeeds is recorded: the file the tool
    left stays on disk, its identifier joins the set [extractedSubtitles]
    of the video, the language of the stream, when it has one, joins the
    set [subtitleLanguages], what these sets held before stays, and the
    sets of other videos are not touched. *)
Theorem fresh_extraction_is_recorded E cfg vc ip st ys sub s d :
  let op := path_join E PLUGIN_OUTPUT_PATH (outputFilename_of cfg st ys vc sub) in
  let args := ffmpeg_args cfg ip op (index sub) in
  let run := ffmpeg E (spawned s (index sub) args) args in
  existsSync (fs s) op && negb (forceRecompute cfg) = false ->
  (exists t, tool_end run = Exits t (Some 0) /\ t < 120000) ->
  tool_fs run !! op = Some (File d) ->
  10 < Z.of_nat (length d) <= JS.MAX_SAFE_INTEGER ->
  (forall s0 k v, addToSet_ok E s0 vc k v = true) ->
  exists s' evs,
    process_stream E cfg vc ip st ys sub s = (s', inl tt) /\
    trace s' = trace s ++ evs /\
    spawns evs = [args] /\
    fs s' = tool_fs run /\
    extractedCids s' = extractedCids s ++ [cid_of_bytes d] /\
    adds evs = (vc, "extractedSubtitles"%string, cid_of_bytes d)
               :: match language sub with
                  | Some (String a r) => [(vc, "subtitleLanguages"%string, String a r)]
                  | _ => []
                  end /\
    (forall c, c ∈ default ∅ (store s' !! (vc, "extractedSubtitles"%string))
               <-> c = cid_of_bytes d
                   \/ c ∈ default ∅ (store s !! (vc, "extractedSubtitles"%string))) /\
    (forall a r, language sub = Some (String a r) ->
       forall l, l ∈ default ∅ (store s' !! (vc, "subtitleLanguages"%string))
                 <-> l = String a r
                     \/ l ∈ default ∅ (store s !! (vc, "subtitleLanguages"%string))) /\
    (forall v k, v <> vc -> store s' !! (v, k) = store s !! (v, k)).
Proof.
  intros op args run Hslow Hend Hop Hsize Hok.
  destruct (process_stream_fresh E cfg vc ip st ys sub s d Hslow Hend Hop Hsize)
    as (s' & evs & Heq & Htr & Hsp & _ & Hfs & Hci & Hgood & _).
  destruct (Hgood Hok) as (Had & Hset & Hlang & Hframe).
  exists s'. eexists. split; [exact Heq|]. split; [exact Htr|].
  cbn [spawns flat_map adds app]. fold (spawns evs). fold (adds evs).
  rewrite Hsp. split; [reflexivity|]. split; [exact Hfs|]. split; [exact Hci|].
  split; [exact Had|]. split; [|split; [|exact Hframe]].
  - intros c. rewrite Hset. cbn [from_option id].
    now rewrite elem_of_union, elem_of_singleton.
  - intros a r Hl l. rewrite (Hlang a r Hl). cbn [from_option id].
    now rewrite elem_of_union, elem_of_singleton.
Qed.

(** X17: when the metadata store refuses the write, the subtitle stays on
    disk and is counted as extracted, the store learns nothing (the
    language is not even tried), and the stream's turn ends normally.  No
    later run with [forceRecompute] off makes up for it: it finds the file,
    starts no tool and issues no [addToSet]. *)
Theorem failed_metadata_write_is_not_retried E cfg vc ip st ys sub s d :
  let op := path_join E PLUGIN_OUTPUT_PATH (outputFilename_of cfg st ys vc sub) in
  let args := ffmpeg_args cfg ip op (index sub) in
  let run := ffmpeg E (spawned s (index sub) args) args in
  existsSync (fs s) op && negb (forceRecompute cfg) = false ->
  (exists t, tool_end run = Exits t (Some 0) /\ t < 120000) ->
  tool_fs run !! op = Some (File d) ->
  10 < Z.of_nat (length d) <= JS.MAX_SAFE_INTEGER ->
  (forall s0 k v, addToSet_ok E s0 vc k v = false) ->
  exists s' evs,
    process_stream E cfg vc ip st ys sub s = (s', inl tt) /\
    trace s' = trace s ++ evs /\
    fs s' = tool_fs run /\
    store s' = store s /\
    extractedCids s' = extractedCids s ++ [cid_of_bytes d] /\
    adds evs = [(vc, "extractedSubtitles"%string, cid_of_bytes d)] /\
    (exists e, In (EvConsole (LogProcessFailed e)) evs) /\
    (forceRecompute cfg = false ->
     forall s2, fs s2 = fs s' ->
       exists s2' evs2,
         process_stream E cfg vc ip st ys sub s2 = (s2', inl tt) /\
         trace s2' = trace s2 ++ evs2 /\
         spawns evs2 = [] /\ adds evs2 = [] /\ store s2' = store s2).
Proof.
  intros op args run Hslow Hend Hop Hsize Hdown.
  destruct (process_stream_fresh E cfg vc ip st ys sub s d Hslow Hend Hop Hsize)
    as (s' & evs & Heq & Htr & _ & _ & Hfs & Hci & _ & Hbad).
  destruct (Hbad Hdown) as (Had & Hst & e & He).
  exists s'. eexists. split; [exact Heq|]. split; [exact Htr|].
  split; [exact Hfs|]. split; [exact Hst|]. split; [exact Hci|].
  cbn [adds flat_map app]. fold (adds evs). split; [exact Had|]. split.
  { exists e. right. right. exact He. }
  intros Hforce s2 Hfs2.
  destruct (process_stream_fast E cfg vc ip st ys sub s2)
    as (s2' & evs2 & Heq2 & Htr2 & Hc2 & _ & Hst2 & _).
  { assert (Hlook : fs s' !! op = Some (File d)) by (rewrite Hfs; exact Hop).
    unfold existsSync. fold op. now rewrite Hfs2, Hlook. }
  { exact Hforce. }
  destruct (only_console_quiet evs2 Hc2) as (Hsp2 & _ & Had2 & _).
  exists s2'. eexists. split; [exact Heq2|]. split; [exact Htr2|].
  cbn [spawns adds flat_map app]. fold (spawns evs2). fold (adds evs2).
  now rewrite Hsp2, Had2.
Qed.

(** X18: two streams of the same language get the same output file: with
    [forceRecompute] off, once the first is extracted the second is taken
    for extracted too: the tool is started for the first only, and the
    identifier of the first stream's file is collected twice. *)
Theorem same_language_streams_share_one_file E cfg vc ip st ys sub1 sub2 a r s d :
  let op := path_join E PLUGIN_OUTPUT_PATH (outputFilename_of cfg st ys vc sub1) in
  let args := ffmpeg_args cfg ip op (index sub1) in
  let run := ffmpeg E (spawned s (index sub1) args) args in
  language sub1 = Some (String a r) ->
  language sub2 = Some (String a r) ->
  forceRecompute cfg = false ->
  existsSync (fs s) op = false ->
  (exists t, tool_end run = Exits t (Some 0) /\ t < 120000) ->
  tool_fs run !! op = Some (File d) ->
  10 < Z.of_nat (length d) <= JS.MAX_SAFE_INTEGER ->
  outputFilename_of cfg st ys vc sub2 = outputFilename_of cfg st ys vc sub1 /\
  exists s' evs,
    for_each [sub1; sub2] (process_stream E cfg vc ip st ys) s = (s', inl tt) /\
    trace s' = trace s ++ evs /\
    spawns evs = [args] /\
    extractedCids s' = extractedCids s ++ [cid_of_bytes d; cid_of_bytes d].
Proof.
  intros op args run Hl1 Hl2 Hforce Hnew Hend Hop Hsize.
  assert (Hname : outputFilename_of cfg st ys vc sub2 = outputFilename_of cfg st ys vc sub1)
    by (unfold outputFilename_of, langSuffix_of; now rewrite Hl1, Hl2).
  split; [exact Hname|].
  destruct (process_stream_fresh E cfg vc ip st ys sub1 s d)
    as (s1 & evs1 & Heq1 & Htr1 & Hsp1 & _ & Hfs1 & Hci1 & _); auto.
  { fold op. now rewrite Hnew. }
  destruct (process_stream_fast E cfg vc ip st ys sub2 s1)
    as (s2 & evs2 & Heq2 & Htr2 & Hc2 & _ & _ & Hci2).
  { assert (Hlook : fs s1 !! op = Some (File d)) by (rewrite Hfs1; exact Hop).
    rewrite Hname. fold op. unfold existsSync. now rewrite Hlook. }
  { exact Hforce. }
  rewrite Hname in Hci2. fold op in Hci2.
  assert (Hlook : fs s1 !! op = Some (File d)) by (rewrite Hfs1; exact Hop).
  rewrite (computeMidHash256Sync_file _ _ d Hlook) in Hci2 by lia.
  destruct (only_console_quiet evs2 Hc2) as (Hsp2 & _).
  cbn [for_each]. rewrite (bind_ok _ _ _ _ _ Heq1), (bind_ok _ _ _ _ _ Heq2).
  do 2 eexists. split; [reflexivity|].
  rewrite Htr2, Htr1, <- app_assoc. split; [reflexivity|]. split.
  - cbn [app spawns flat_map]. fold (spawns (evs1 ++ EvConsole
      (LogAlreadyExists (outputFilename_of cfg st ys vc sub2)) :: evs2)).
    rewrite spawns_app, Hsp1. cbn [spawns flat_map app]. fold (spawns evs2).
    now rewrite Hsp2.
  - rewrite Hci2, Hci1, <- app_assoc. reflexivity.
Qed.

(** X19: a tool that exits with code 0 in time but leaves a file of at
    most 10 bytes is taken to have failed, and the file is removed: after
    the call nothing is at the output path. *)
Theorem extractSubtitle_removes_small_output E cfg ip op i c s t d :
  let args := ffmpeg_args cfg ip op i in
  let run := ffmpeg E (spawned s i args) args in
  tool_end run = Exits t (Some 0) ->
  t < 120000 ->
  tool_fs run !! op = Some (File d) ->
  Z.of_nat (length d) <= 10 ->
  exists s' evs,
    extractSubtitle E cfg ip op i c s = (s', inl false) /\
    trace s' = trace s ++ evs /\
    unlinks evs = [op] /\
    fs s' = delete op (tool_fs run) /\
    existsSync (fs s') op = false.
Proof.
  intros args run Hend Hlt Hop Hsmall.
  unfold extractSubtitle. munfold. fold args.
  change {| fs := fs s; store := store s;
     trace := (trace s ++ [EvConsole (LogRunning i)]) ++ [EvSpawn "ffmpeg" args];
     extractedCids := extractedCids s; extractedLanguages := extractedLanguages s |}
    with (spawned s i args).
  fold run. rewrite Hend. unfold first_event.
  destruct (Z.ltb_spec t 120000) as [_|Hge]; [|lia]. cbn [fst].
  unfold on_close, unlinkSync, existsSync, statSync_size. munfold.
  rewrite Hop. cbn [andb].
  destruct (Z.ltb_spec 10 (Z.of_nat (length d))) as [Hbig|_]; [lia|]. munfold.
  rewrite Hop. munfold.
  do 2 eexists. split; [reflexivity|].
  cbn [trace fs]. split; [rewrite <- !app_assoc; reflexivity|].
  split; [reflexivity|]. split; [reflexivity|].
  now rewrite lookup_delete_eq.
Qed.

End RunFacts.

(** ** The turn of each stream *)

Section Turns.

(** The loop, turn by turn: [before] is what the loop did until the turn of
    [sub] began, [turn] what it did in that turn.  In its turn the tool is
    started for the stream, once, unless the output file is there at that
    time and [forceRecompute] is off; then the turn only logs. *)
Lemma for_each_turns E cfg request l : forall s,
  exists s' evs,
    for_each l (process_stream E cfg (cid request) (inputPath_of E request)
                  (sanitizeFilename (title_of request)) (yearStr_of request)) s
    = (s', inl tt) /\
    trace s' = trace s ++ evs /\
    forall l1 sub l2, l = l1 ++ sub :: l2 ->
      exists before turn after,
        evs = before ++ turn ++ after /\
        trace (fst (for_each l1
                      (process_stream E cfg (cid request) (inputPath_of E request)
                         (sanitizeFilename (title_of request)) (yearStr_of request)) s))
        = trace s ++ before /\
        if existsSync
             (fs (fst (for_each l1
                         (process_stream E cfg (cid request) (inputPath_of E request)
                            (sanitizeFilename (title_of request)) (yearStr_of request)) s)))
             (outputPath_of E cfg request sub)
           && negb (forceRecompute cfg)
        then spawns turn = []
             /\ In (EvConsole (LogAlreadyExists
                                 (outputFilename_of cfg (sanitizeFilename (title_of request))
                                    (yearStr_of request) (cid request) sub))) turn
        else spawns turn = [args_of E cfg request sub].
Proof.
  set (body := process_stream E cfg (cid request) (inputPath_of E request)
                 (sanitizeFilename (title_of request)) (yearStr_of request)).
  induction l as [|x l IH]; intros s.
  - exists s, []. split; [reflexivity|]. split; [now rewrite app_nil_r|].
    intros [|y l1] sub l2 Hl; discriminate Hl.
  - assert (Hx : exists s1 turn1,
              body x s = (s1, inl tt) /\ trace s1 = trace s ++ turn1 /\
              if existsSync (fs s) (outputPath_of E cfg request x)
                 && negb (forceRecompute cfg)
              then spawns turn1 = []
                   /\ In (EvConsole (LogAlreadyExists
                                       (outputFilename_of cfg
                                          (sanitizeFilename (title_of request))
                                          (yearStr_of request) (cid request) x))) turn1
              else spawns turn1 = [args_of E cfg request x]).
    { destruct (existsSync (fs s) (outputPath_of E cfg request x)
                && negb (forceRecompute cfg)) eqn:Hc.
      - apply andb_true_iff in Hc as [Hex Hforce]. apply negb_true_iff in Hforce.
        destruct (process_stream_fast E cfg (cid request) (inputPath_of E request)
                    (sanitizeFilename (title_of request)) (yearStr_of request) x s
                    Hex Hforce)
          as (s1 & evs1 & Heq1 & Htr1 & Hc1 & _).
        destruct (only_console_quiet evs1 Hc1) as (Hsp1 & _).
        exists s1. eexists. split; [exact Heq1|]. split; [exact Htr1|].
        split; [|now left].
        cbn [spawns flat_map app]. fold (spawns evs1). exact Hsp1.
      - destruct (process_stream_slow E cfg (cid request) (inputPath_of E request)
                    (sanitizeFilename (title_of request)) (yearStr_of request) x s Hc)
          as (s0 & b & s1 & evs1 & _ & Heq1 & Htr1 & Hsp1 & _).
        exists s1. eexists. split; [exact Heq1|]. split; [exact Htr1|].
        cbn [spawns flat_map app]. fold (spawns evs1). now rewrite Hsp1. }
    destruct Hx as (s1 & turn1 & Heq1 & Htr1 & Hturn1).
    destruct (IH s1) as (s' & evs & Heq & Htr & Hturns).
    exists s', (turn1 ++ evs). cbn [for_each].
    rewrite (bind_ok _ _ _ _ _ Heq1). split; [exact Heq|].
    split; [now rewrite Htr, Htr1, app_assoc|].
    intros [|y l1] sub l2 Hl.
    + cbn [app] in Hl. injection Hl as <- <-.
      exists [], turn1, evs. split; [reflexivity|].
      change (fst (for_each [] body s)) with s.
      split; [now rewrite app_nil_r|exact Hturn1].
    + cbn [app] in Hl. injection Hl as <- Hl.
      destruct (Hturns l1 sub l2 Hl) as (before & turn & after & Hevs & Htrb & Hq).
      exists (turn1 ++ before), turn, after.
      cbn [for_each]. rewrite (bind_ok _ _ _ _ _ Heq1).
      split; [now rewrite Hevs, <- app_assoc|].
      split; [now rewrite Htrb, Htr1, app_assoc|exact Hq].
Qed.

(** C2, as the code has it: of the streams of a run that reaches the
    extraction loop, exactly those with a codec in the image-based list are
    skipped.  Every other stream, also one whose codec [CODEC_EXTENSION_MAP]
    does not list, gets its turn in the loop, and the tool is started for no
    stream with an image-based codec.  In its turn the tool is started for
    the stream, once, with the arguments derived for it, unless its output
    file is on disk when the turn begins and [forceRecompute] is off; then
    the turn logs that the subtitle exists and starts no tool.  The loop
    begins on the disk of the run's start, but for the directory [/output],
    which the run may have made. *)
Theorem process_skips_only_image_codecs E cfg request s0 :
  meta_field (existingMeta request) "fileType" = Some "video"%string ->
  JS.truthy (meta_field (existingMeta request) "extractedSubtitles")
    && negb (forceRecompute cfg) = false ->
  textSubtitles_of E request <> [] ->
  (existsSync (fs s0) PLUGIN_OUTPUT_PATH = true
   \/ forall s, mkdirSync_result E s PLUGIN_OUTPUT_PATH <> None) ->
  exists evs,
    trace (process E cfg request s0) = trace s0 ++ evs /\
    (forall sub,
       In sub (parseSubtitleStreams E (default ∅ (existingMeta request))) ->
       codec sub ∉ UNSUPPORTED_SUBTITLE_CODECS ->
       visited E cfg request sub evs) /\
    (forall a, In a (spawns evs) ->
       exists sub,
         In sub (parseSubtitleStreams E (default ∅ (existingMeta request))) /\
         (codec sub ∉ UNSUPPORTED_SUBTITLE_CODECS) /\
         a = args_of E cfg request sub) /\
    exists s2,
      (forall p, p <> PLUGIN_OUTPUT_PATH -> fs s2 !! p = fs s0 !! p) /\
      forall l1 sub l2,
        List.filter is_text_subtitle
          (parseSubtitleStreams E (default ∅ (existingMeta request)))
        = l1 ++ sub :: l2 ->
        exists before turn after,
          evs = before ++ turn ++ after /\
          trace (fst (for_each l1
                        (process_stream E cfg (cid request) (inputPath_of E request)
                           (sanitizeFilename (title_of request)) (yearStr_of request))
                        s2))
          = trace s0 ++ before /\
          if existsSync
               (fs (fst (for_each l1
                           (process_stream E cfg (cid request) (inputPath_of E request)
                              (sanitizeFilename (title_of request)) (yearStr_of request))
                           s2)))
               (outputPath_of E cfg request sub)
             && negb (forceRecompute cfg)
          then spawns turn = []
               /\ In (EvConsole (LogAlreadyExists
                                   (outputFilename_of cfg
                                      (sanitizeFilename (title_of request))
                                      (yearStr_of request) (cid request) sub))) turn
          else spawns turn = [args_of E cfg request sub].
Proof.
  intros Hvideo Halready Htext Hdir.
  destruct (process_loop E cfg request s0 Hvideo Halready Htext Hdir)
    as (evs0 & p0 & Htr0 & _ & _ & Hvis & Hsp).
  destruct (process_loop_decomposed E cfg request s0 Hvideo Halready Htext Hdir)
    as (s2 & pre & Htr2 & _ & _ & _ & _ & _ & _ & Hframe & Hend).
  destruct (for_each_turns E cfg request (textSubtitles_of E request) s2)
    as (s3 & evs & Heq3 & Htr3 & Hturns).
  destruct (Hend s3 Heq3) as (m & p & Hrun & _).
  assert (Htr : trace (process E cfg request s0)
                = trace s0 ++ pre ++ evs ++ [EvConsole m; EvCallback p]).
  { rewrite Hrun. cbn [trace]. rewrite Htr3, Htr2. now rewrite <- !app_assoc. }
  assert (Hevs : evs0 = pre ++ evs ++ [EvConsole m; EvCallback p]).
  { rewrite Htr in Htr0. now apply app_inv_head in Htr0. }
  subst evs0.
  exists (pre ++ evs ++ [EvConsole m; EvCallback p]).
  split; [exact Htr|]. split.
  { intros sub Hin Hcodec. apply Hvis. now apply in_textSubtitles. }
  split.
  { intros a Ha. destruct (Hsp a Ha) as (sub & Hin & ->).
    apply in_textSubtitles in Hin as [Hin Hcodec]. eauto. }
  exists s2. split; [exact Hframe|].
  intros l1 sub l2 Hl.
  destruct (Hturns l1 sub l2 Hl) as (before & turn & after & Hevs & Htrb & Hq).
  exists (pre ++ before), turn, (after ++ [EvConsole m; EvCallback p]).
  split; [now rewrite Hevs, <- !app_assoc|].
  split; [now rewrite Htrb, Htr2, app_assoc|exact Hq].
Qed.

End Turns.

(** ** What a run may touch *)

Section Confinement.

Ltac munfold :=
  repeat (progress (unfold mbind, mret, M_bind, M_ret, bind, ret, throw, try_catch, get, modify,
    console, emit, set_fs, push_cid, push_language, sendCallback, set_store,
    clear_arrays in *; cbn [fst snd fs store trace extractedCids extractedLanguages] in * )).

Lemma on_close_events vc args op i code stderr s :
  exists s' b evs,
    on_close op i code stderr s = (s', inl b) /\
    trace s' = trace s ++ evs /\
    Forall (stream_event vc op args) evs.
Proof.
  unfold on_close, unlinkSync, existsSync, statSync_size. munfold.
  destruct code as [[| |]|]; cbn [andb].
  2-4: do 3 eexists; (split; [reflexivity|]); cbn [trace];
       (split; [reflexivity|]); repeat constructor.
  destruct (fs s !! op) as [[d|n]|] eqn:Hop; cbn [andb].
  - destruct (10 <? Z.of_nat (length d)); munfold; [|rewrite Hop; munfold].
    all: do 3 eexists; (split; [reflexivity|]); cbn [trace];
      rewrite <- ?app_assoc; (split; [reflexivity|]); repeat constructor.
  - destruct (10 <? n); munfold; [|rewrite Hop; munfold].
    all: do 3 eexists; (split; [reflexivity|]); cbn [trace];
      rewrite <- ?app_assoc; (split; [reflexivity|]); repeat constructor.
  - do 3 eexists. split; [reflexivity|]. cbn [trace].
    split; [reflexivity|]. repeat constructor.
Qed.

Lemma extractSubtitle_events E cfg vc ip op i c s :
  exists s' b evs,
    extractSubtitle E cfg ip op i c s = (s', inl b) /\
    trace s' = trace s ++ evs /\
    Forall (stream_event vc op (ffmpeg_args cfg ip op i)) evs.
Proof.
  unfold extractSubtitle. munfold.
  set (args := ffmpeg_args cfg ip op i).
  set (run := ffmpeg E _ args).
  set (s1 := {| fs := tool_fs run; store := store s;
                trace := (trace s ++ [EvConsole (LogRunning i)]) ++ [EvSpawn "ffmpeg" args];
                extractedCids := extractedCids s;
                extractedLanguages := extractedLanguages s |}).
  destruct (fst (first_event (tool_end run) 120000)) as [code|message|].
  - destruct (on_close_events vc args op i code (tool_stderr run) s1)
      as (s' & b & evs & Heq & Htr & Hev).
    rewrite Heq. do 3 eexists. split; [reflexivity|]. cbn [trace].
    rewrite Htr. subst s1. cbn [trace].
    rewrite <- !app_assoc. split; [reflexivity|].
    apply Forall_app. split; [repeat constructor|].
    apply Forall_app. split; [repeat constructor|].
    apply Forall_app. split; [exact Hev|]. repeat constructor.
  - do 3 eexists. split; [reflexivity|]. subst s1. cbn [trace].
    rewrite <- !app_assoc. split; [reflexivity|]. repeat constructor.
  - destruct (tool_end run) as [t code|t message|].
    all: do 3 eexists; (split; [reflexivity|]); subst s1; cbn [trace];
      rewrite <- !app_assoc; (split; [reflexivity|]); repeat constructor.
Qed.

Lemma process_stream_events E cfg vc ip st ys sub s :
  let op := path_join E PLUGIN_OUTPUT_PATH (outputFilename_of cfg st ys vc sub) in
  exists s' evs,
    process_stream E cfg vc ip st ys sub s = (s', inl tt) /\
    trace s' = trace s ++ evs /\
    Forall (stream_event vc op (ffmpeg_args cfg ip op (index sub))) evs.
Proof.
  intros op.
  destruct (existsSync (fs s) op && negb (forceRecompute cfg)) eqn:Hpath.
  - apply andb_true_iff in Hpath as [Hex Hforce]. apply negb_true_iff in Hforce.
    destruct (process_stream_fast E cfg vc ip st ys sub s Hex Hforce)
      as (s' & evs & Heq & Htr & Hcons & _).
    exists s'. eexists. split; [exact Heq|]. split; [exact Htr|].
    constructor; [exact I|].
    eapply List.Forall_impl; [|exact Hcons]. intros e [m ->]. exact I.
  - unfold process_stream. fold op. munfold. rewrite Hpath.
    destruct (extractSubtitle_events E cfg vc ip op (index sub) (codec sub) s)
      as (s1 & b & evs1 & Heq & Htr & Hev).
    rewrite Heq. destruct b.
    + unfold computeCid, note_language, addToSet. munfold.
      destruct (computeMidHash256Sync (fs s1) op) as [c|]; munfold.
      * destruct (language sub) as [[|a r]|]; munfold.
        2: destruct (existsb _ _); munfold.
        all: repeat (match goal with
                     | |- context [addToSet_ok ?e ?x ?y ?z ?w] =>
                         destruct (addToSet_ok e x y z w) eqn:?; munfold
                     end).
        all: do 2 eexists; (split; [reflexivity|]); cbn [trace];
          rewrite Htr, <- ?app_assoc; (split; [reflexivity|]);
          apply Forall_app; (split; [exact Hev|]);
          cbn [app]; repeat (apply List.Forall_cons; [cbn; auto|]); apply List.Forall_nil.
      * do 2 eexists. split; [reflexivity|]. cbn [trace].
        rewrite Htr, <- ?app_assoc. split; [reflexivity|].
        apply Forall_app. split; [exact Hev|]. repeat constructor.
    + munfold. exists s1, evs1. repeat split; auto.
Qed.

Lemma for_each_events E cfg request l : forall s,
  exists s' evs,
    for_each l (process_stream E cfg (cid request) (inputPath_of E request)
                  (sanitizeFilename (title_of request)) (yearStr_of request)) s
    = (s', inl tt) /\
    trace s' = trace s ++ evs /\
    Forall (fun e => exists sub, In sub l
              /\ stream_event (cid request) (outputPath_of E cfg request sub)
                   (args_of E cfg request sub) e) evs.
Proof.
  induction l as [|sub l IH]; intros s.
  - exists s, []. cbn. rewrite app_nil_r. repeat split. constructor.
  - cbn [for_each].
    destruct (process_stream_events E cfg (cid request) (inputPath_of E request)
                (sanitizeFilename (title_of request)) (yearStr_of request) sub s)
      as (s1 & evs1 & Heq1 & Htr1 & Hev1).
    rewrite (bind_ok _ _ _ _ _ Heq1).
    destruct (IH s1) as (s' & evs & Heq & Htr & Hev).
    rewrite Heq. do 2 eexists. split; [reflexivity|].
    rewrite Htr, Htr1, <- app_assoc. split; [reflexivity|].
    apply Forall_app. split.
    + eapply List.Forall_impl; [|exact Hev1]. intros e He. exists sub.
      split; [now left|exact He].
    + eapply List.Forall_impl; [|exact Hev]. intros e (sub' & Hin & He).
      exists sub'. split; [now right|exact He].
Qed.

Lemma stream_event_allowed E cfg request sub e :
  In sub (textSubtitles_of E request) ->
  stream_event (cid request) (outputPath_of E cfg request sub)
    (args_of E cfg request sub) e ->
  allowed_event E cfg request e.
Proof.
  intros Hin. destruct e; cbn; try tauto.
  - intros [-> ->]. eauto.
  - intros ->. eauto.
Qed.

(** X21: whatever the request, the disk, the tool and the store do, a run
    touches the outside only in these ways: it logs, sends its callback,
    makes the directory /output, starts ffmpeg for a text subtitle stream
    of the request with the arguments derived for that stream, kills it
    with SIGKILL, deletes the output file of such a stream, and adds to
    the sets [extractedSubtitles] and [subtitleLanguages] of the request's
    own video.  It deletes no other path and writes under no other key.
    What the handlers of [extractSubtitle] still do after their promise
    has settled is a log or a [kill] with SIGKILL. *)
Theorem process_effects_are_confined E cfg request s0 :
  exists evs,
    trace (process E cfg request s0) = trace s0 ++ evs
    /\ Forall (allowed_event E cfg request) evs.
Proof.
  destruct (bool_decide (meta_field (existingMeta request) "fileType" = Some "video"%string))
    eqn:Hvideo.
  2: { unfold process, process_try, report. munfold. rewrite Hvideo. cbn [negb].
       eexists. split; [reflexivity|]. repeat constructor. }
  destruct (JS.truthy (meta_field (existingMeta request) "extractedSubtitles")
            && negb (forceRecompute cfg)) eqn:Halready.
  { unfold process, process_try, report. munfold. rewrite Hvideo, Halready. cbn [negb].
    eexists. split; [reflexivity|]. repeat constructor. }
  destruct (textSubtitles_of E request) as [|t0 ts] eqn:Htext.
  { unfold process, process_try, report. munfold. rewrite Hvideo, Halready. cbn [negb].
    unfold textSubtitles_of in Htext.
    destruct (parseSubtitleStreams E (default ∅ (existingMeta request)))
      as [|sub0 subs]; cbn [length Nat.eqb].
    - eexists. split; [reflexivity|]. repeat constructor.
    - rewrite Htext. cbn [length Nat.eqb].
      eexists. split; [rewrite <- app_assoc; reflexivity|]. repeat constructor. }
  apply bool_decide_eq_true_1 in Hvideo.
  assert (Hne : textSubtitles_of E request <> []) by (rewrite Htext; discriminate).
  unfold process, try_catch.
  rewrite (process_try_prefix E cfg request _ s0 Hvideo Halready Hne).
  clear Htext. set (l := textSubtitles_of E request) in *.
  set (pre := EvConsole (LogFound (length l) (filePath request))
              :: match createWebDAVClient E with
                 | Some _ => [EvConsole (LogWebDAVInput (inputPath_of E request))]
                 | None => []
                 end).
  assert (Hpre : Forall (allowed_event E cfg request) pre)
    by (subst pre; destruct (createWebDAVClient E); repeat constructor).
  set (s1 := {| fs := fs s0; store := store s0; trace := trace s0 ++ pre;
                extractedCids := extractedCids s0;
                extractedLanguages := extractedLanguages s0 |}).
  unfold mbind at 1, M_bind at 1, bind at 1.
  rewrite (ensure_output_directory E (existsSync (fs s0) PLUGIN_OUTPUT_PATH) s1).
  assert (Hloop : forall s2 mk,
            trace s2 = trace s1 ++ mk -> Forall (allowed_event E cfg request) mk ->
            exists evs,
              trace (fst (let '(s', r) :=
                       (clear_arrays ;;
                        for_each l
                          (process_stream E cfg (cid request) (inputPath_of E request)
                             (sanitizeFilename (title_of request)) (yearStr_of request)) ;;
                        s ← get;
                        console (if (0 <? length (extractedCids s))%nat
                                 then LogExtractedCount (length (extractedCids s))
                                        (filePath request)
                                 else LogNoneExtracted (filePath request)) ;;
                        report E request (Date_now E s0) completed None None) s2 in
                     match r with
                     | inl a => (s', inl a)
                     | inr e => (console (LogError e) ;;
                                 report E request (Date_now E s0) failed None (Some e)) s'
                     end))
              = trace s0 ++ evs
              /\ Forall (allowed_event E cfg request) evs).
  { intros s2 mk Htr2 Hmk.
    erewrite bind_ok by reflexivity.
    destruct (for_each_events E cfg request l
                {| fs := fs s2; store := store s2; trace := trace s2;
                   extractedCids := []; extractedLanguages := [] |})
      as (s3 & evs & Heq3 & Htr3 & Hev3).
    rewrite (bind_ok _ _ _ _ _ Heq3).
    destruct (process_try_end E request (Date_now E s0) s3) as (m & p & Hend & _).
    rewrite Hend. cbn [fst trace].
    exists (pre ++ mk ++ evs ++ [EvConsole m; EvCallback p]).
    rewrite Htr3. cbn [trace]. rewrite Htr2. subst s1. cbn [trace].
    split; [rewrite <- !app_assoc; reflexivity|].
    apply Forall_app. split; [exact Hpre|].
    apply Forall_app. split; [exact Hmk|].
    apply Forall_app. split; [|repeat constructor].
    eapply List.Forall_impl; [|exact Hev3].
    intros e (sub & Hin & He). exact (stream_event_allowed E cfg request sub e Hin He). }
  destruct (existsSync (fs s0) PLUGIN_OUTPUT_PATH).
  - apply (Hloop s1 []); [now rewrite app_nil_r|constructor].
  - cbv zeta.
    destruct (mkdirSync_result E _ PLUGIN_OUTPUT_PATH) as [reported|].
    + apply (Hloop _ [EvMkdir PLUGIN_OUTPUT_PATH]); [reflexivity|].
      repeat constructor.
    + unfold report. munfold. eexists.
      split; [subst s1; cbn [trace]; rewrite <- !app_assoc; reflexivity|].
      apply Forall_app. split; [exact Hpre|]. repeat constructor.
Qed.

End Confinement.

(** ** The classifier: codec names *)

Section ClassifierFacts.

Lemma or_else_nonempty v d : d <> EmptyString -> or_else v d <> EmptyString.
Proof. intros Hd. destruct v as [[|c r]|]; cbn; [exact Hd|discriminate|exact Hd]. Qed.

Lemma scan_entries_codec_nonempty entries : forall i streams,
  Forall (fun s => codec s <> EmptyString) streams ->
  Forall (fun s => codec s <> EmptyString) (scan_entries entries i streams).
Proof.
  induction entries as [|e entries IH]; intros i streams Hs; [exact Hs|].
  destruct e as [|ctype cname tags]; [exact Hs|].
  cbn [scan_entries]. destruct ctype as [t|]; [|now apply IH].
  destruct (String.eqb t "subtitle"); [|now apply IH].
  apply IH. apply Forall_app. split; [exact Hs|].
  constructor; [|constructor]. cbn [codec]. now apply or_else_nonempty.
Qed.

Lemma scan_fields_codec_nonempty existingMeta (l : list nat) : forall streams,
  Forall (fun s => codec s <> EmptyString) streams ->
  Forall (fun s => codec s <> EmptyString)
         (fold_left (scan_field existingMeta) l streams).
Proof.
  induction l as [|i l IH]; intros streams Hs; [exact Hs|].
  cbn [fold_left]. apply IH. unfold scan_field.
  destruct (existingMeta !! subtitle_key i "_codec") as [[|c r]|]; cbn [JS.truthy]; try exact Hs.
  apply Forall_app. split; [exact Hs|]. constructor; [|constructor].
  cbn [codec or_else]. discriminate.
Qed.

(** X20: every stream the classifier returns has a codec name that is not
    empty: a JSON entry without one is given the name unknown, and a
    numbered field with an empty codec gives no stream. *)
Theorem parseSubtitleStreams_codec_not_empty E existingMeta :
  Forall (fun s => codec s <> EmptyString) (parseSubtitleStreams E existingMeta).
Proof.
  assert (Hj : Forall (fun s => codec s <> EmptyString) (json_streams E existingMeta)).
  { unfold json_streams. destruct (JS.truthy _); [|constructor].
    destruct (JSON_parse E _); try constructor.
    now apply scan_entries_codec_nonempty. }
  unfold parseSubtitleStreams.
  destruct (json_streams E existingMeta) as [|s0 r] eqn:Hjs; [|exact Hj].
  now apply scan_fields_codec_nonempty.
Qed.

End ClassifierFacts.

(** ** The further theorems at concrete inputs *)

Section MoreConcreteRuns.

Import Scenario.
Import Cases.

Local Open Scope string_scope.

Lemma base32_loop_lossless_witness :
  base32_loop [x68; x69] = base32_loop [x68; x69] /\ [x68; x69] = [x68; x69].
Proof.
  split; [reflexivity|].
  apply (base32_loop_lossless [x68; x69] [x68; x69]). reflexivity.
Defined.

Lemma cid_text_shape_witness :
  exists rest,
    computeMidHash256Sync {[ "/output/a.srt" := File [x68; x69] ]} "/output/a.srt"
    = Some (String.append "bagacbabae" rest)
    /\ String.length rest = 52%nat.
Proof.
  destruct (cid_text_shape {[ "/output/a.srt" := File [x68; x69] ]} "/output/a.srt"
              [x68; x69])
    as (rest & Hcid & Hlen & _).
  - vm_compute. reflexivity.
  - vm_compute. discriminate.
  - exists rest. split; assumption.
Defined.

Lemma computeMidHash256Sync_ignores_fresh_buffers_witness :
  computeMidHash256Sync_alloc (fun n => repeat xff (Z.to_nat n))
    {[ "/output/a.srt" := File [x68; x69] ]} "/output/a.srt"
  = computeMidHash256Sync {[ "/output/a.srt" := File [x68; x69] ]} "/output/a.srt".
Proof.
  apply computeMidHash256Sync_ignores_fresh_buffers.
  intros n _. apply repeat_length.
Defined.

Lemma equal_identifiers_explained_witness :
  (length [x68; x69] = length [x68; x69] /\ sample_of [x68; x69] = sample_of [x68; x69])
  \/ (hash_input [x68; x69] <> hash_input [x68; x69]
      /\ SHA256.sha256 (hash_input [x68; x69]) = SHA256.sha256 (hash_input [x68; x69])).
Proof.
  apply (equal_identifiers_explained
           {[ "/output/a.srt" := File [x68; x69]; "/output/b.srt" := File [x68; x69] ]}
           "/output/a.srt" "/output/b.srt" [x68; x69] [x68; x69]).
  - vm_compute. reflexivity.
  - vm_compute. reflexivity.
  - vm_compute. discriminate.
  - vm_compute. discriminate.
  - vm_compute. reflexivity.
Defined.

Lemma sample_is_the_middle_witness :
  exists pre post,
    window_file (repeat x00 33)
    = (pre ++ sample_of (window_file (repeat x00 33)) ++ post)%list
    /\ (length pre <= length post <= length pre + 1)%nat.
Proof.
  destruct (sample_is_the_middle (window_file (repeat x00 33)))
    as (pre & post & Hsplit & _ & Hmid).
  - rewrite window_file_length; [lia|apply repeat_length].
  - exists pre, post. split; assumption.
Defined.

Lemma process_skips_only_image_codecs_witness :
  exists evs before turn after,
    trace (process E_ok cfg (request meta_unknown_codec) (initial ∅ ∅)) = evs /\
    evs = (before ++ turn ++ after)%list /\
    spawns turn = [args_of E_ok cfg (request meta_unknown_codec)
                     (stream 0 "unknown" None)].
Proof.
  destruct (process_skips_only_image_codecs E_ok cfg (request meta_unknown_codec)
              (initial ∅ ∅))
    as (evs & Htr & _ & _ & s2 & Hframe & Hturns).
  - vm_compute. reflexivity.
  - vm_compute. reflexivity.
  - vm_compute. discriminate.
  - right. intros s. vm_compute. discriminate.
  - destruct (Hturns [] (stream 0 "unknown" None) [])
      as (before & turn & after & Hevs & _ & Hq).
    + vm_compute. reflexivity.
    + exists evs, before, turn, after.
      split; [exact Htr|]. split; [exact Hevs|].
      change (fst (for_each [] _ s2)) with s2 in Hq.
      assert (Hnone : existsSync (fs s2)
                        (outputPath_of E_ok cfg (request meta_unknown_codec)
                           (stream 0 "unknown" None)) = false).
      { unfold existsSync. rewrite Hframe; [reflexivity|]. vm_compute. discriminate. }
      rewrite Hnone in Hq. exact Hq.
Defined.

Lemma sanitizeFilename_clean_witness :
  let out := list_ascii_of_string (sanitizeFilename " A <b>:  c? ") in
  Forall (fun c => is_invalid_char c = false) out
  /\ Forall (fun c => is_space c = true -> c = " "%char) out
  /\ (forall a b, out <> (a ++ [" "; " "]%char ++ b)%list)
  /\ (forall r, out <> " "%char :: r)
  /\ (forall r, out <> (r ++ [" "%char])%list).
Proof.
  apply (sanitizeFilename_clean " A <b>:  c? "). repeat constructor.
Defined.

Lemma sanitizeFilename_idempotent_witness :
  sanitizeFilename (sanitizeFilename " A <b>:  c? ") = sanitizeFilename " A <b>:  c? ".
Proof.
  apply (sanitizeFilename_idempotent " A <b>:  c? "). repeat constructor.
Defined.

Lemma sanitizeFilename_empty_iff_witness :
  sanitizeFilename " <?> " = EmptyString.
Proof.
  apply (sanitizeFilename_empty_iff " <?> ").
  - repeat constructor.
  - repeat constructor.
Defined.

Lemma inputPath_of_webdav_witness :
  inputPath_of E_webdav (request meta_subrip) = "http://meta-sort/webdav/movie.mkv".
Proof.
  apply (inputPath_of_webdav E_webdav (request meta_subrip)
           "http://meta-sort/webdav" "movie.mkv").
  - left. reflexivity.
  - reflexivity.
Defined.

Lemma process_fails_without_output_directory_witness :
  exists evs p,
    trace (process E_no_mkdir cfg (request meta_subrip) (initial ∅ ∅)) = evs /\
    callbacks evs = [p] /\ status p = failed /\ spawns evs = [].
Proof.
  destruct (process_fails_without_output_directory E_no_mkdir cfg (request meta_subrip)
              (initial ∅ ∅))
    as (evs & p & Htr & Hcb & Hst & _ & Hsp & _).
  - vm_compute. reflexivity.
  - vm_compute. reflexivity.
  - vm_compute. discriminate.
  - vm_compute. reflexivity.
  - intros s. reflexivity.
  - exists evs, p. repeat split; assumption.
Defined.

Lemma forced_run_starts_tool_for_every_text_stream_witness :
  exists evs p,
    trace (process E_ok cfg_force (request meta_subrip)
             (initial {[ eng_srt := File (repeat x41 20) ]} ∅))
    = (evs ++ [EvCallback p])%list /\
    spawns evs = map (args_of E_ok cfg_force (request meta_subrip))
                   (textSubtitles_of E_ok (request meta_subrip)).
Proof.
  destruct (forced_run_starts_tool_for_every_text_stream E_ok cfg_force
              (request meta_subrip) (initial {[ eng_srt := File (repeat x41 20) ]} ∅))
    as (evs & p & Htr & Hsp & _).
  - reflexivity.
  - vm_compute. reflexivity.
  - vm_compute. discriminate.
  - right. intros s. vm_compute. discriminate.
  - exists evs, p. split; assumption.
Defined.

Lemma rerun_with_files_present_is_quiet_witness :
  exists evs p,
    trace (process E_ok cfg (request meta_subrip)
             (initial {[ "/output" := Dir 4096; eng_srt := File (repeat x41 20) ]} ∅))
    = (evs ++ [EvCallback p])%list /\
    status p = completed /\ only_console evs.
Proof.
  destruct (rerun_with_files_present_is_quiet E_ok cfg (request meta_subrip)
              (initial {[ "/output" := Dir 4096; eng_srt := File (repeat x41 20) ]} ∅))
    as (evs & p & Htr & Hst & Hquiet & _).
  - reflexivity.
  - vm_compute. reflexivity.
  - vm_compute. reflexivity.
  - vm_compute. discriminate.
  - vm_compute. reflexivity.
  - intros sub Hin. vm_compute in Hin. destruct Hin as [<-|[]]. vm_compute. reflexivity.
  - exists evs, p. repeat split; assumption.
Defined.

Lemma fresh_extraction_is_recorded_witness :
  exists s',
    fst (process_stream E_ok cfg "bafkvideo" "/files/movie.mkv" "Movie" EmptyString
           (stream 0 "subrip" (Some "eng")) (initial ∅ ∅)) = s' /\
    fs s' !! eng_srt = Some (File (repeat x41 20)) /\
    cid_of_bytes (repeat x41 20)
      ∈ default ∅ (store s' !! ("bafkvideo", "extractedSubtitles")).
Proof.
  destruct (fresh_extraction_is_recorded E_ok cfg "bafkvideo" "/files/movie.mkv"
              "Movie" EmptyString (stream 0 "subrip" (Some "eng")) (initial ∅ ∅)
              (repeat x41 20))
    as (s' & evs & Heq & _ & _ & Hfs & _ & _ & Hset & _).
  - vm_compute. reflexivity.
  - exists 500%Z. split; [reflexivity|reflexivity].
  - vm_compute. reflexivity.
  - split; [reflexivity|vm_compute; discriminate].
  - intros s0 k v. reflexivity.
  - exists s'. rewrite Heq. split; [reflexivity|]. split.
    + rewrite Hfs. vm_compute. reflexivity.
    + apply Hset. now left.
Defined.

Lemma failed_metadata_write_is_not_retried_witness :
  exists s',
    fst (process_stream E_store_down cfg "bafkvideo" "/files/movie.mkv" "Movie" EmptyString
           (stream 0 "subrip" (Some "eng")) (initial ∅ ∅)) = s' /\
    fs s' !! eng_srt = Some (File (repeat x41 20)) /\
    store s' = ∅.
Proof.
  destruct (failed_metadata_write_is_not_retried E_store_down cfg "bafkvideo"
              "/files/movie.mkv" "Movie" EmptyString (stream 0 "subrip" (Some "eng"))
              (initial ∅ ∅) (repeat x41 20))
    as (s' & evs & Heq & _ & Hfs & Hst & _).
  - vm_compute. reflexivity.
  - exists 500%Z. split; [reflexivity|reflexivity].
  - vm_compute. reflexivity.
  - split; [reflexivity|vm_compute; discriminate].
  - intros s0 k v. reflexivity.
  - exists s'. rewrite Heq. split; [reflexivity|]. split.
    + rewrite Hfs. vm_compute. reflexivity.
    + exact Hst.
Defined.

Lemma same_language_streams_share_one_file_witness :
  exists s' evs,
    for_each [stream 0 "subrip" (Some "eng"); stream 1 "subrip" (Some "eng")]
      (process_stream E_ok cfg "bafkvideo" "/files/movie.mkv" "Movie" EmptyString)
      (initial ∅ ∅) = (s', inl tt) /\
    trace s' = evs /\
    length (spawns evs) = 1%nat /\
    extractedCids s' = [cid_of_bytes (repeat x41 20); cid_of_bytes (repeat x41 20)].
Proof.
  destruct (same_language_streams_share_one_file E_ok cfg "bafkvideo" "/files/movie.mkv"
              "Movie" EmptyString (stream 0 "subrip" (Some "eng"))
              (stream 1 "subrip" (Some "eng")) "e"%char "ng" (initial ∅ ∅)
              (repeat x41 20))
    as (_ & s' & evs & Heq & Htr & Hsp & Hci).
  - reflexivity.
  - reflexivity.
  - reflexivity.
  - vm_compute. reflexivity.
  - exists 500%Z. split; [reflexivity|reflexivity].
  - vm_compute. reflexivity.
  - split; [reflexivity|vm_compute; discriminate].
  - exists s', evs. split; [exact Heq|]. split; [exact Htr|].
    split; [now rewrite Hsp|exact Hci].
Defined.

Lemma extractSubtitle_removes_small_output_witness :
  exists s',
    extractSubtitle E_tiny cfg "/files/movie.mkv" eng_srt 0 "subrip" (initial ∅ ∅)
    = (s', inl false) /\
    existsSync (fs s') eng_srt = false.
Proof.
  destruct (extractSubtitle_removes_small_output E_tiny cfg "/files/movie.mkv" eng_srt
              0 "subrip" (initial ∅ ∅) 500 (repeat x41 5))
    as (s' & evs & Heq & _ & _ & _ & Hgone).
  - reflexivity.
  - reflexivity.
  - vm_compute. reflexivity.
  - vm_compute. discriminate.
  - exists s'. split; assumption.
Defined.

End MoreConcreteRuns.
